(** * Uniblox-Ecom: pricing and order settlement

    A shallow embedding of the storefront's pricing arithmetic
    ([src/lib/utils/index.ts]), of its Mongoose collections and of the
    route handlers that read or write them ([api/cart], [api/cart/discount],
    [api/cart/[productId]], [api/checkout], [api/admin/settings],
    [api/admin/discounts], [api/admin/stats]).

    Conventions of the embedding:
    - the routes carry a JavaScript [number] holding money or a
      percentage as an exact rational ([Q]): they are about the documents
      that are read and written.  What IEEE-754 doubles do to the pricing
      expressions is the subject of [Double], which writes them on the
      rationals that doubles stand for and rounds after every operation,
      and of [Binary64], which evaluates them on hardware doubles.
      Counters, quantities, stock levels and day counts are integers
      ([Z]);
    - instants are milliseconds since the epoch ([Z]); the time zone of
      the host is part of the environment, since [getExpiryDate] counts
      days on the local calendar;
    - a Mongo [ObjectId] is a [positive]; an id that a client sends as a
      string is cast as Mongoose casts it ([castObjectId]) and compared
      by its spelling ([toString]) where the source compares strings.
      The [productId] of the routes under [api/cart/[productId]] is the
      id that the path segment spells;
    - a string is a sequence of bytes; [toUpperCase] and [trim] are those
      of JavaScript on strings of ASCII characters;
    - every handler is a function from the store to a reply and the store
      it leaves behind.  There is no transaction in the source: when a
      handler throws half-way, the writes it already made stay, and the
      [catch] block answers with status 500;
    - what a handler draws from its environment (the clock, the uuid
      generator, the driver's fresh [_id]s, the payment gateway) is an
      explicit argument. *)

From Stdlib Require Import ZArith QArith Qround Qabs Qpower Lia Lqa Ascii.
From Stdlib Require Import PrimFloat FloatOps SpecFloat.
From Stdlib Require Import Sorted.
From stdpp Require Import gmap strings list.

Local Open Scope Z_scope.

(** ** Pricing arithmetic *)

Module Pricing.

Local Open Scope Q_scope.

(** [Math.round]: the nearest integer, ties towards +infinity. *)
Definition Math_round (x : Q) : Z := Qfloor (x + (1 # 2)).

(** [calculateDiscount] of [lib/utils/index.ts]; the same expression is
    written inline in [GET /api/cart] and [POST /api/checkout]. *)
Definition calculateDiscount (subtotal discountPercent : Q) : Q :=
  inject_Z (Math_round (((subtotal * discountPercent) / 100) * 100)) / 100.

(** [const total = subtotal - discountAmount] of both pricing routes. *)
Definition computeTotal (subtotal discountAmount : Q) : Q :=
  subtotal - discountAmount.

(** The rounding rule in the specification's words: the value is cut to
    a whole number of hundredths, and goes up to the next hundredth as
    soon as the part that was cut off reaches half a hundredth. *)
Definition round_half_up_2dp (y : Q) : Q :=
  let k := Qfloor (y * 100) in
  if Qle_bool (1 # 2) (y * 100 - inject_Z k)
  then inject_Z (k + 1) / 100
  else inject_Z k / 100.

End Pricing.

(** ** Pricing arithmetic on doubles *)

Module Binary64.

Local Open Scope float_scope.

Definition two52 : float := 4503599627370496.

(** The integer nearest to [x], for |x| < 2^51: adding and removing 2^52
    leaves no room for a fraction. *)
Definition nearest (x : float) : float :=
  if 0 <=? x then (x + two52) - two52 else (x - two52) + two52.

(** [Math.floor], for |x| < 2^51. *)
Definition Math_floor (x : float) : float :=
  let r := nearest x in
  if x <? r then r - 1 else r.

(** [Math.round], for |x| < 2^51: ties go towards +infinity. *)
Definition Math_round (x : float) : float :=
  let f := Math_floor x in
  if 0.5 <=? x - f then f + 1 else f.

(** [calculateDiscount] of [lib/utils/index.ts], operation by operation. *)
Definition calculateDiscount (subtotal discountPercent : float) : float :=
  Math_round (((subtotal * discountPercent) / 100) * 100) / 100.

Definition computeTotal (subtotal discountAmount : float) : float :=
  subtotal - discountAmount.

End Binary64.

(** ** Pricing arithmetic on doubles, number by number

    A finite double is a rational number, and an arithmetic operation
    on Numbers gives the double nearest to the exact result, a tie
    going to the even significand.  [Double] writes the pricing
    expressions this way, on the rationals that doubles stand for, so
    that they can be reasoned about for every input.  Overflow is left
    out: the model is that of the code for magnitudes below 2^1024. *)

Module Double.

Local Open Scope Q_scope.

(** [2^e], for any integer [e]. *)
Definition pow2 (e : Z) : Q := 2 ^ e.

(** The binade of a number that is not zero: the [e] with
    [2^e <= |x| < 2^(e+1)]. *)
Definition binade (x : Q) : Z :=
  let e := (Z.log2 (Z.abs (Qnum x)) - Z.log2 (Z.pos (Qden x)))%Z in
  if Qle_bool (pow2 e) (Qabs x) then e else (e - 1)%Z.

(** The nearest integer, a tie going to the even one. *)
Definition nearest_even (m : Q) : Z :=
  let f := Qfloor m in
  match Qcompare (m - inject_Z f) (1 # 2) with
  | Lt => f
  | Gt => (f + 1)%Z
  | Eq => if Z.even f then f else (f + 1)%Z
  end.

(** The smallest exponent of a normal double. *)
Definition emin : Z := -1022.

(** The spacing of the doubles around [x]: 53 significant bits, and
    the spacing of the subnormal doubles below [2^emin]. *)
Definition ulp (x : Q) : Q := pow2 (Z.max (binade x) emin - 52).

(** The double nearest to [x]. *)
Definition round (x : Q) : Q :=
  if Qeq_bool x 0 then 0
  else inject_Z (nearest_even (x / ulp x)) * ulp x.

(** [x * y], [x / y] and [x - y] on Numbers. *)
Definition mul (x y : Q) : Q := round (x * y).
Definition div (x y : Q) : Q := round (x / y).
Definition sub (x y : Q) : Q := round (x - y).

(** [Math.round]: the integer nearest to the double [x], a tie going
    towards +infinity; no rounding error is involved. *)
Definition Math_round (x : Q) : Z := Qfloor (x + (1 # 2)).

(** The argument of the last division of [calculateDiscount]:
    [Math.round(((subtotal * discountPercent) / 100) * 100)]. *)
Definition hundredths (subtotal discountPercent : Q) : Z :=
  Math_round (mul (div (mul subtotal discountPercent) 100) 100).

(** [calculateDiscount] of [lib/utils/index.ts], operation by operation:
    [Math.round(((subtotal * discountPercent) / 100) * 100) / 100]. *)
Definition calculateDiscount (subtotal discountPercent : Q) : Q :=
  div (inject_Z (Math_round (mul (div (mul subtotal discountPercent) 100) 100)))
      100.

(** [const total = subtotal - discountAmount]. *)
Definition computeTotal (subtotal discountAmount : Q) : Q :=
  sub subtotal discountAmount.

(** [const amountInPaise = Math.round(total * 100)] of
    [POST /api/checkout]. *)
Definition amountInPaise (total : Q) : Z := Math_round (mul total 100).

(** Half the relative spacing of the doubles, and half the smallest
    positive double. *)
Definition unit_roundoff : Q := pow2 (-53).
Definition tiny : Q := pow2 (-1075).

(** The number a finite hardware double stands for. *)
Definition of_float (f : float) : Q :=
  match Prim2SF f with
  | S754_finite sign m e =>
      (if sign then -1 else 1) * inject_Z (Z.pos m) * pow2 e
  | _ => 0
  end.

End Double.

(** ** Values shared by the routes *)

Abbreviation ObjectId := positive.

(** JavaScript truthiness of a value that is a string when present. *)
Definition truthy (o : option string) : bool :=
  match o with
  | Some s => negb (String.eqb s "")
  | None => false
  end.

(** [x || 0] on an optional number. *)
Definition or_zero (o : option Q) : Q :=
  match o with
  | Some q => if Qeq_bool q 0 then 0%Q else q
  | None => 0%Q
  end.

(** [s || null] on an optional string. *)
Definition or_null (o : option string) : option string :=
  if truthy o then o else None.

(** [String.prototype.toUpperCase] on a string of ASCII characters: the
    letters a-z go to A-Z.  A byte above 127 is left as it is, where
    JavaScript also maps the letters of other alphabets. *)
Definition upper_ascii (c : ascii) : ascii :=
  let n := nat_of_ascii c in
  if ((97 <=? n) && (n <=? 122))%nat then ascii_of_nat (n - 32) else c.

Fixpoint toUpperCase (s : string) : string :=
  match s with
  | EmptyString => EmptyString
  | String c r => String (upper_ascii c) (toUpperCase r)
  end.

(** [String.prototype.trim] on a string of ASCII characters: tab, line
    feed, vertical tab, form feed, carriage return and space are white
    space.  JavaScript also removes the white space beyond ASCII, such
    as U+00A0. *)
Definition is_space (c : ascii) : bool :=
  let n := nat_of_ascii c in
  (((9 <=? n) && (n <=? 13)) || (n =? 32))%nat.

Fixpoint trim_start (s : string) : string :=
  match s with
  | EmptyString => EmptyString
  | String c r => if is_space c then trim_start r else s
  end.

Fixpoint trim_end (s : string) : string :=
  match s with
  | EmptyString => EmptyString
  | String c r =>
      match trim_end r with
      | EmptyString => if is_space c then EmptyString else String c EmptyString
      | r' => String c r'
      end
  end.

Definition trim (s : string) : string := trim_end (trim_start s).

(** The setters [uppercase: true, trim: true] of the [code] path of
    [DiscountCodeSchema]; Mongoose runs them on a value stored under the
    path and on a value a query filters the path by. *)
Definition code_setter (code : string) : string := trim (toUpperCase code).

(** [s.replace(/-/g, "")]. *)
Fixpoint remove_dashes (s : string) : string :=
  match s with
  | EmptyString => EmptyString
  | String c r =>
      if Ascii.eqb c "-"%char then remove_dashes r
      else String c (remove_dashes r)
  end.

(** [generateDiscountCode], from the string [uuidv4()] returned. *)
Definition generateDiscountCode (uuidv4 : string) : string :=
  let uuid := toUpperCase (remove_dashes uuidv4) in
  ("UNIBLOX-" ++ String.substring 0 4 uuid
   ++ "-" ++ String.substring 4 4 uuid)%string.

Definition ms_per_day : Z := 86400000.

(** The time zone of the host, as ECMAScript reads it: the offset of
    local time from UTC in milliseconds, at an instant given in UTC
    ([LocalTZA(t, true)]) and at an instant given in local time
    ([LocalTZA(t, false)]). *)
Record TimeZone := mkTimeZone {
  utc_offset : Z -> Z;
  local_offset : Z -> Z
}.

(** [getExpiryDate]: [date.setDate(date.getDate() + days)] on
    [new Date()].  [setDate] works on the local calendar: it takes the
    local time of the instant, keeps the time within the day and moves
    the day by [days] (the day of [MakeDay(year, month, date + days)] is
    the day of the instant plus [days]), and converts the local time
    back to UTC.  The result is the time value before [TimeClip]: it is
    an Invalid Date when [valid_date] fails. *)
Definition getExpiryDate (zone : TimeZone) (now days : Z) : Z :=
  let local := now + utc_offset zone now + days * ms_per_day in
  local - local_offset zone local.

(** [TimeClip]: a time value beyond 8.64e15 ms makes an Invalid Date. *)
Definition valid_date (t : Z) : bool := Z.abs t <=? 8640000000000000.

(** [isExpired], also written inline as
    [expiresAt && new Date() > new Date(expiresAt)]. *)
Definition isExpired (now : Z) (date : option Z) : bool :=
  match date with
  | None => false
  | Some d => d <? now
  end.

(** [orderNumber % n === 0]: the remainder takes the sign of the dividend
    and is [NaN] for a zero divisor. *)
Definition isNthOrder (orderNumber n : Z) : bool :=
  if n =? 0 then false else Z.rem orderNumber n =? 0.

(** What a handler reads from outside the store. *)
Record Env := mkEnv {
  clock : Z;                      (* new Date() *)
  uuidv4 : string;                (* uuidv4() *)
  order_oid : ObjectId;           (* _id the driver gives a new order *)
  discount_oid : ObjectId;        (* _id the driver gives a new code *)
  razorpay : Z -> option string;  (* orders.create: amount in paise to id *)
  zone : TimeZone                 (* the time zone of the host *)
}.

Inductive Role := customer | admin.

(** [session.user] of [auth()]. *)
Record Session := mkSession { sess_user : ObjectId; sess_role : Role }.

Definition is_admin (session : option Session) : bool :=
  match session with
  | Some (mkSession _ admin) => true
  | _ => false
  end.

(** ** ObjectIds and their spelling

    An ObjectId is twelve bytes; the model numbers the ObjectIds from 1,
    the id of number [n + 1] being the twelve bytes that read [n] in
    base 256.  Mongoose casts the string given to [findById] to an
    ObjectId: twenty-four hexadecimal digits, of either case, and a
    [CastError] for any other string.  [toString] spells an ObjectId
    with the digits [0-9a-f]; a number above the ids has no spelling. *)

(** Every character of a string passes a test. *)
Fixpoint string_forall (P : ascii -> bool) (s : string) : bool :=
  match s with
  | EmptyString => true
  | String c r => P c && string_forall P r
  end.

Definition between (lo hi : nat) (c : ascii) : bool :=
  ((lo <=? nat_of_ascii c) && (nat_of_ascii c <=? hi))%nat.

(** [0-9a-fA-F], [0-9A-F] and [0-9a-f]. *)
Definition is_hex_digit (c : ascii) : bool :=
  between 48 57 c || between 97 102 c || between 65 70 c.


Definition is_lower_hex (c : ascii) : bool :=
  between 48 57 c || between 97 102 c.

(** The value of a hexadecimal digit, of either case. *)
Definition hex_value (c : ascii) : N :=
  let n := N_of_ascii c in
  (if between 48 57 c then n - 48
   else if between 97 102 c then n - 87
   else n - 55)%N.

Fixpoint from_hex (s : string) : N :=
  match s with
  | EmptyString => 0
  | String c r =>
      hex_value c * 16 ^ N.of_nat (String.length r) + from_hex r
  end%N.

Definition hex_digit (v : N) : ascii :=
  ascii_of_N (if v <? 10 then 48 + v else 87 + v)%N.

Fixpoint to_hex (width : nat) (n : N) : string :=
  match width with
  | O => EmptyString
  | S k => String (hex_digit (n / 16 ^ N.of_nat k))
                  (to_hex k (n mod 16 ^ N.of_nat k))
  end%N.

Definition castObjectId (s : string) : option ObjectId :=
  if (String.length s =? 24)%nat && string_forall is_hex_digit s
  then Some (N.succ_pos (from_hex s))
  else None.

Definition toString (id : ObjectId) : string :=
  let n := Pos.pred_N id in
  if (n <? 16 ^ 24)%N then to_hex 24 n else "".

(** ** Collections *)

(** [IProduct]; description and category are read by no modelled route. *)
Record Product := mkProduct {
  p_name : string;
  p_price : Q;
  p_image : string;
  p_stock : Z;
  p_isActive : bool
}.

Record CartItem := mkCartItem {
  ci_product : ObjectId;
  ci_quantity : Z;
  ci_priceAtAdd : Q
}.

(** [ICart]; the owner is the key of the collection (unique index). *)
Record Cart := mkCart {
  c_items : list CartItem;
  c_appliedDiscount : option ObjectId
}.

Record DiscountCode := mkDiscountCode {
  d_id : ObjectId;
  d_code : string;
  d_discountPercent : Q;
  d_isUsed : bool;
  d_usedBy : option ObjectId;
  d_usedAt : option Z;
  d_generatedForOrder : Z;
  d_expiresAt : option Z
}.

Record OrderItem := mkOrderItem {
  oi_product : ObjectId;
  oi_name : string;
  oi_quantity : Z;
  oi_price : Q;
  oi_image : string
}.

Record ShippingAddress := mkShippingAddress {
  sa_name : string;
  sa_address : string;
  sa_city : string;
  sa_state : string;
  sa_pincode : string;
  sa_phone : string
}.

Inductive PaymentStatus := pay_pending | pay_completed | pay_failed.
Inductive OrderStatus := pending | processing | shipped | delivered | cancelled.

Record Order := mkOrder {
  o_id : ObjectId;
  o_user : ObjectId;
  o_orderNumber : Z;
  o_items : list OrderItem;
  o_subtotal : Q;
  o_discountCode : option string;
  o_discountPercent : Q;
  o_discountAmount : Q;
  o_total : Q;
  o_paymentId : option string;
  o_paymentStatus : PaymentStatus;
  o_status : OrderStatus;
  o_shippingAddress : option ShippingAddress
}.

Record StoreSettings := mkStoreSettings {
  nthOrderDiscount : Z;
  discountPercent : Q;
  totalOrders : Z;
  defaultDiscountExpiry : option Z
}.

(** The database: the settings singleton (absent until first read),
    products by [_id], carts by owner, and the discount-code and order
    collections in insertion order. *)
Record Store := mkStore {
  settings : option StoreSettings;
  products : gmap positive Product;
  carts : gmap positive Cart;
  discounts : list DiscountCode;
  orders : list Order
}.

Definition set_settings (st : StoreSettings) (s : Store) : Store :=
  mkStore (Some st) (products s) (carts s) (discounts s) (orders s).
Definition set_products (ps : gmap positive Product) (s : Store) : Store :=
  mkStore (settings s) ps (carts s) (discounts s) (orders s).
Definition set_carts (cs : gmap positive Cart) (s : Store) : Store :=
  mkStore (settings s) (products s) cs (discounts s) (orders s).
Definition set_discounts (ds : list DiscountCode) (s : Store) : Store :=
  mkStore (settings s) (products s) (carts s) ds (orders s).
Definition set_orders (os : list Order) (s : Store) : Store :=
  mkStore (settings s) (products s) (carts s) (discounts s) os.

(** ** The Mongoose layer

    [create] and [save] run the schema validators on the whole document
    and throw when one fails or a unique index is hit ([None] below);
    [findOneAndUpdate] and [findByIdAndUpdate] run no validator and do
    nothing when no document matches. *)

Definition nonempty (s : string) : bool := negb (String.eqb s "").

(** [StoreSettingsSchema]. *)
Definition settings_valid (st : StoreSettings) : bool :=
  (1 <=? nthOrderDiscount st)
  && Qle_bool 1 (discountPercent st) && Qle_bool (discountPercent st) 100
  && (0 <=? totalOrders st)
  && match defaultDiscountExpiry st with
     | Some d => 1 <=? d
     | None => true
     end.

(** The document [getStoreSettings] creates when there is none. *)
Definition default_settings : StoreSettings :=
  mkStoreSettings 5 10 0 None.

(** [getStoreSettings]: the singleton, created on first use. *)
Definition getStoreSettings (s : Store) : StoreSettings * Store :=
  match settings s with
  | Some st => (st, s)
  | None => (default_settings, set_settings default_settings s)
  end.

(** [settings.save()]. *)
Definition settings_save (st : StoreSettings) (s : Store) : option Store :=
  if settings_valid st then Some (set_settings st s) else None.

(** [CartItemSchema] on every item of a cart. *)
Definition cart_valid (c : Cart) : bool :=
  forallb (fun it => (1 <=? ci_quantity it) && Qle_bool 0 (ci_priceAtAdd it))
          (c_items c).

(** [cart.save()] for the cart of [user]. *)
Definition cart_save (user : ObjectId) (c : Cart) (s : Store) : option Store :=
  if cart_valid c then Some (set_carts (<[user := c]> (carts s)) s) else None.

(** [Cart.findOneAndUpdate({ user }, { items: [], appliedDiscount: null })]. *)
Definition cart_clear (user : ObjectId) (s : Store) : Store :=
  set_carts (alter (fun _ => mkCart [] None) user (carts s)) s.

(** [Cart.findOneAndUpdate({ user }, { appliedDiscount: null })]. *)
Definition cart_unset_discount (user : ObjectId) (s : Store) : Store :=
  set_carts (alter (fun c => mkCart (c_items c) None) user (carts s)) s.

(** [Product.findByIdAndUpdate(id, { $inc: { stock: delta } })]. *)
Definition product_inc_stock (id : ObjectId) (delta : Z) (s : Store) : Store :=
  set_products
    (alter (fun p => mkProduct (p_name p) (p_price p) (p_image p)
                               (p_stock p + delta) (p_isActive p))
           id (products s)) s.

(** [DiscountCode.findOne({ code })] and [DiscountCode.findById(id)]. *)
Definition discount_by_code (code : string) (s : Store) : option DiscountCode :=
  find (fun d => String.eqb (d_code d) (code_setter code)) (discounts s).

Definition discount_by_id (id : ObjectId) (s : Store) : option DiscountCode :=
  find (fun d => Pos.eqb (d_id d) id) (discounts s).

(** An update of the first document a filter selects. *)
Fixpoint update_first {A} (sel : A -> bool) (f : A -> A) (l : list A) : list A :=
  match l with
  | [] => []
  | x :: r => if sel x then f x :: r else x :: update_first sel f r
  end.

(** A removal of the first document a filter selects. *)
Fixpoint remove_first {A} (sel : A -> bool) (l : list A) : list A :=
  match l with
  | [] => []
  | x :: r => if sel x then r else x :: remove_first sel r
  end.

(** [DiscountCode.findOneAndUpdate({ code },
      { isUsed: true, usedBy: userId, usedAt: new Date() })]. *)
Definition mark_used (user : option ObjectId) (now : Z) (d : DiscountCode)
  : DiscountCode :=
  mkDiscountCode (d_id d) (d_code d) (d_discountPercent d) true user (Some now)
                 (d_generatedForOrder d) (d_expiresAt d).

Definition discount_mark_used (code : string) (user : option ObjectId)
    (now : Z) (s : Store) : Store :=
  set_discounts
    (update_first (fun d => String.eqb (d_code d) (code_setter code))
                  (mark_used user now) (discounts s)) s.

(** [DiscountCodeSchema]: the validators, and the cast of [expiresAt],
    which throws on an Invalid Date. *)
Definition discount_valid (d : DiscountCode) : bool :=
  nonempty (d_code d)
  && Qle_bool 1 (d_discountPercent d) && Qle_bool (d_discountPercent d) 100
  && match d_expiresAt d with
     | Some t => valid_date t
     | None => true
     end.

(** [DiscountCode.create]: validators, then the unique indexes on [_id]
    and [code]. *)
Definition discount_create (d : DiscountCode) (s : Store) : option Store :=
  if discount_valid d
     && negb (existsb (fun e => String.eqb (d_code e) (d_code d)
                                || Pos.eqb (d_id e) (d_id d)) (discounts s))
  then Some (set_discounts (discounts s ++ [d]) s)
  else None.

(** [discount.save()] of a document loaded with [findById]. *)
Definition discount_save (d : DiscountCode) (s : Store) : option Store :=
  if discount_valid d
  then Some (set_discounts
               (update_first (fun e => Pos.eqb (d_id e) (d_id d)) (fun _ => d)
                             (discounts s)) s)
  else None.

(** [OrderItemSchema], [ShippingAddressSchema] and [OrderSchema]. *)
Definition order_item_valid (it : OrderItem) : bool :=
  nonempty (oi_name it) && (1 <=? oi_quantity it)
  && Qle_bool 0 (oi_price it) && nonempty (oi_image it).

Definition shipping_valid (a : ShippingAddress) : bool :=
  nonempty (sa_name a) && nonempty (sa_address a) && nonempty (sa_city a)
  && nonempty (sa_state a) && nonempty (sa_pincode a) && nonempty (sa_phone a).

Definition order_valid (o : Order) : bool :=
  negb (Nat.eqb (length (o_items o)) 0)
  && forallb order_item_valid (o_items o)
  && Qle_bool 0 (o_subtotal o)
  && Qle_bool 0 (o_discountPercent o) && Qle_bool (o_discountPercent o) 100
  && Qle_bool 0 (o_discountAmount o)
  && Qle_bool 0 (o_total o)
  && match o_shippingAddress o with
     | Some a => shipping_valid a
     | None => true
     end.

(** [Order.create] on a document whose required fields are present:
    validators, then the unique indexes on [_id] and [orderNumber]. *)
Definition order_create (o : Order) (s : Store) : option Store :=
  if order_valid o
     && negb (existsb (fun e => (o_orderNumber e =? o_orderNumber o)
                                || Pos.eqb (o_id e) (o_id o)) (orders s))
  then Some (set_orders (orders s ++ [o]) s)
  else None.

(** ** Replies *)

Record CartLine := mkCartLine {
  cl_productId : ObjectId;
  cl_name : string;
  cl_price : Q;
  cl_image : string;
  cl_quantity : Z;
  cl_stock : Z;
  cl_total : Q
}.

Record CartSummary := mkCartSummary {
  cv_items : list CartLine;
  cv_itemCount : Z;
  cv_subtotal : Q;
  cv_discount : option (string * Q);     (* { code, percent } *)
  cv_discountAmount : Q;
  cv_total : Q
}.

Record QuoteInfo := mkQuoteInfo {
  q_razorpayOrderId : string;
  q_amount : Q;
  q_amountInPaise : Z;
  q_items : list OrderItem;
  q_subtotal : Q;
  q_discountCode : option string;
  q_discountPercent : Q;
  q_discountAmount : Q;
  q_total : Q;
  q_shippingAddress : ShippingAddress;
  q_userId : ObjectId
}.

Record NewCode := mkNewCode {
  nc_code : string;
  nc_discountPercent : Q;
  nc_expiresAt : option Z
}.

Record Confirmation := mkConfirmation {
  cf_orderId : ObjectId;
  cf_orderNumber : Z;
  cf_total : Q;
  cf_status : OrderStatus;
  cf_paymentId : option string;
  cf_newDiscountCode : option NewCode
}.

Record StatsInfo := mkStatsInfo {
  st_totalOrders : Z;
  st_totalRevenue : Q;
  st_totalDiscountGiven : Q;
  st_totalItemsPurchased : Z;
  st_codes_total : nat;
  st_codes_used : nat;
  st_nthOrderDiscount : Z;
  st_discountPercent : Q;
  st_defaultDiscountExpiry : option Z
}.

(** The JSON answer of a handler: [Fail] carries the HTTP status and the
    [error] string, every other constructor is a [success: true] body. *)
Inductive Reply :=
| Fail (status : Z) (error : string)
| CartView (v : CartSummary)
| ItemAdded (itemCount : Z)
| Message (message : string)
| DiscountApplied (code : string) (percent : Q)
| Quote (q : QuoteInfo)
| Confirmed (c : Confirmation)
| SettingsRead (st : StoreSettings)
| SettingsUpdated (nth : Z) (percent : Q) (expiry : option Z)
| DiscountGenerated (c : NewCode)
| DiscountUpdated (code : string) (expiresAt : option Z)
| Stats (i : StatsInfo).

Definition succeeded (r : Reply) : bool :=
  match r with
  | Fail _ _ => false
  | _ => true
  end.

(** The message of a failed zod [safeParse] whose text the schema leaves
    to the library. *)
Definition zod_issue : string := "Invalid input".

(** The block both pricing routes run on the populated [appliedDiscount]:
    the code counts only while it exists, is unused and is not expired. *)
Definition live_discount (now : Z) (cart : Cart) (s : Store)
  : option DiscountCode :=
  match c_appliedDiscount cart with
  | None => None
  | Some id =>
      match discount_by_id id s with
      | None => None
      | Some discount =>
          if negb (d_isUsed discount) && negb (isExpired now (d_expiresAt discount))
          then Some discount
          else None
      end
  end.

(** ** [api/cart/route.ts] *)

Module CartRoute.

Definition empty_summary : CartSummary :=
  mkCartSummary [] 0 0%Q None 0%Q 0%Q.

(** An item with its populated product: [item.product && isActive]. *)
Definition active_product (ps : gmap positive Product) (it : CartItem)
  : option Product :=
  match ps !! ci_product it with
  | Some p => if p_isActive p then Some p else None
  | None => None
  end.

Definition validItems (ps : gmap positive Product) (items : list CartItem)
  : list (CartItem * Product) :=
  omap (fun it => match active_product ps it with
                  | Some p => Some (it, p)
                  | None => None
                  end) items.

Definition line (ip : CartItem * Product) : CartLine :=
  let (it, p) := ip in
  mkCartLine (ci_product it) (p_name p) (p_price p) (p_image p)
             (ci_quantity it) (p_stock p)
             (p_price p * inject_Z (ci_quantity it))%Q.

Definition GET (now : Z) (session : option Session) (s : Store)
  : Reply * Store :=
  match session with
  | None => (Fail 401 "Authentication required", s)
  | Some u =>
      match carts s !! sess_user u with
      | None =>
          (CartView empty_summary,
           set_carts (<[sess_user u := mkCart [] None]> (carts s)) s)
      | Some cart =>
          let valid := validItems (products s) (c_items cart) in
          let subtotal :=
            fold_left (fun sum ip =>
                         (sum + p_price (snd ip) * inject_Z (ci_quantity (fst ip)))%Q)
                      valid 0%Q in
          let '(discountAmount, discountInfo) :=
            match live_discount now cart s with
            | Some discount =>
                (Pricing.calculateDiscount subtotal (d_discountPercent discount),
                 Some (d_code discount, d_discountPercent discount))
            | None => (0%Q, None)
            end in
          let total := Pricing.computeTotal subtotal discountAmount in
          let itemCount :=
            fold_left (fun sum ip => sum + ci_quantity (fst ip)) valid 0 in
          (CartView (mkCartSummary (map line valid) itemCount subtotal
                                   discountInfo discountAmount total), s)
      end
  end.

Definition POST (session : option Session) (productId : string)
    (quantity : Z) (s : Store) : Reply * Store :=
  match session with
  | None => (Fail 401 "Authentication required", s)
  | Some u =>
      if String.eqb productId "" then (Fail 400 "Product ID is required", s) else
      if quantity <? 1 then (Fail 400 "Quantity must be at least 1", s) else
      match castObjectId productId with
      | None => (Fail 500 "Failed to add item to cart", s)
      | Some id =>
      match products s !! id with
      | None => (Fail 404 "Product not found", s)
      | Some product =>
          if negb (p_isActive product)
          then (Fail 400 "Product is not available", s)
          else if p_stock product <? quantity
          then (Fail 400 "Insufficient stock", s)
          else
            let cart := default (mkCart [] None) (carts s !! sess_user u) in
            let same it := String.eqb (toString (ci_product it)) productId in
            let saved (c : Cart) :=
              match cart_save (sess_user u) c s with
              | Some s' =>
                  (ItemAdded (fold_left (fun sum it => sum + ci_quantity it)
                                        (c_items c) 0), s')
              | None => (Fail 500 "Failed to add item to cart", s)
              end in
            match find same (c_items cart) with
            | Some existing =>
                let newQuantity := ci_quantity existing + quantity in
                if p_stock product <? newQuantity
                then (Fail 400 "Quantity exceeds available stock", s)
                else saved (mkCart
                              (update_first same
                                 (fun it => mkCartItem (ci_product it) newQuantity
                                                       (ci_priceAtAdd it))
                                 (c_items cart))
                              (c_appliedDiscount cart))
            | None =>
                saved (mkCart (c_items cart
                                 ++ [mkCartItem id quantity (p_price product)])
                              (c_appliedDiscount cart))
            end
      end
      end
  end.

Definition DELETE (session : option Session) (s : Store) : Reply * Store :=
  match session with
  | None => (Fail 401 "Authentication required", s)
  | Some u => (Message "Cart cleared", cart_clear (sess_user u) s)
  end.

End CartRoute.

(** ** [api/cart/[productId]/route.ts] *)

Module CartItemRoute.

Definition PATCH (session : option Session) (productId : ObjectId)
    (quantity : Z) (s : Store) : Reply * Store :=
  match session with
  | None => (Fail 401 "Authentication required", s)
  | Some u =>
      if quantity <? 1 then (Fail 400 "Quantity must be at least 1", s) else
      match products s !! productId with
      | None => (Fail 404 "Product not found", s)
      | Some product =>
          if p_stock product <? quantity
          then (Fail 400 "Quantity exceeds available stock", s)
          else
            match carts s !! sess_user u with
            | None => (Fail 404 "Cart not found", s)
            | Some cart =>
                let same it := Pos.eqb (ci_product it) productId in
                match find same (c_items cart) with
                | None => (Fail 404 "Item not in cart", s)
                | Some _ =>
                    let c :=
                      mkCart (update_first same
                                (fun it => mkCartItem (ci_product it) quantity
                                                      (ci_priceAtAdd it))
                                (c_items cart))
                             (c_appliedDiscount cart) in
                    match cart_save (sess_user u) c s with
                    | Some s' => (Message "Cart updated", s')
                    | None => (Fail 500 "Failed to update cart", s)
                    end
                end
            end
      end
  end.

Definition DELETE (session : option Session) (productId : ObjectId)
    (s : Store) : Reply * Store :=
  match session with
  | None => (Fail 401 "Authentication required", s)
  | Some u =>
      match carts s !! sess_user u with
      | None => (Fail 404 "Cart not found", s)
      | Some cart =>
          let c :=
            mkCart (filter (fun it => ci_product it ≠ productId) (c_items cart))
                   (c_appliedDiscount cart) in
          match cart_save (sess_user u) c s with
          | Some s' => (Message "Item removed from cart", s')
          | None => (Fail 500 "Failed to remove item", s)
          end
      end
  end.

End CartItemRoute.

(** ** [api/cart/discount/route.ts] *)

Module CartDiscountRoute.

Definition POST (now : Z) (session : option Session) (code : string)
    (s : Store) : Reply * Store :=
  match session with
  | None => (Fail 401 "Authentication required", s)
  | Some u =>
      if String.eqb code "" then (Fail 400 "Discount code is required", s) else
      match discount_by_code (toUpperCase (toUpperCase code)) s with
      | None => (Fail 404 "Invalid discount code", s)
      | Some discountCode =>
          if d_isUsed discountCode
          then (Fail 400 "This discount code has already been used", s)
          else if isExpired now (d_expiresAt discountCode)
          then (Fail 400 "This discount code has expired", s)
          else
            match carts s !! sess_user u with
            | None => (Fail 404 "Cart not found", s)
            | Some cart =>
                if Nat.eqb (length (c_items cart)) 0
                then (Fail 400 "Cannot apply discount to empty cart", s)
                else
                  match cart_save (sess_user u)
                          (mkCart (c_items cart) (Some (d_id discountCode))) s with
                  | Some s' =>
                      (DiscountApplied (d_code discountCode)
                                       (d_discountPercent discountCode), s')
                  | None => (Fail 500 "Failed to apply discount", s)
                  end
            end
      end
  end.

Definition DELETE (session : option Session) (s : Store) : Reply * Store :=
  match session with
  | None => (Fail 401 "Authentication required", s)
  | Some u => (Message "Discount removed", cart_unset_discount (sess_user u) s)
  end.

End CartDiscountRoute.

(** ** [api/checkout/route.ts] *)

Module CheckoutRoute.

(** [checkoutSchema] on the shipping address. *)
Definition checkoutSchema (a : ShippingAddress) : bool :=
  ((2 <=? String.length (sa_name a)) && (5 <=? String.length (sa_address a))
   && (2 <=? String.length (sa_city a)) && (2 <=? String.length (sa_state a))
   && (6 <=? String.length (sa_pincode a))
   && (10 <=? String.length (sa_phone a)))%nat.

(** The loop over the populated cart: the first item that is gone,
    inactive or short of stock ends the request. *)
Fixpoint validItems (ps : gmap positive Product) (items : list CartItem)
  : string + list OrderItem :=
  match items with
  | [] => inr []
  | item :: rest =>
      match ps !! ci_product item with
      | None => inl "Product Unknown is no longer available"
      | Some product =>
          if negb (p_isActive product)
          then inl ("Product "
                    ++ (if nonempty (p_name product) then p_name product
                        else "Unknown")
                    ++ " is no longer available")%string
          else if p_stock product <? ci_quantity item
          then inl ("Insufficient stock for " ++ p_name product)%string
          else
            match validItems ps rest with
            | inl e => inl e
            | inr valid =>
                inr (mkOrderItem (ci_product item) (p_name product)
                                 (ci_quantity item) (p_price product)
                                 (p_image product) :: valid)
            end
      end
  end.

(** [POST /api/checkout].  [userId] is [session?.user?.id], or the
    account found or created for the guest e-mail; the users collection
    is outside this model. *)
Definition POST (env : Env) (userId : option ObjectId)
    (shippingAddress : ShippingAddress) (s : Store) : Reply * Store :=
  if negb (checkoutSchema shippingAddress) then (Fail 400 zod_issue, s) else
  match userId with
  | None => (Fail 401 "Authentication required or provide guest email", s)
  | Some uid =>
      match carts s !! uid with
      | None => (Fail 400 "Cart is empty", s)
      | Some cart =>
          if Nat.eqb (length (c_items cart)) 0
          then (Fail 400 "Cart is empty", s)
          else
            match validItems (products s) (c_items cart) with
            | inl e => (Fail 400 e, s)
            | inr valid =>
                let subtotal :=
                  fold_left (fun sum item =>
                               (sum + oi_price item * inject_Z (oi_quantity item))%Q)
                            valid 0%Q in
                let '(discountPercent, discountAmount, discountCode) :=
                  match live_discount (clock env) cart s with
                  | Some discount =>
                      (d_discountPercent discount,
                       Pricing.calculateDiscount subtotal
                                                 (d_discountPercent discount),
                       Some (d_code discount))
                  | None => (0%Q, 0%Q, None)
                  end in
                let total := Pricing.computeTotal subtotal discountAmount in
                let amountInPaise := Pricing.Math_round (total * 100) in
                match razorpay env amountInPaise with
                | None => (Fail 500 "Checkout failed", s)
                | Some remote =>
                    (Quote (mkQuoteInfo remote total amountInPaise valid subtotal
                                        discountCode discountPercent
                                        discountAmount total shippingAddress
                                        uid), s)
                end
            end
      end
  end.

(** The JSON body of [PUT /api/checkout]; a field the caller left out
    is [None] (an absent [items] is the empty list). *)
Record ConfirmBody := mkConfirmBody {
  b_razorpayOrderId : option string;
  b_razorpayPaymentId : option string;
  b_items : list OrderItem;
  b_subtotal : option Q;
  b_discountCode : option string;
  b_discountPercent : option Q;
  b_discountAmount : option Q;
  b_total : option Q;
  b_shippingAddress : option ShippingAddress;
  b_userId : option ObjectId
}.

(** The document handed to [Order.create]; [None] when a required
    field ([user], [subtotal], [total]) is missing. *)
Definition order_of_body (env : Env) (orderNumber : Z) (b : ConfirmBody)
  : option Order :=
  match b_userId b, b_subtotal b, b_total b with
  | Some user, Some subtotal, Some total =>
      Some (mkOrder (order_oid env) user orderNumber (b_items b) subtotal
                    (or_null (b_discountCode b))
                    (or_zero (b_discountPercent b))
                    (or_zero (b_discountAmount b))
                    total (b_razorpayPaymentId b) pay_completed processing
                    (b_shippingAddress b))
  | _, _, _ => None
  end.

(** The stock loop: one [$inc] per line item. *)
Definition decrement_stock (items : list OrderItem) (s : Store) : Store :=
  fold_left (fun s item => product_inc_stock (oi_product item)
                                             (- oi_quantity item) s)
            items s.

(** The units of product [id] that a list of line items asks for. *)
Definition purchased (id : ObjectId) (items : list OrderItem) : Z :=
  fold_right (fun item sum =>
                if Pos.eqb (oi_product item) id then oi_quantity item + sum
                else sum) 0 items.

(** The document of the code minted for order [orderNumber]. *)
Definition reward_code (env : Env) (st : StoreSettings) (orderNumber : Z)
  : DiscountCode :=
  mkDiscountCode (discount_oid env)
                 (code_setter (generateDiscountCode (uuidv4 env)))
                 (discountPercent st) false None None orderNumber
                 (match defaultDiscountExpiry st with
                  | Some days =>
                      if days =? 0 then None
                      else Some (getExpiryDate (zone env) (clock env) days)
                  | None => None
                  end).

(** The block [if (discountCode) { ... }]: the code is marked used,
    whatever its state. *)
Definition redeem (env : Env) (b : ConfirmBody) (s : Store) : Store :=
  match b_discountCode b with
  | Some code =>
      if truthy (b_discountCode b)
      then discount_mark_used code (b_userId b) (clock env) s
      else s
  | None => s
  end.

Definition announce (d : DiscountCode) : NewCode :=
  mkNewCode (d_code d) (d_discountPercent d) (d_expiresAt d).

Definition confirmation (o : Order) (c : option NewCode) : Confirmation :=
  mkConfirmation (o_id o) (o_orderNumber o) (o_total o) (o_status o)
                 (o_paymentId o) c.

Definition failed : Reply := Fail 500 "Order confirmation failed".

(** [settings.totalOrders += 1]. *)
Definition bump (st : StoreSettings) : StoreSettings :=
  mkStoreSettings (nthOrderDiscount st) (discountPercent st)
                  (totalOrders st + 1) (defaultDiscountExpiry st).

(** [PUT /api/checkout]: the writes happen one after the other, and a
    throw keeps those already made. *)
Definition PUT (env : Env) (body : ConfirmBody) (s : Store) : Reply * Store :=
  if negb (truthy (b_razorpayPaymentId body))
     || negb (truthy (b_razorpayOrderId body))
  then (Fail 400 "Payment details missing", s)
  else
    let '(settings, s0) := getStoreSettings s in
    let settings := bump settings in
    let orderNumber := totalOrders settings in
    match settings_save settings s0 with
    | None => (failed, s0)
    | Some s1 =>
        match order_of_body env orderNumber body with
        | None => (failed, s1)
        | Some order =>
            match order_create order s1 with
            | None => (failed, s1)
            | Some s2 =>
                let s3 := redeem env body s2 in
                let s4 := decrement_stock (b_items body) s3 in
                let s5 := cart_clear (o_user order) s4 in
                if isNthOrder orderNumber (nthOrderDiscount settings)
                then
                  let discount := reward_code env settings orderNumber in
                  match discount_create discount s5 with
                  | None => (failed, s5)
                  | Some s6 =>
                      (Confirmed (confirmation order (Some (announce discount))),
                       s6)
                  end
                else (Confirmed (confirmation order None), s5)
            end
        end
    end.

(** The codes a settlement with settings [st] adds to the collection. *)
Definition minted (env : Env) (st : StoreSettings) : list DiscountCode :=
  if isNthOrder (totalOrders st) (nthOrderDiscount st)
  then [reward_code env st (totalOrders st)]
  else [].

(** What an accepted settlement has done: [s'] is the store it leaves,
    [c] its reply, [st] the settings document it saved and [o] the
    order it inserted. *)
Record Settled (env : Env) (body : ConfirmBody) (s s' : Store)
    (c : Confirmation) (st : StoreSettings) (o : Order) : Prop := {
  settled_st : st = bump (fst (getStoreSettings s));
  settled_settings_valid : settings_valid st = true;
  settled_order : order_of_body env (totalOrders st) body = Some o;
  settled_order_valid : order_valid o = true;
  settled_order_fresh :
    existsb (fun e => (o_orderNumber e =? o_orderNumber o)
                      || Pos.eqb (o_id e) (o_id o)) (orders s) = false;
  settled_settings : settings s' = Some st;
  settled_orders : orders s' = orders s ++ [o];
  settled_products :
    products s' = products (decrement_stock (b_items body) s);
  settled_carts :
    carts s' = alter (fun _ => mkCart [] None) (o_user o) (carts s);
  settled_discounts :
    discounts s' = discounts (redeem env body s) ++ minted env st;
  settled_minted_fresh :
    forall d, In d (minted env st) ->
      discount_valid d = true
      /\ existsb (fun e => String.eqb (d_code e) (d_code d)
                           || Pos.eqb (d_id e) (d_id d))
                 (discounts (redeem env body s)) = false;
  settled_reply :
    c = confirmation o (announce <$> head (minted env st))
}.

End CheckoutRoute.

(** ** [api/admin/settings/route.ts] *)

Module AdminSettingsRoute.

Definition forbidden : Reply := Fail 403 "Admin access required".

Definition GET (session : option Session) (s : Store) : Reply * Store :=
  if negb (is_admin session) then (forbidden, s) else
  let '(settings, s0) := getStoreSettings s in
  (SettingsRead settings, s0).

(** The body of [PATCH]: every field may be left out; an expiry that is
    present may be [null] ([Some None]). *)
Record SettingsPatch := mkSettingsPatch {
  sp_nthOrderDiscount : option Z;
  sp_discountPercent : option Q;
  sp_defaultDiscountExpiry : option (option Z)
}.

(** [updateSettingsSchema]. *)
Definition updateSettingsSchema (b : SettingsPatch) : bool :=
  match sp_nthOrderDiscount b with Some n => 1 <=? n | None => true end
  && match sp_discountPercent b with
     | Some p => Qle_bool 1 p && Qle_bool p 100
     | None => true
     end
  && match sp_defaultDiscountExpiry b with
     | Some (Some d) => 1 <=? d
     | _ => true
     end.

Definition PATCH (session : option Session) (body : SettingsPatch)
    (s : Store) : Reply * Store :=
  if negb (is_admin session) then (forbidden, s) else
  if negb (updateSettingsSchema body) then (Fail 400 zod_issue, s) else
  let '(settings, s0) := getStoreSettings s in
  let settings :=
    mkStoreSettings
      (default (nthOrderDiscount settings) (sp_nthOrderDiscount body))
      (default (discountPercent settings) (sp_discountPercent body))
      (totalOrders settings)
      (default (defaultDiscountExpiry settings)
               (sp_defaultDiscountExpiry body)) in
  match settings_save settings s0 with
  | Some s1 =>
      (SettingsUpdated (nthOrderDiscount settings) (discountPercent settings)
                       (defaultDiscountExpiry settings), s1)
  | None => (Fail 500 "Failed to update settings", s0)
  end.

End AdminSettingsRoute.

(** ** [api/admin/discounts/route.ts] *)

Module AdminDiscountsRoute.

Definition forbidden : Reply := Fail 403 "Admin access required".

(** A day count as JavaScript tests it: [null], [undefined] and [0]
    are falsy. *)
Definition truthy_days (o : option Z) : option Z :=
  match o with
  | Some d => if d =? 0 then None else Some d
  | None => None
  end.

Record GenerateBody := mkGenerateBody {
  gb_discountPercent : option Q;
  gb_expiryDays : option (option Z)
}.

(** [generateDiscountSchema]. *)
Definition generateDiscountSchema (b : GenerateBody) : bool :=
  match gb_discountPercent b with
  | Some p => Qle_bool 1 p && Qle_bool p 100
  | None => true
  end
  && match gb_expiryDays b with
     | Some (Some d) => 1 <=? d
     | _ => true
     end.

Definition POST (env : Env) (session : option Session) (body : GenerateBody)
    (s : Store) : Reply * Store :=
  if negb (is_admin session) then (forbidden, s) else
  if negb (generateDiscountSchema body) then (Fail 400 zod_issue, s) else
  let '(settings, s0) := getStoreSettings s in
  let expiresAt :=
    match truthy_days (mjoin (gb_expiryDays body)) with
    | Some days => Some (getExpiryDate (zone env) (clock env) days)
    | None =>
        match truthy_days (defaultDiscountExpiry settings) with
        | Some days => Some (getExpiryDate (zone env) (clock env) days)
        | None => None
        end
    end in
  let percent :=
    match gb_discountPercent body with
    | Some p => if Qeq_bool p 0 then discountPercent settings else p
    | None => discountPercent settings
    end in
  let discount :=
    mkDiscountCode (discount_oid env)
                   (code_setter (generateDiscountCode (uuidv4 env)))
                   percent false None None 0 expiresAt in
  match discount_create discount s0 with
  | Some s1 =>
      (DiscountGenerated (mkNewCode (d_code discount)
                                    (d_discountPercent discount)
                                    (d_expiresAt discount)), s1)
  | None => (Fail 500 "Failed to generate discount", s0)
  end.

(** [PATCH]: the body is not validated; [expiryDays] left out keeps the
    expiry, a falsy one removes it. *)
Definition PATCH (env : Env) (session : option Session)
    (discountId : option ObjectId) (expiryDays : option (option Z))
    (s : Store) : Reply * Store :=
  if negb (is_admin session) then (forbidden, s) else
  match discountId with
  | None => (Fail 400 "Discount ID is required", s)
  | Some id =>
      match discount_by_id id s with
      | None => (Fail 404 "Discount not found", s)
      | Some discount =>
          let expiresAt :=
            match expiryDays with
            | None => d_expiresAt discount
            | Some days =>
                match truthy_days days with
                | Some n => Some (getExpiryDate (zone env) (clock env) n)
                | None => None
                end
            end in
          let discount :=
            mkDiscountCode (d_id discount) (d_code discount)
                           (d_discountPercent discount) (d_isUsed discount)
                           (d_usedBy discount) (d_usedAt discount)
                           (d_generatedForOrder discount) expiresAt in
          match discount_save discount s with
          | Some s1 =>
              (DiscountUpdated (d_code discount) (d_expiresAt discount), s1)
          | None => (Fail 500 "Failed to update discount", s)
          end
      end
  end.

Definition DELETE (session : option Session) (discountId : option ObjectId)
    (s : Store) : Reply * Store :=
  if negb (is_admin session) then (forbidden, s) else
  match discountId with
  | None => (Fail 400 "Discount ID is required", s)
  | Some id =>
      match discount_by_id id s with
      | None => (Fail 404 "Discount not found", s)
      | Some _ =>
          (Message "Discount deleted",
           set_discounts
             (remove_first (fun d => Pos.eqb (d_id d) id) (discounts s)) s)
      end
  end.

End AdminDiscountsRoute.

(** ** [api/admin/stats/route.ts] *)

Module AdminStatsRoute.

Definition completed (o : Order) : bool :=
  match o_paymentStatus o with
  | pay_completed => true
  | _ => false
  end.

(** [GET]: the aggregates over the completed orders and the codes; the
    listing of the ten latest orders is left out of the reply. *)
Definition GET (session : option Session) (s : Store) : Reply * Store :=
  if negb (is_admin session) then (Fail 403 "Admin access required", s) else
  let '(settings, s0) := getStoreSettings s in
  let paid := filter (fun o => completed o = true) (orders s0) in
  (Stats (mkStatsInfo
            (totalOrders settings)
            (fold_left (fun sum o => (sum + o_total o)%Q) paid 0%Q)
            (fold_left (fun sum o => (sum + o_discountAmount o)%Q) paid 0%Q)
            (fold_left (fun sum o =>
                          fold_left (fun sum it => sum + oi_quantity it)
                                    (o_items o) sum) paid 0)
            (length (discounts s0))
            (length (filter (fun d => d_isUsed d = true) (discounts s0)))
            (nthOrderDiscount settings) (discountPercent settings)
            (defaultDiscountExpiry settings)), s0).

End AdminStatsRoute.

(** ** Requests

    The handlers that write to the store, or may create the settings
    singleton or a cart while reading.  The routes that only read
    ([GET /api/products], [GET /api/orders], [GET /api/admin/discounts])
    and the sign-up route, which writes to the users collection alone,
    leave every modelled collection as it is. *)

Inductive Request :=
| CartGet (session : option Session)
| CartAdd (session : option Session) (productId : string) (quantity : Z)
| CartClear (session : option Session)
| CartItemUpdate (session : option Session) (productId : ObjectId) (quantity : Z)
| CartItemRemove (session : option Session) (productId : ObjectId)
| DiscountApply (session : option Session) (code : string)
| DiscountRemove (session : option Session)
| Checkout (userId : option ObjectId) (shippingAddress : ShippingAddress)
| Confirm (body : CheckoutRoute.ConfirmBody)
| SettingsGet (session : option Session)
| SettingsPatch (session : option Session) (body : AdminSettingsRoute.SettingsPatch)
| DiscountGenerate (session : option Session) (body : AdminDiscountsRoute.GenerateBody)
| DiscountPatch (session : option Session) (discountId : option ObjectId)
                (expiryDays : option (option Z))
| DiscountDelete (session : option Session) (discountId : option ObjectId)
| StatsGet (session : option Session).

Definition handle (env : Env) (r : Request) (s : Store) : Reply * Store :=
  match r with
  | CartGet session => CartRoute.GET (clock env) session s
  | CartAdd session productId quantity =>
      CartRoute.POST session productId quantity s
  | CartClear session => CartRoute.DELETE session s
  | CartItemUpdate session productId quantity =>
      CartItemRoute.PATCH session productId quantity s
  | CartItemRemove session productId =>
      CartItemRoute.DELETE session productId s
  | DiscountApply session code =>
      CartDiscountRoute.POST (clock env) session code s
  | DiscountRemove session => CartDiscountRoute.DELETE session s
  | Checkout userId shippingAddress =>
      CheckoutRoute.POST env userId shippingAddress s
  | Confirm body => CheckoutRoute.PUT env body s
  | SettingsGet session => AdminSettingsRoute.GET session s
  | SettingsPatch session body => AdminSettingsRoute.PATCH session body s
  | DiscountGenerate session body => AdminDiscountsRoute.POST env session body s
  | DiscountPatch session discountId expiryDays =>
      AdminDiscountsRoute.PATCH env session discountId expiryDays s
  | DiscountDelete session discountId =>
      AdminDiscountsRoute.DELETE session discountId s
  | StatsGet session => AdminStatsRoute.GET session s
  end.

(** A run: the requests served one after the other, each with the
    environment it met; the replies come back in the same order. *)
Fixpoint serve (trace : list (Env * Request)) (s : Store)
  : list Reply * Store :=
  match trace with
  | [] => ([], s)
  | (env, r) :: rest =>
      let '(reply, s1) := handle env r s in
      let '(replies, s2) := serve rest s1 in
      (reply :: replies, s2)
  end.

(** The counter as every reader gets it from [getStoreSettings]. *)
Definition order_counter (s : Store) : Z := totalOrders (fst (getStoreSettings s)).

Definition is_confirm (r : Request) : bool :=
  match r with
  | Confirm _ => true
  | _ => false
  end.

(** The code applied to a cart is stored but can no longer be used: it
    has been redeemed, or its expiry lies before [now]. *)
Definition stale (now : Z) (cart : Cart) (s : Store) : Prop :=
  exists id d,
    c_appliedDiscount cart = Some id
    /\ discount_by_id id s = Some d
    /\ (d_isUsed d = true \/ isExpired now (d_expiresAt d) = true).

(** ** Shapes of strings *)


(** A string of ASCII characters: on these [toUpperCase] and [trim] above
    are those of JavaScript. *)
Definition is_ascii (s : string) : bool :=
  string_forall (fun c => (nat_of_ascii c <? 128)%nat) s.

(** The virtual [isValid] of [DiscountCodeSchema], read at the instant
    [now]: not used, and not past its expiry when it has one. *)
Definition isValid (now : Z) (d : DiscountCode) : bool :=
  if d_isUsed d then false
  else if isExpired now (d_expiresAt d) then false
  else true.

(** ** Conditions on a store *)

(** Two versions of a product that differ in stock at most. *)
Definition same_listing (p p' : Product) : Prop :=
  p_name p' = p_name p /\ p_price p' = p_price p
  /\ p_image p' = p_image p /\ p_isActive p' = p_isActive p.

(** The settings document, when there is one, passes its schema. *)
Definition settings_in_order (s : Store) : Prop :=
  forall st, settings s = Some st -> settings_valid st = true.

(** Every stored cart passes [CartItemSchema]. *)
Definition carts_valid (s : Store) : Prop :=
  forall user cart, carts s !! user = Some cart -> cart_valid cart = true.

(** Every stored cart passes [CartItemSchema] and has one line per
    product at most. *)
Definition carts_in_order (s : Store) : Prop :=
  forall user cart,
    carts s !! user = Some cart ->
    cart_valid cart = true /\ NoDup (map ci_product (c_items cart)).

(** Both at once: the schema, and one line per product when [strict]. *)
Definition carts_kept (strict : bool) (s : Store) : Prop :=
  forall user cart,
    carts s !! user = Some cart ->
    cart_valid cart = true
    /\ (strict = true -> NoDup (map ci_product (c_items cart))).

(** The request does not add to a cart, or spells the product's id in
    lower case, as [toString] does. *)
Definition lower_case_add (r : Request) : bool :=
  match r with
  | CartAdd _ productId _ => string_forall is_lower_hex productId
  | _ => true
  end.

(** The discount codes pass their schema, are stored as the setters of
    the [code] path leave them, and no two share an [_id] or a code. *)
Definition discounts_in_order (s : Store) : Prop :=
  Forall (fun d => discount_valid d = true /\ code_setter (d_code d) = d_code d)
         (discounts s)
  /\ NoDup (map d_id (discounts s))
  /\ NoDup (map d_code (discounts s)).

(** The order numbers rise in insertion order and none is beyond the
    counter. *)
Definition orders_in_sequence (s : Store) : Prop :=
  StronglySorted Z.lt (map o_orderNumber (orders s))
  /\ Forall (fun o => o_orderNumber o <= order_counter s) (orders s).

(** A run without a settlement. *)
Definition no_settlement (trace : list (Env * Request)) : bool :=
  forallb (fun er => negb (is_confirm (snd er))) trace.

(** No request of the run is a deletion of a code by the admin. *)
Definition no_code_deleted (trace : list (Env * Request)) : bool :=
  forallb (fun call => match snd call with
                       | DiscountDelete _ _ => false
                       | _ => true
                       end) trace.

(** The code a customer would get for this spelling is stored as used. *)
Definition spent (code : string) (s : Store) : Prop :=
  exists d, discount_by_code code s = Some d /\ d_isUsed d = true.

(** The check every handler but the two of [api/checkout] opens with: a
    session for the cart routes, the admin role for the admin routes.
    [None] when the caller passes. *)
Definition turned_away (r : Request) : option Reply :=
  match r with
  | CartGet session | CartAdd session _ _ | CartClear session
  | CartItemUpdate session _ _ | CartItemRemove session _
  | DiscountApply session _ | DiscountRemove session =>
      match session with
      | None => Some (Fail 401 "Authentication required")
      | Some _ => None
      end
  | SettingsGet session | SettingsPatch session _
  | DiscountGenerate session _ | DiscountPatch session _ _
  | DiscountDelete session _ | StatsGet session =>
      if is_admin session then None
      else Some (Fail 403 "Admin access required")
  | Checkout _ _ | Confirm _ => None
  end.

(** The line the quote of [POST /api/checkout] makes of a cart item: the
    product is in the catalogue, active and in stock for the quantity. *)
Definition quoted (ps : gmap positive Product) (it : CartItem)
    (line : OrderItem) : Prop :=
  exists p,
    ps !! ci_product it = Some p
    /\ p_isActive p = true
    /\ ci_quantity it <= p_stock p
    /\ line = mkOrderItem (ci_product it) (p_name p) (ci_quantity it)
                          (p_price p) (p_image p).

(** ** Concrete stores and requests used by the examples *)

Module Scenario.

Import CheckoutRoute.

Definition alice : ObjectId := 11%positive.
Definition bob : ObjectId := 12%positive.
Definition root : option Session := Some (mkSession 13%positive admin).

Definition home : ShippingAddress :=
  mkShippingAddress "Asha Rao" "12 Main Street" "Pune" "MH" "411001"
                    "9876543210".

(** One unit of one product on the shelf. *)
Definition widget : Product := mkProduct "Widget" 100 "/widget.png" 1 true.

Definition coupon : DiscountCode :=
  mkDiscountCode 21%positive "UNIBLOX-AAAA-BBBB" 10 false None None 0 None.

Definition basket : Cart := mkCart [mkCartItem 1%positive 1 100] None.

(** A seeded shop: default settings, no order yet, the widget in the
    carts of two customers, one unused coupon. *)
Definition shop : Store :=
  mkStore (Some default_settings)
          {[ 1%positive := widget ]}
          {[ alice := basket; bob := basket ]}
          [coupon] [].

(** The same shop with five widgets and a reward on every order. *)
Definition generous_shop : Store :=
  mkStore (Some (mkStoreSettings 1 10 0 (Some 30)))
          {[ 1%positive := mkProduct "Widget" 100 "/widget.png" 5 true ]}
          {[ alice := basket ]}
          [] [].

(** A host on UTC, and one on Central European time around the change
    to summer time of 29 March 2026 (01:00 UTC): one hour ahead of UTC
    before it, two hours after. *)
Definition utc : TimeZone := mkTimeZone (fun _ => 0) (fun _ => 0).

Definition cet : TimeZone :=
  mkTimeZone (fun t => if t <? 1774746000000 then 3600000 else 7200000)
             (fun t => if t <? 1774753200000 then 3600000 else 7200000).

Definition first_call : Env :=
  mkEnv 1000 "1b9d6bcd-bbfd-4b2d-9b5d-ab8dfbbd4bed" 31%positive 41%positive
        (fun _ => Some "order_A"%string) utc.

Definition second_call : Env :=
  mkEnv 2000 "6ec0bd7f-11c0-43da-975e-2a8ad9ebae0b" 32%positive 42%positive
        (fun _ => Some "order_B"%string) utc.

(** The widget's id as a client spells it. *)
Definition widget_id : string := "000000000000000000000000".

Definition one_widget : list OrderItem :=
  [mkOrderItem 1%positive "Widget" 1 100 "/widget.png"].

(** The confirmation a client sends after paying the quote of
    [alice]'s basket. *)
Definition paid (user : ObjectId) (payment : string) : ConfirmBody :=
  mkConfirmBody (Some "order_A"%string) (Some payment) one_widget (Some 100%Q)
                None None None (Some 100%Q) (Some home) (Some user).

(** The same confirmation with the amounts lowered by the caller. *)
Definition underpaid (user : ObjectId) (payment : string) : ConfirmBody :=
  mkConfirmBody (Some "order_A"%string) (Some payment) one_widget (Some 1%Q)
                None None None (Some 1%Q) (Some home) (Some user).

(** A confirmation that redeems the coupon at ten percent. *)
Definition discounted (user : ObjectId) (payment : string) : ConfirmBody :=
  mkConfirmBody (Some "order_A"%string) (Some payment) one_widget (Some 100%Q)
                (Some "UNIBLOX-AAAA-BBBB"%string) (Some 10%Q) (Some 10%Q)
                (Some 90%Q) (Some home) (Some user).

(** The coupon after [alice] has redeemed it, and a shop holding it. *)
Definition spent_coupon : DiscountCode :=
  mkDiscountCode 21%positive "UNIBLOX-AAAA-BBBB" 10 true (Some alice)
                 (Some 500) 0 None.

Definition shop_with_spent_coupon : Store :=
  mkStore (Some default_settings)
          {[ 1%positive := mkProduct "Widget" 100 "/widget.png" 5 true ]}
          {[ bob := mkCart [mkCartItem 1%positive 1 100] (Some 21%positive) ]}
          [spent_coupon] [].

(** The seeded shop with five widgets on the shelf. *)
Definition stocked_shop : Store :=
  mkStore (Some default_settings)
          {[ 1%positive := mkProduct "Widget" 100 "/widget.png" 5 true ]}
          {[ alice := basket; bob := basket ]}
          [coupon] [].

(** Two customers are quoted for the last widget, then both pay. *)
Definition last_widget_twice : list (Env * Request) :=
  [ (first_call, Checkout (Some alice) home);
    (second_call, Checkout (Some bob) home);
    (first_call, Confirm (paid alice "pay_1"));
    (second_call, Confirm (paid bob "pay_2")) ].

(** Two customers apply the same coupon, are quoted with it, then both
    pay. *)
Definition one_coupon_twice : list (Env * Request) :=
  [ (first_call, DiscountApply (Some (mkSession alice customer))
                               "uniblox-aaaa-bbbb");
    (first_call, DiscountApply (Some (mkSession bob customer))
                               "uniblox-aaaa-bbbb");
    (first_call, Checkout (Some alice) home);
    (second_call, Checkout (Some bob) home);
    (first_call, Confirm (discounted alice "pay_1"));
    (second_call, Confirm (discounted bob "pay_2")) ].

(** A seeded shop with twenty widgets, and ten settlements in a row,
    each with its own clock reading, uuid and fresh ids. *)
Definition busy_shop : Store :=
  mkStore (Some default_settings)
          {[ 1%positive := mkProduct "Widget" 100 "/widget.png" 20 true ]}
          {[ alice := basket ]}
          [] [].

Definition call (n : positive) : Env :=
  mkEnv (1000 * Z.pos n)
        (if Z.even (Z.pos n) then uuidv4 second_call else uuidv4 first_call)
        (100 + n)%positive (200 + n)%positive
        (fun _ => Some "order_A"%string) utc.

Definition ten_settlements : list (Env * Request) :=
  map (fun n => (call n, Confirm (paid alice "pay")))
      [1; 2; 3; 4; 5; 6; 7; 8; 9; 10]%positive.

End Scenario.

(** * Properties *)

(** ** Rounding *)

Section Rounding.

Import Pricing.
Local Open Scope Q_scope.

Lemma Qfloor_unique (x : Q) (n : Z) :
  inject_Z n <= x -> x < inject_Z (n + 1) -> Qfloor x = n.
Proof.
  intros Hle Hlt.
  pose proof (Qfloor_le x) as H1. pose proof (Qlt_floor x) as H2.
  assert (Ha : inject_Z n < inject_Z (Qfloor x + 1)) by lra.
  assert (Hb : inject_Z (Qfloor x) < inject_Z (n + 1)) by lra.
  rewrite <- Zlt_Qlt in Ha, Hb. lia.
Qed.

(** On exact rationals the pricing expression is the rounding rule of
    the specification. *)
Lemma calculateDiscount_refines (s p : Q) :
  calculateDiscount s p == round_half_up_2dp (s * p / 100).
Proof.
  unfold calculateDiscount, round_half_up_2dp.
  set (v := s * p / 100 * 100).
  pose proof (Qfloor_le v) as H1. pose proof (Qlt_floor v) as H2.
  rewrite inject_Z_plus in H2. change (inject_Z 1) with 1 in H2.
  destruct (Qle_bool (1 # 2) (v - inject_Z (Qfloor v))) eqn:E.
  - apply Qle_bool_iff in E.
    assert (Math_round v = (Qfloor v + 1)%Z) as ->; [|reflexivity].
    unfold Math_round. apply Qfloor_unique.
    + rewrite inject_Z_plus. change (inject_Z 1) with 1. lra.
    + rewrite !inject_Z_plus. change (inject_Z 1) with 1. lra.
  - assert (~ (1 # 2) <= v - inject_Z (Qfloor v)) as E'.
    { intros H. apply Qle_bool_iff in H. congruence. }
    assert (Math_round v = Qfloor v) as ->; [|reflexivity].
    unfold Math_round. apply Qfloor_unique.
    + lra.
    + rewrite inject_Z_plus. change (inject_Z 1) with 1. lra.
Qed.

End Rounding.

(** ** Rounding on doubles *)

Section DoubleArithmetic.

Import Double.
Local Open Scope Q_scope.

Lemma pow2_pos e : 0 < pow2 e.
Proof. apply Qpower_0_lt. reflexivity. Qed.

Lemma pow2_plus a b : pow2 (a + b) == pow2 a * pow2 b.
Proof. apply Qpower_plus. discriminate. Qed.

Lemma pow2_Z (n : Z) : (0 <= n)%Z -> inject_Z (2 ^ n) == pow2 n.
Proof. intros H. unfold pow2. now rewrite Zpower_Qpower. Qed.

Lemma Qabs_make (x : Q) : Qabs x == inject_Z (Z.abs (Qnum x)) / inject_Z (Z.pos (Qden x)).
Proof.
  destruct x as [n d]. unfold Qabs, Qabs. simpl.
  unfold Qeq, Qdiv, Qmult, Qinv, inject_Z. simpl. lia.
Qed.

Lemma binade_le (x : Q) : ~ x == 0 -> pow2 (binade x) <= Qabs x.
Proof.
  intros Hx. unfold binade.
  set (n := Z.abs (Qnum x)). set (d := Z.pos (Qden x)).
  set (e := (Z.log2 n - Z.log2 d)%Z).
  destruct (Qle_bool (pow2 e) (Qabs x)) eqn:E; [now apply Qle_bool_iff|].
  assert (Hn : (0 < n)%Z).
  { subst n. destruct x as [[|p|p] q]; simpl; try lia.
    exfalso. apply Hx. reflexivity. }
  assert (Hd : (0 < d)%Z) by (subst d; lia).
  destruct (Z.log2_spec n Hn) as [Ln _].
  destruct (Z.log2_spec d Hd) as [_ Ld].
  pose proof (Z.log2_nonneg n) as An. pose proof (Z.log2_nonneg d) as Ad.
  rewrite Qabs_make. fold n d.
  assert (Ln' : pow2 (Z.log2 n) <= inject_Z n).
  { rewrite <- pow2_Z by assumption. now rewrite <- Zle_Qle. }
  assert (Ld' : inject_Z d <= pow2 (Z.log2 d + 1)).
  { rewrite <- pow2_Z by lia. rewrite <- Zle_Qle. unfold Z.succ in Ld. lia. }
  assert (Hd' : 0 < inject_Z d).
  { change 0 with (inject_Z 0). now rewrite <- Zlt_Qlt. }
  apply Qle_shift_div_l; [exact Hd'|].
  replace (Z.log2 n) with ((e - 1) + (Z.log2 d + 1))%Z in Ln' by (subst e; lia).
  rewrite pow2_plus in Ln'.
  pose proof (pow2_pos (e - 1)) as P1.
  eapply Qle_trans; [|exact Ln'].
  apply Qmult_le_l; assumption.
Qed.

Lemma binade_lt (x : Q) : ~ x == 0 -> Qabs x < pow2 (binade x + 1).
Proof.
  intros Hx. unfold binade.
  set (n := Z.abs (Qnum x)). set (d := Z.pos (Qden x)).
  set (e := (Z.log2 n - Z.log2 d)%Z).
  destruct (Qle_bool (pow2 e) (Qabs x)) eqn:E.
  - assert (Hn : (0 < n)%Z).
    { subst n. destruct x as [[|q|q] r]; simpl; try lia.
      exfalso. apply Hx. reflexivity. }
    assert (Hd : (0 < d)%Z) by (subst d; lia).
    destruct (Z.log2_spec n Hn) as [_ Ln].
    destruct (Z.log2_spec d Hd) as [Ld _].
    pose proof (Z.log2_nonneg n) as An. pose proof (Z.log2_nonneg d) as Ad.
    rewrite Qabs_make. fold n d.
    assert (Ln' : inject_Z n < pow2 (Z.log2 n + 1)).
    { rewrite <- pow2_Z by lia. rewrite <- Zlt_Qlt. unfold Z.succ in Ln. lia. }
    assert (Ld' : pow2 (Z.log2 d) <= inject_Z d).
    { rewrite <- pow2_Z by assumption. now rewrite <- Zle_Qle. }
    assert (Hd' : 0 < inject_Z d).
    { change 0 with (inject_Z 0). now rewrite <- Zlt_Qlt. }
    apply Qlt_shift_div_r; [exact Hd'|].
    replace (Z.log2 n + 1)%Z with ((e + 1) + Z.log2 d)%Z in Ln'
      by (subst e; lia).
    rewrite pow2_plus in Ln'.
    pose proof (pow2_pos (e + 1)) as P1.
    eapply Qlt_le_trans; [exact Ln'|].
    apply Qmult_le_l; assumption.
  - replace (e - 1 + 1)%Z with e by lia.
    apply Qnot_le_lt. intros H. apply Qle_bool_iff in H. congruence.
Qed.

Lemma nearest_even_error (m : Q) :
  - (1 # 2) <= inject_Z (nearest_even m) - m <= 1 # 2.
Proof.
  unfold nearest_even.
  pose proof (Qfloor_le m) as H1. pose proof (Qlt_floor m) as H2.
  rewrite inject_Z_plus in H2. change (inject_Z 1) with 1 in H2.
  destruct (Qcompare_spec (m - inject_Z (Qfloor m)) (1 # 2)) as [E|E|E].
  - destruct (Z.even (Qfloor m));
      rewrite ?inject_Z_plus; change (inject_Z 1) with 1; split; lra.
  - split; lra.
  - rewrite inject_Z_plus. change (inject_Z 1) with 1. split; lra.
Qed.

Lemma nearest_even_nonneg (m : Q) : 0 <= m -> (0 <= nearest_even m)%Z.
Proof.
  intros H. unfold nearest_even.
  assert (0 <= Qfloor m)%Z.
  { change 0%Z with (Qfloor 0). now apply Qfloor_resp_le. }
  destruct (Qcompare _ _); [destruct (Z.even _)| |]; lia.
Qed.

Lemma ulp_pos x : 0 < ulp x.
Proof. apply pow2_pos. Qed.

Lemma ulp_half (x : Q) :
  ~ x == 0 -> ulp x * (1 # 2) <= unit_roundoff * Qabs x + tiny.
Proof.
  intros Hx. unfold ulp, unit_roundoff, tiny.
  pose proof (binade_le x Hx) as Hb.
  pose proof (Qabs_nonneg x) as Ha.
  pose proof (pow2_pos (-1075)) as Ht.
  pose proof (pow2_pos (-53)) as Hu.
  destruct (Z.max_spec (binade x) emin) as [[Hlt ->]|[Hle ->]].
  - assert (E : pow2 (emin - 52) * (1 # 2) == pow2 (-1075)) by reflexivity.
    rewrite E. nra.
  - replace (binade x - 52)%Z with (binade x + (-53) + 1)%Z by lia.
    rewrite !pow2_plus.
    assert (E : pow2 1 == 2) by reflexivity. rewrite E.
    set (b := pow2 (binade x)) in *. set (u := pow2 (-53)) in *.
    nra.
Qed.

(** The error of one rounding: at most half a unit in the last place. *)
Lemma round_error (x : Q) :
  Qabs (round x - x) <= unit_roundoff * Qabs x + tiny.
Proof.
  unfold round. destruct (Qeq_bool x 0) eqn:E.
  - apply Qeq_bool_iff in E.
    pose proof (pow2_pos (-1075)). pose proof (pow2_pos (-53)).
    unfold unit_roundoff, tiny.
    assert (E1 : Qabs (0 - x) == 0) by (rewrite E; reflexivity).
    assert (E2 : Qabs x == 0) by (rewrite E; reflexivity).
    rewrite E1, E2. nra.
  - assert (Hx : ~ x == 0).
    { intros H. apply Qeq_bool_iff in H. congruence. }
    pose proof (ulp_half x Hx) as Hh. pose proof (ulp_pos x) as Hp.
    pose proof (nearest_even_error (x / ulp x)) as [N1 N2].
    set (r := inject_Z (nearest_even (x / ulp x))) in *.
    assert (Ex : x == x / ulp x * ulp x) by (field; lra).
    set (m := x / ulp x) in *. set (w := ulp x) in *.
    apply Qabs_Qle_condition. split; nra.
Qed.

Lemma round_nonneg (x : Q) : 0 <= x -> 0 <= round x.
Proof.
  intros H. unfold round. destruct (Qeq_bool x 0); [lra|].
  pose proof (ulp_pos x) as Hp.
  assert (0 <= x / ulp x).
  { apply Qle_shift_div_l; [exact Hp|]. lra. }
  pose proof (nearest_even_nonneg _ H0) as Hn.
  rewrite Zle_Qle in Hn. change (inject_Z 0) with 0 in Hn. nra.
Qed.



Lemma unit_roundoff_value : unit_roundoff == 1 # 9007199254740992.
Proof. reflexivity. Qed.

Lemma tiny_pos : 0 < tiny.
Proof. apply pow2_pos. Qed.

Lemma tiny_small : tiny <= 1 # 1267650600228229401496703205376.
Proof. apply Qle_bool_iff. vm_compute. reflexivity. Qed.

(** One rounding of a number that is not negative. *)
Lemma round_bounds (x : Q) :
  0 <= x ->
  0 <= round x
  /\ x * (1 - (1 # 9007199254740992)) - tiny <= round x
  /\ round x <= x * (1 + (1 # 9007199254740992)) + tiny.
Proof.
  intros H. split; [now apply round_nonneg|].
  pose proof (round_error x) as E. rewrite unit_roundoff_value in E.
  rewrite (Qabs_pos x H) in E. apply Qabs_Qle_condition in E. lra.
Qed.

(** The three roundings before [Math.round]: the product, the quotient
    by 100 and the product by 100. *)
Lemma scaled_product (P : Q) :
  0 <= P ->
  let c := round (round (round P / 100) * 100) in
  0 <= c
  /\ P - (1 # 1125899906842624) * (P + 1) <= c
  /\ c <= P + (1 # 1125899906842624) * (P + 1).
Proof.
  intros HP c. subst c.
  pose proof tiny_pos as T0. pose proof tiny_small as T1.
  destruct (round_bounds P HP) as (A0 & A1 & A2).
  revert A0 A1 A2. generalize (round P). intros a A0 A1 A2.
  assert (E : a / 100 == a * (1 # 100)) by field.
  assert (Hq : 0 <= a / 100) by lra.
  destruct (round_bounds (a / 100) Hq) as (B0 & B1 & B2).
  revert B0 B1 B2. generalize (round (a / 100)). intros b B0 B1 B2.
  revert E Hq B1 B2. generalize (a / 100). intros q E Hq B1 B2.
  assert (Hm : 0 <= b * 100) by lra.
  destruct (round_bounds (b * 100) Hm) as (C0 & C1 & C2).
  revert C0 C1 C2. generalize (round (b * 100)). intros c C0 C1 C2.
  generalize dependent tiny. intros t T0 T1 A1 A2 B1 B2 C1 C2.
  split; [exact C0|]. split; lra.
Qed.

Lemma Math_round_bounds (x : Q) :
  x - (1 # 2) < inject_Z (Math_round x) /\ inject_Z (Math_round x) <= x + (1 # 2).
Proof.
  unfold Math_round.
  pose proof (Qfloor_le (x + (1 # 2))) as H1.
  pose proof (Qlt_floor (x + (1 # 2))) as H2.
  rewrite inject_Z_plus in H2. change (inject_Z 1) with 1 in H2.
  split; lra.
Qed.

Lemma Math_round_nonneg (x : Q) : 0 <= x -> (0 <= Math_round x)%Z.
Proof.
  intros H. unfold Math_round. change 0%Z with (Qfloor 0).
  apply Qfloor_resp_le. lra.
Qed.

Lemma calculateDiscount_hundredths (s p : Q) :
  calculateDiscount s p = round (inject_Z (hundredths s p) / 100).
Proof. reflexivity. Qed.

Lemma hundredths_bounds (s p : Q) :
  0 <= s * p ->
  (0 <= hundredths s p)%Z
  /\ s * p - (1 # 2) - (1 # 1125899906842624) * (s * p + 1)
     < inject_Z (hundredths s p)
  /\ inject_Z (hundredths s p)
     <= s * p + (1 # 2) + (1 # 1125899906842624) * (s * p + 1).
Proof.
  intros HP. unfold hundredths, mul, div.
  destruct (scaled_product (s * p) HP) as (C0 & C1 & C2).
  pose proof (Math_round_bounds (round (round (round (s * p) / 100) * 100)))
    as [M1 M2].
  split; [now apply Math_round_nonneg|].
  revert M1 M2. generalize (Math_round (round (round (round (s * p) / 100) * 100))).
  intros k M1 M2.
  revert C0 C1 C2 M1 M2. generalize (round (round (round (s * p) / 100) * 100)).
  intros c. generalize dependent (s * p). intros P HP C0 C1 C2 M1 M2.
  split; lra.
Qed.










(** One rounding of a number of size [B] at most. *)
Lemma round_near (x B : Q) :
  Qabs x <= B ->
  - ((1 # 9007199254740992) * B + tiny) <= round x - x
  /\ round x - x <= (1 # 9007199254740992) * B + tiny.
Proof.
  intros H. pose proof (round_error x) as E. rewrite unit_roundoff_value in E.
  apply Qabs_Qle_condition in E. lra.
Qed.

Lemma inject_Z_nonneg (k : Z) : (0 <= k)%Z -> 0 <= inject_Z k.
Proof. intros H. change 0 with (inject_Z 0). now rewrite <- Zle_Qle. Qed.

Lemma percent_of (s p : Q) : 0 <= s -> 0 <= p <= 100 -> 0 <= s * p <= s * 100.
Proof. intros Hs [Hp Hq]. split; nra. Qed.

(** The total after a discount, against the subtotal less the whole
    number of hundredths of the discount. *)
Lemma total_near (s p : Q) :
  0 <= s -> 0 <= p <= 100 ->
  let k := hundredths s p in
  let total := computeTotal s (calculateDiscount s p) in
  - ((1 # 562949953421312) * (s + 1)) <= total - (s - inject_Z k / 100)
  /\ total - (s - inject_Z k / 100) <= (1 # 562949953421312) * (s + 1).
Proof.
  intros Hs Hp k total. subst total. unfold computeTotal, sub.
  rewrite calculateDiscount_hundredths. fold k.
  destruct (percent_of s p Hs Hp) as [P0 P1].
  pose proof (hundredths_bounds s p P0) as (K0 & K1 & K2). fold k in K0, K1, K2.
  apply inject_Z_nonneg in K0.
  assert (E : inject_Z k / 100 == inject_Z k * (1 # 100)) by field.
  assert (Hq : 0 <= inject_Z k / 100) by lra.
  destruct (round_bounds _ Hq) as (D0 & D1 & D2).
  pose proof tiny_pos as T0. pose proof tiny_small as T1.
  assert (HB : Qabs (s - round (inject_Z k / 100)) <= 2 * s + 1).
  { apply Qabs_Qle_condition.
    revert D0 D1 D2. generalize (round (inject_Z k / 100)). intros d D0 D1 D2.
    revert E Hq D1 D2. generalize (inject_Z k / 100). intros q E Hq D1 D2.
    revert K0 K1 K2 E. generalize (inject_Z k). intros z K0 K1 K2 E.
    revert P0 P1 K1 K2. generalize (s * p). intros P P0 P1 K1 K2.
    generalize dependent tiny. intros t T0 T1 D1 D2.
    split; lra. }
  destruct (round_near _ _ HB) as [R1 R2].
  revert R1 R2. generalize (round (s - round (inject_Z k / 100))).
  intros r R1 R2. clear HB.
  revert D0 D1 D2 R1 R2. generalize (round (inject_Z k / 100)).
  intros d D0 D1 D2 R1 R2.
  revert E Hq D1 D2. generalize (inject_Z k / 100). intros q E Hq D1 D2.
  revert K0 K1 K2 E. generalize (inject_Z k). intros z K0 K1 K2 E.
  revert P0 P1 K1 K2. generalize (s * p). intros P P0 P1 K1 K2.
  generalize dependent tiny. intros t T0 T1 D1 D2 R1 R2.
  split; lra.
Qed.






End DoubleArithmetic.

Section Doubles.

Import Binary64.
Local Open Scope float_scope.

(** On doubles the expression gives the same values at the inputs named
    above: 100, 33.3 and 125, and 0.13 with a total below zero for a
    subtotal of one eighth at 100 percent. *)
Lemma calculateDiscount_on_doubles :
  calculateDiscount 1000 10 = 100
  /\ calculateDiscount 333 10 = 333 / 10
  /\ calculateDiscount 500 25 = 125
  /\ calculateDiscount 1000 0 = 0
  /\ calculateDiscount 1000 100 = 1000
  /\ calculateDiscount 0.125 100 = 13 / 100
  /\ (computeTotal 0.125 (calculateDiscount 0.125 100) <? 0) = true.
Proof. repeat split. Qed.

End Doubles.

Section DoubleAgreement.

Local Open Scope Q_scope.

(** The rational model against the hardware doubles: the parsing of a
    decimal, one operation of each kind, the pricing expressions at the
    inputs above, and the subnormal doubles. *)
Lemma double_agrees_with_hardware :
  Double.of_float (29 / 100) == Double.round (29 # 100)
  /\ Double.of_float (285 / 100) == Double.round (285 # 100)
  /\ Double.of_float (285 / 100 * 10)
     == Double.mul (Double.of_float (285 / 100)) 10
  /\ Double.of_float (30 / 100 - 10 / 100)
     == Double.sub (Double.of_float (30 / 100)) (Double.of_float (10 / 100))
  /\ Double.of_float (Binary64.calculateDiscount (285 / 100) 10)
     == Double.calculateDiscount (Double.of_float (285 / 100)) 10
  /\ Double.of_float (Binary64.calculateDiscount (29 / 100) 50)
     == Double.calculateDiscount (Double.of_float (29 / 100)) 50
  /\ Double.of_float (Binary64.calculateDiscount (145 / 100) 50)
     == Double.calculateDiscount (Double.of_float (145 / 100)) 50
  /\ Double.of_float (Binary64.calculateDiscount 333 10)
     == Double.calculateDiscount 333 10
  /\ Double.of_float
       (Binary64.computeTotal 0.125 (Binary64.calculateDiscount 0.125 100))
     == Double.computeTotal (1 # 8) (Double.calculateDiscount (1 # 8) 100)
  /\ Double.of_float 0x1p-1074 == Double.pow2 (-1074)
  /\ Double.of_float (0x1p-1074 / 2) == Double.round (Double.pow2 (-1075))
  /\ Double.of_float (0x3p-1074 / 2)
     == Double.round (Double.pow2 (-1074) * (3 # 2)).
Proof. repeat split; vm_compute; reflexivity. Qed.

End DoubleAgreement.

(** ** Proof automation *)

Ltac break_match :=
  match goal with
  | |- context [match ?x with _ => _ end] => destruct x eqn:?
  end.

Ltac unfold_routes :=
  unfold handle, CartRoute.GET, CartRoute.POST, CartRoute.DELETE,
    CartItemRoute.PATCH, CartItemRoute.DELETE, CartDiscountRoute.POST,
    CartDiscountRoute.DELETE, CheckoutRoute.POST, AdminSettingsRoute.GET,
    AdminSettingsRoute.PATCH, AdminDiscountsRoute.POST,
    AdminDiscountsRoute.PATCH, AdminDiscountsRoute.DELETE,
    AdminStatsRoute.GET.

(** ** The settlement, step by step *)

Section Settlement.

Import CheckoutRoute.

Lemma getStoreSettings_frame s :
  products (snd (getStoreSettings s)) = products s
  /\ carts (snd (getStoreSettings s)) = carts s
  /\ discounts (snd (getStoreSettings s)) = discounts s
  /\ orders (snd (getStoreSettings s)) = orders s.
Proof. unfold getStoreSettings. destruct (settings s); simpl; easy. Qed.

Lemma redeem_frame env body s :
  settings (redeem env body s) = settings s
  /\ products (redeem env body s) = products s
  /\ carts (redeem env body s) = carts s
  /\ orders (redeem env body s) = orders s.
Proof.
  unfold redeem. destruct (b_discountCode body); [|easy].
  destruct (truthy _); easy.
Qed.

Lemma redeem_discounts env body s t :
  discounts s = discounts t ->
  discounts (redeem env body s) = discounts (redeem env body t).
Proof.
  intros H. unfold redeem. destruct (b_discountCode body); [|easy].
  destruct (truthy _); [|easy]. simpl. now rewrite H.
Qed.

Lemma decrement_stock_frame items s :
  settings (decrement_stock items s) = settings s
  /\ carts (decrement_stock items s) = carts s
  /\ discounts (decrement_stock items s) = discounts s
  /\ orders (decrement_stock items s) = orders s.
Proof.
  unfold decrement_stock. revert s.
  induction items as [|it items IH]; intros s; simpl; [easy|].
  destruct (IH (product_inc_stock (oi_product it) (- oi_quantity it) s))
    as (H1 & H2 & H3 & H4).
  rewrite H1, H2, H3, H4. easy.
Qed.

Lemma decrement_stock_products items s t :
  products s = products t ->
  products (decrement_stock items s) = products (decrement_stock items t).
Proof.
  unfold decrement_stock. revert s t.
  induction items as [|it items IH]; intros s t H; simpl; [easy|].
  apply IH. simpl. now rewrite H.
Qed.

(** Each product loses what the line items ask of it, whatever is
    left on the shelf. *)
Lemma decrement_stock_level items s id :
  p_stock <$> (products (decrement_stock items s) !! id)
  = (fun n => n - purchased id items) <$> (p_stock <$> (products s !! id)).
Proof.
  unfold decrement_stock. revert s.
  induction items as [|it items IH]; intros s; simpl.
  - destruct (products s !! id); simpl; [f_equal; lia|reflexivity].
  - rewrite IH. unfold product_inc_stock. simpl.
    destruct (Pos.eqb_spec (oi_product it) id) as [->|Hne].
    + rewrite lookup_alter_eq.
      destruct (products s !! id); simpl; [f_equal; lia|reflexivity].
    + rewrite lookup_alter_ne by assumption. reflexivity.
Qed.

(** An accepted settlement went through every step. *)
Lemma PUT_Confirmed env body s c s' :
  PUT env body s = (Confirmed c, s') ->
  exists st o, Settled env body s s' c st o.
Proof.
  unfold PUT.
  destruct (negb (truthy (b_razorpayPaymentId body))
            || negb (truthy (b_razorpayOrderId body))); [discriminate|].
  pose proof (getStoreSettings_frame s) as (Fp & Fc & Fd & Fo).
  destruct (getStoreSettings s) as [st0 s0] eqn:Eg.
  simpl in Fp, Fc, Fd, Fo.
  remember (bump st0) as st eqn:Est.
  unfold settings_save.
  destruct (settings_valid st) eqn:Ev; [|discriminate].
  destruct (order_of_body env (totalOrders st) body) as [o|] eqn:Eo;
    [|discriminate].
  unfold order_create.
  destruct (order_valid o) eqn:Eov; simpl; [|discriminate].
  destruct (existsb _ (orders s0)) eqn:Ex; simpl; [discriminate|].
  rewrite Fo in Ex.
  set (s2 := set_orders _ _).
  pose proof (redeem_frame env body s2) as (R1 & R2 & R3 & R4).
  assert (R5 : discounts (redeem env body s2) = discounts (redeem env body s))
    by (apply redeem_discounts; exact Fd).
  set (s4 := decrement_stock (b_items body) (redeem env body s2)).
  pose proof (decrement_stock_frame (b_items body) (redeem env body s2))
    as (D1 & D2 & D3 & D4).
  fold s4 in D1, D2, D3, D4.
  assert (D5 : products s4 = products (decrement_stock (b_items body) s)).
  { apply decrement_stock_products. rewrite R2. exact Fp. }
  assert (Common : forall s6,
             settings s6 = settings s4 ->
             products s6 = products s4 ->
             carts s6 = alter (fun _ => mkCart [] None) (o_user o) (carts s4) ->
             orders s6 = orders s4 ->
             discounts s6 = discounts s4 ++ minted env st ->
             (forall d, In d (minted env st) ->
                discount_valid d = true
                /\ existsb (fun e => String.eqb (d_code e) (d_code d)
                                     || Pos.eqb (d_id e) (d_id d))
                           (discounts (redeem env body s)) = false) ->
             Settled env body s s6
                     (confirmation o (announce <$> head (minted env st)))
                     st o).
  { intros s6 H1 H2 H3 H4 H5 H6.
    split; try assumption.
    - rewrite Est. now rewrite Eg.
    - now rewrite H1, D1, R1.
    - rewrite H4, D4, R4. subst s2. simpl. now rewrite Fo.
    - now rewrite H2.
    - rewrite H3, D2, R3. subst s2. simpl. now rewrite Fc.
    - now rewrite H5, D3, R5.
    - reflexivity. }
  unfold minted in Common.
  destruct (isNthOrder (totalOrders st) (nthOrderDiscount st)) eqn:En.
  - unfold discount_create.
    destruct (discount_valid _ && _) eqn:Ec; [|discriminate].
    intros [= <- <-]. exists st, o.
    apply Common; try reflexivity.
    intros d [<-|[]]. apply andb_prop in Ec as [Ec1 Ec2].
    split; [exact Ec1|]. apply negb_true_iff in Ec2.
    simpl in Ec2. fold s4 in Ec2. now rewrite D3, R5 in Ec2.
  - intros [= <- <-]. exists st, o.
    apply Common; simpl; try reflexivity; [|intros d []].
    now rewrite app_nil_r.
Qed.

Lemma counter_of_settings s st :
  settings s = Some st -> order_counter s = totalOrders st.
Proof. unfold order_counter, getStoreSettings. now intros ->. Qed.

Lemma Settled_counter env body s s' c st o :
  Settled env body s s' c st o ->
  totalOrders st = order_counter s + 1
  /\ order_counter s' = order_counter s + 1
  /\ o_orderNumber o = order_counter s + 1
  /\ cf_orderNumber c = order_counter s + 1
  /\ o_paymentId o = b_razorpayPaymentId body.
Proof.
  intros [Est _ Eo _ _ Eset _ _ _ _ _ Erep].
  assert (E : totalOrders st = order_counter s + 1).
  { rewrite Est. reflexivity. }
  assert (En : o_orderNumber o = totalOrders st
               /\ o_paymentId o = b_razorpayPaymentId body).
  { unfold order_of_body in Eo.
    destruct (b_userId body), (b_subtotal body), (b_total body);
      try discriminate.
    injection Eo as <-. easy. }
  destruct En as [En1 En2].
  split; [exact E|]. split.
  { rewrite (counter_of_settings _ _ Eset). exact E. }
  split; [congruence|]. split; [|exact En2].
  rewrite Erep. simpl. congruence.
Qed.

Lemma Settled_stock env body s s' c st o id p :
  Settled env body s s' c st o ->
  products s !! id = Some p ->
  exists p', products s' !! id = Some p'
             /\ p_stock p' = p_stock p - purchased id (b_items body).
Proof.
  intros H Hp.
  pose proof (decrement_stock_level (b_items body) s id) as L.
  rewrite <- (settled_products _ _ _ _ _ _ _ H), Hp in L. simpl in L.
  destruct (products s' !! id) as [p'|]; [|discriminate].
  exists p'. split; [reflexivity|]. now injection L.
Qed.

End Settlement.

(** ** What the requests leave alone *)

Section Frames.

Import CheckoutRoute.

Lemma isNthOrder_mod k n : 1 <= n -> isNthOrder k n = true <-> k mod n = 0.
Proof.
  intros Hn. unfold isNthOrder.
  destruct (Z.eqb_spec n 0) as [->|Hne]; [lia|].
  rewrite Z.eqb_eq, Z.rem_divide, Z.mod_divide by assumption. reflexivity.
Qed.

Lemma settings_valid_inv st :
  settings_valid st = true ->
  1 <= nthOrderDiscount st
  /\ (1 <= discountPercent st <= 100)%Q
  /\ 0 <= totalOrders st
  /\ forall d, defaultDiscountExpiry st = Some d -> 1 <= d.
Proof.
  unfold settings_valid. rewrite !andb_true_iff.
  intros ((((H1 & H2) & H3) & H4) & H5).
  apply Z.leb_le in H1, H4. apply Qle_bool_iff in H2, H3.
  repeat split; try assumption.
  intros d E. rewrite E in H5. now apply Z.leb_le.
Qed.

Lemma map_update_first {A B} (g : A -> B) sel f (l : list A) :
  (forall x, g (f x) = g x) -> map g (update_first sel f l) = map g l.
Proof.
  intros Hg. induction l as [|x l IH]; simpl; [easy|].
  destruct (sel x); simpl; [now rewrite Hg|now rewrite IH].
Qed.

(** Redeeming rewrites one document in place: no code appears or
    disappears. *)
Lemma redeem_codes env body s :
  map d_code (discounts (redeem env body s)) = map d_code (discounts s)
  /\ map d_id (discounts (redeem env body s)) = map d_id (discounts s).
Proof.
  unfold redeem. destruct (b_discountCode body); [|easy].
  destruct (truthy _); [|easy]. simpl.
  split; now apply map_update_first.
Qed.

Lemma discount_fresh_code (d : DiscountCode) l :
  existsb (fun e => String.eqb (d_code e) (d_code d)
                    || Pos.eqb (d_id e) (d_id d)) l = false ->
  ~ In (d_code d) (map d_code l).
Proof.
  induction l as [|e l IH]; simpl; [tauto|].
  intros H. apply orb_false_elim in H as [H1 H2].
  apply orb_false_elim in H1 as [H1 _]. apply String.eqb_neq in H1.
  intros [E|E]; [congruence|]. now apply IH.
Qed.

Lemma order_fresh_number (o : Order) l :
  existsb (fun e => (o_orderNumber e =? o_orderNumber o)
                    || Pos.eqb (o_id e) (o_id o)) l = false ->
  ~ In (o_orderNumber o) (map o_orderNumber l).
Proof.
  induction l as [|e l IH]; simpl; [tauto|].
  intros H. apply orb_false_elim in H as [H1 H2].
  apply orb_false_elim in H1 as [H1 _]. apply Z.eqb_neq in H1.
  intros [E|E]; [congruence|]. now apply IH.
Qed.

Lemma Settled_discounts_length env body s s' c st o :
  Settled env body s s' c st o ->
  (length (discounts s) <= length (discounts s')
   <= length (discounts s) + 1)%nat.
Proof.
  intros H. rewrite (settled_discounts _ _ _ _ _ _ _ H), length_app.
  pose proof (proj1 (redeem_codes env body s)) as E.
  apply (f_equal (@length _)) in E. rewrite !length_map in E. rewrite E.
  unfold minted. destruct (isNthOrder _ _); simpl; lia.
Qed.

Lemma order_counter_settings s t :
  settings s = settings t -> order_counter s = order_counter t.
Proof.
  unfold order_counter, getStoreSettings. intros ->.
  now destruct (settings t).
Qed.

Lemma getStoreSettings_counter s st s0 :
  getStoreSettings s = (st, s0) ->
  order_counter s = totalOrders st /\ settings s0 = Some st.
Proof.
  unfold order_counter, getStoreSettings.
  destruct (settings s) eqn:E; intros [= <- <-]; simpl; auto.
Qed.

Lemma settings_save_settings st s s' :
  settings_save st s = Some s' -> settings s' = Some st.
Proof.
  unfold settings_save. destruct (settings_valid st); intros [= <-]; easy.
Qed.

Lemma cart_save_settings u c s s' :
  cart_save u c s = Some s' -> settings s' = settings s.
Proof. unfold cart_save. destruct (cart_valid c); intros [= <-]; easy. Qed.

Lemma discount_create_settings d s s' :
  discount_create d s = Some s' -> settings s' = settings s.
Proof. unfold discount_create. destruct (_ && _); intros [= <-]; easy. Qed.

Lemma discount_save_settings d s s' :
  discount_save d s = Some s' -> settings s' = settings s.
Proof.
  unfold discount_save. destruct (discount_valid d); intros [= <-]; easy.
Qed.

Lemma settings_save_orders st s s' :
  settings_save st s = Some s' -> orders s' = orders s.
Proof.
  unfold settings_save. destruct (settings_valid st); intros [= <-]; easy.
Qed.

Lemma cart_save_orders u c s s' :
  cart_save u c s = Some s' -> orders s' = orders s.
Proof. unfold cart_save. destruct (cart_valid c); intros [= <-]; easy. Qed.

Lemma discount_create_orders d s s' :
  discount_create d s = Some s' -> orders s' = orders s.
Proof. unfold discount_create. destruct (_ && _); intros [= <-]; easy. Qed.

Lemma discount_save_orders d s s' :
  discount_save d s = Some s' -> orders s' = orders s.
Proof.
  unfold discount_save. destruct (discount_valid d); intros [= <-]; easy.
Qed.

Lemma getStoreSettings_orders s st s0 :
  getStoreSettings s = (st, s0) -> orders s0 = orders s.
Proof.
  intros H. pose proof (getStoreSettings_frame s) as (_ & _ & _ & F).
  now rewrite H in F.
Qed.

End Frames.

Ltac settings_facts :=
  repeat match goal with
    | H : cart_save _ _ _ = Some _ |- _ => apply cart_save_settings in H
    | H : discount_create _ _ = Some _ |- _ =>
        apply discount_create_settings in H
    | H : discount_save _ _ = Some _ |- _ => apply discount_save_settings in H
    | H : settings_save _ _ = Some _ |- _ => apply settings_save_settings in H
    | H : getStoreSettings _ = (_, _) |- _ =>
        apply getStoreSettings_counter in H; destruct H
    end.

Ltac orders_facts :=
  repeat match goal with
    | H : cart_save _ _ _ = Some _ |- _ => apply cart_save_orders in H
    | H : discount_create _ _ = Some _ |- _ =>
        apply discount_create_orders in H
    | H : discount_save _ _ = Some _ |- _ => apply discount_save_orders in H
    | H : settings_save _ _ = Some _ |- _ => apply settings_save_orders in H
    | H : getStoreSettings _ = (_, _) |- _ =>
        apply getStoreSettings_orders in H
    end.

Section Runs.

Import CheckoutRoute.

(** Every request but the settlement hands the counter on as it found
    it. *)
Lemma other_requests_keep_counter env r s :
  is_confirm r = false ->
  order_counter (snd (handle env r s)) = order_counter s.
Proof.
  destruct r; simpl is_confirm; try discriminate; intros _; unfold_routes;
    repeat break_match; simpl; settings_facts;
    try reflexivity;
    try (apply order_counter_settings; simpl; congruence);
    try (erewrite counter_of_settings by eassumption; simpl; congruence);
    try (match goal with
         | H : order_counter ?s = _ |- _ = order_counter ?s => rewrite H
         end; apply counter_of_settings; simpl; congruence).
Qed.

(** Every request but the settlement leaves the orders as they are. *)
Lemma other_requests_keep_orders env r s :
  is_confirm r = false -> orders (snd (handle env r s)) = orders s.
Proof.
  destruct r; simpl is_confirm; try discriminate; intros _; unfold_routes;
    repeat break_match; simpl; orders_facts; try reflexivity; congruence.
Qed.

(** A settlement, accepted or not, inserts at most one order, under a
    number no stored order has. *)
Lemma PUT_orders env body s :
  orders (snd (PUT env body s)) = orders s
  \/ exists o, orders (snd (PUT env body s)) = orders s ++ [o]
               /\ ~ In (o_orderNumber o) (map o_orderNumber (orders s)).
Proof.
  unfold PUT.
  destruct (negb _ || negb _); [now left|].
  destruct (getStoreSettings s) as [st0 s0] eqn:Eg.
  apply getStoreSettings_orders in Eg.
  destruct (settings_save (bump st0) s0) as [s1|] eqn:Es; [|now left].
  apply settings_save_orders in Es.
  destruct (order_of_body env (totalOrders (bump st0)) body) as [o|];
    [|left; simpl; congruence].
  unfold order_create.
  destruct (order_valid o); simpl; [|left; congruence].
  destruct (existsb _ (orders s1)) eqn:Ex; simpl; [left; congruence|].
  right. exists o. rewrite Es, Eg in Ex.
  split; [|now apply order_fresh_number].
  set (s2 := set_orders _ _).
  pose proof (redeem_frame env body s2) as (_ & _ & _ & R4).
  pose proof (decrement_stock_frame (b_items body) (redeem env body s2))
    as (_ & _ & _ & D4).
  assert (E : orders (cart_clear (o_user o)
                        (decrement_stock (b_items body) (redeem env body s2)))
              = orders s ++ [o]).
  { simpl. rewrite D4, R4. subst s2. simpl. now rewrite Es, Eg. }
  destruct (isNthOrder _ _); [|exact E].
  destruct (discount_create _ _) as [s6|] eqn:Ec; [|exact E].
  apply discount_create_orders in Ec. simpl. congruence.
Qed.

Lemma handle_order_numbers env r s :
  NoDup (map o_orderNumber (orders s)) ->
  NoDup (map o_orderNumber (orders (snd (handle env r s)))).
Proof.
  intros Hn. destruct (is_confirm r) eqn:E.
  - destruct r; try discriminate. simpl.
    destruct (PUT_orders env body s) as [->|(o & -> & Hf)]; [exact Hn|].
    rewrite map_app. simpl. apply NoDup_app. split; [exact Hn|]. split.
    + intros n Hin Hin'. apply list_elem_of_In in Hin, Hin'.
      destruct Hin' as [<-|[]]. contradiction.
    + apply NoDup_singleton.
  - now rewrite other_requests_keep_orders.
Qed.

(** Order numbers stay distinct along every run. *)
Lemma serve_order_numbers trace s :
  NoDup (map o_orderNumber (orders s)) ->
  NoDup (map o_orderNumber (orders (snd (serve trace s)))).
Proof.
  revert s. induction trace as [|[env r] trace IH]; intros s Hn; [exact Hn|].
  simpl. pose proof (handle_order_numbers env r s Hn) as H1.
  destruct (handle env r s) as [reply s1]. simpl in H1.
  specialize (IH s1 H1). destruct (serve trace s1). exact IH.
Qed.

End Runs.

(** ** Settlement claims *)

Section SettlementClaims.

Import CheckoutRoute Scenario.

(** C1, as amended: the settlement keeps no record of the payment
    proofs it has seen, so each accepted delivery settles on its own.
    Two accepted deliveries of one callback leave two orders with the
    same payment proof id and consecutive order numbers, two stock
    decrements per line item and at most two minted codes.  What no two
    orders share, in any state a run reaches from a store with distinct
    order numbers, is the order number. *)
Theorem replayed_callback_settles_again env1 env2 body s c1 s1 c2 s2 :
  PUT env1 body s = (Confirmed c1, s1) ->
  PUT env2 body s1 = (Confirmed c2, s2) ->
  (exists o1 o2,
      orders s2 = orders s ++ [o1; o2]
      /\ o_paymentId o1 = b_razorpayPaymentId body
      /\ o_paymentId o2 = b_razorpayPaymentId body
      /\ o_orderNumber o1 = order_counter s + 1
      /\ o_orderNumber o2 = order_counter s + 2)
  /\ (forall id p, products s !! id = Some p ->
        exists p', products s2 !! id = Some p'
                   /\ p_stock p' = p_stock p - 2 * purchased id (b_items body))
  /\ (length (discounts s2) <= length (discounts s) + 2)%nat
  /\ (forall trace s0,
        NoDup (map o_orderNumber (orders s0)) ->
        NoDup (map o_orderNumber (orders (snd (serve trace s0))))).
Proof.
  intros H1 H2.
  apply PUT_Confirmed in H1 as (st1 & o1 & H1).
  apply PUT_Confirmed in H2 as (st2 & o2 & H2).
  pose proof (Settled_counter _ _ _ _ _ _ _ H1) as (_ & A2 & A3 & _ & A5).
  pose proof (Settled_counter _ _ _ _ _ _ _ H2) as (_ & B2 & B3 & _ & B5).
  split; [|split; [|split]].
  - exists o1, o2.
    rewrite (settled_orders _ _ _ _ _ _ _ H2),
      (settled_orders _ _ _ _ _ _ _ H1), <- app_assoc.
    repeat split; try assumption. lia.
  - intros id p Hp.
    destruct (Settled_stock _ _ _ _ _ _ _ id p H1 Hp) as (p1 & Hp1 & E1).
    destruct (Settled_stock _ _ _ _ _ _ _ id p1 H2 Hp1) as (p2 & Hp2 & E2).
    exists p2. split; [assumption|lia].
  - pose proof (Settled_discounts_length _ _ _ _ _ _ _ H1).
    pose proof (Settled_discounts_length _ _ _ _ _ _ _ H2). lia.
  - apply serve_order_numbers.
Qed.

Lemma replayed_callback_settles_again_witness :
  exists c1 s1 c2 s2,
    PUT first_call (paid alice "pay_1") generous_shop = (Confirmed c1, s1)
    /\ PUT second_call (paid alice "pay_1") s1 = (Confirmed c2, s2)
    /\ exists o1 o2,
         orders s2 = orders generous_shop ++ [o1; o2]
         /\ o_paymentId o1 = Some "pay_1"%string
         /\ o_paymentId o2 = Some "pay_1"%string
         /\ o_orderNumber o1 = order_counter generous_shop + 1
         /\ o_orderNumber o2 = order_counter generous_shop + 2.
Proof.
  eexists _, _, _, _.
  split; [vm_compute; reflexivity|].
  match goal with
  | |- ?P2 /\ _ =>
      assert (H2 : P2) by (vm_compute; reflexivity); split; [exact H2|]
  end.
  assert (H1 : exists c1,
             PUT first_call (paid alice "pay_1") generous_shop
             = (Confirmed c1, snd (PUT first_call (paid alice "pay_1")
                                       generous_shop)))
    by (eexists; vm_compute; reflexivity).
  destruct H1 as [c1 H1].
  exact (proj1 (replayed_callback_settles_again first_call second_call
                  (paid alice "pay_1") generous_shop _ _ _ _ H1 H2)).
Defined.

(** C1, the claim as stated fails: the same confirmed payment,
    delivered twice, leaves two orders with that payment id, takes the
    widget off the shelf twice and mints two codes. *)
Lemma replayed_callback_counterexample :
  let r1 := PUT first_call (paid alice "pay_1") generous_shop in
  let r2 := PUT second_call (paid alice "pay_1") (snd r1) in
  succeeded (fst r1) = true /\ succeeded (fst r2) = true
  /\ orders generous_shop = []
  /\ map o_paymentId (orders (snd r2))
     = [Some "pay_1"%string; Some "pay_1"%string]
  /\ p_stock <$> (products generous_shop !! 1%positive) = Some 5
  /\ p_stock <$> (products (snd r2) !! 1%positive) = Some 3
  /\ discounts generous_shop = []
  /\ map d_code (discounts (snd r2))
     = ["UNIBLOX-1B9D-6BCD"%string; "UNIBLOX-6EC0-BD7F"%string].
Proof. vm_compute. repeat split. Qed.

End SettlementClaims.

Section CallerFields.

Import CheckoutRoute Scenario.

(** C2, as amended: the settlement does not read the stored cart.  The
    order it persists is built from the request body alone: its items,
    subtotal, discount and total are the caller-supplied ones, so two
    requests that differ in those fields persist different orders. *)
Theorem settlement_persists_caller_amounts env body s c s' :
  PUT env body s = (Confirmed c, s') ->
  exists o,
    orders s' = orders s ++ [o]
    /\ order_of_body env (order_counter s + 1) body = Some o
    /\ o_items o = b_items body
    /\ b_subtotal body = Some (o_subtotal o)
    /\ b_total body = Some (o_total o)
    /\ o_discountCode o = or_null (b_discountCode body)
    /\ o_discountPercent o = or_zero (b_discountPercent body)
    /\ o_discountAmount o = or_zero (b_discountAmount body)
    /\ cf_total c = o_total o.
Proof.
  intros H. apply PUT_Confirmed in H as (st & o & H).
  pose proof (Settled_counter _ _ _ _ _ _ _ H) as (E1 & _).
  destruct H as [_ _ Eo _ _ _ Eord _ _ _ _ Erep].
  exists o. rewrite E1 in Eo.
  split; [assumption|]. split; [assumption|].
  unfold order_of_body in Eo.
  destruct (b_userId body), (b_subtotal body), (b_total body);
    try discriminate.
  injection Eo as <-. rewrite Erep. simpl.
  repeat split.
Qed.

Lemma settlement_persists_caller_amounts_witness :
  exists c s',
    PUT first_call (underpaid alice "pay_1") shop = (Confirmed c, s')
    /\ exists o,
         orders s' = orders shop ++ [o]
         /\ order_of_body first_call (order_counter shop + 1)
                          (underpaid alice "pay_1") = Some o
         /\ o_items o = one_widget
         /\ Some 1%Q = Some (o_subtotal o)
         /\ Some 1%Q = Some (o_total o)
         /\ o_discountCode o = None
         /\ o_discountPercent o = 0%Q
         /\ o_discountAmount o = 0%Q
         /\ cf_total c = o_total o.
Proof.
  eexists _, _. split; [vm_compute; reflexivity|].
  apply (settlement_persists_caller_amounts first_call
           (underpaid alice "pay_1") shop).
  vm_compute; reflexivity.
Defined.

(** C2, the claim as stated fails: two confirmations for the same
    user, cart and payment proof persist the totals they were sent,
    100 and 1, while the quote computed from the stored cart is 100. *)
Lemma caller_amounts_counterexample :
  let honest := PUT first_call (paid alice "pay_1") shop in
  let lowered := PUT first_call (underpaid alice "pay_1") shop in
  succeeded (fst honest) = true /\ succeeded (fst lowered) = true
  /\ map o_total (orders (snd honest)) = [100%Q]
  /\ map o_total (orders (snd lowered)) = [1%Q]
  /\ map o_items (orders (snd lowered)) = [one_widget]
  /\ (exists q, fst (POST first_call (Some alice) home shop) = Quote q
                /\ q_total q = 100%Q).
Proof.
  vm_compute. repeat split. eexists. split; reflexivity.
Qed.

End CallerFields.

Section Overselling.

Import CheckoutRoute Scenario.

(** C3, the code at the failing input: two customers are quoted for
    the last widget and both pay; every request succeeds and the
    widget's stock ends at -1. *)
Theorem settlement_oversells_stock :
  let '(replies, s') := serve last_widget_twice shop in
  map succeeded replies = [true; true; true; true]
  /\ p_stock <$> (products shop !! 1%positive) = Some 1
  /\ p_stock <$> (products s' !! 1%positive) = Some (-1)
  /\ map o_orderNumber (orders s') = [1; 2].
Proof. vm_compute. repeat split. Qed.

(** C4, the code at the failing input: two customers apply the same
    coupon, are quoted with it and pay; both settlements succeed, both
    orders carry the coupon, and the coupon ends up redeemed by the
    second customer. *)
Theorem used_code_is_redeemed_again :
  let '(replies, s') := serve one_coupon_twice stocked_shop in
  map succeeded replies = [true; true; true; true; true; true]
  /\ map o_discountCode (orders s')
     = [Some "UNIBLOX-AAAA-BBBB"%string; Some "UNIBLOX-AAAA-BBBB"%string]
  /\ map o_discountAmount (orders s') = [10%Q; 10%Q]
  /\ map (fun d => (d_isUsed d, d_usedBy d, d_usedAt d)) (discounts s')
     = [(true, Some bob, Some 2000)]
  /\ (let '(reply, s'') :=
        PUT first_call (discounted bob "pay_9") shop_with_spent_coupon in
      succeeded reply = true
      /\ map o_discountCode (orders s'')
         = [Some "UNIBLOX-AAAA-BBBB"%string]).
Proof. vm_compute. repeat split. Qed.

End Overselling.

Section Reward.

Import CheckoutRoute Scenario.

(** C5: an accepted settlement that allocates order number k mints a
    new, unused code exactly when k mod N = 0, N being the reward
    interval of the settings (5 when the settings are created by
    default); the code carries the configured percent, is tagged with
    k, and expires at now + the configured days, or never when no
    expiry is configured.  Now + days is the same local time of day,
    that many days later on the host's calendar: the local time of the
    settlement plus days times 86,400,000 ms, taken back to UTC; it is
    the instant of the settlement plus days times 86,400,000 ms when
    the host's offset from UTC does not change, and it is a valid
    date. *)
Theorem reward_minted_iff_nth_order env body s c s' :
  PUT env body s = (Confirmed c, s') ->
  let st := fst (getStoreSettings s) in
  let k := totalOrders st + 1 in
  let N := nthOrderDiscount st in
  cf_orderNumber c = k
  /\ 1 <= N
  /\ (settings s = None -> N = 5)
  /\ (k mod N = 0 ->
      exists d,
        discounts s' = discounts (redeem env body s) ++ [d]
        /\ ~ In (d_code d) (map d_code (discounts s))
        /\ d_isUsed d = false /\ d_usedBy d = None /\ d_usedAt d = None
        /\ d_discountPercent d = discountPercent st
        /\ d_generatedForOrder d = k
        /\ d_expiresAt d
           = (fun days =>
                let local := clock env + utc_offset (zone env) (clock env)
                             + days * 86400000 in
                local - local_offset (zone env) local)
               <$> defaultDiscountExpiry st
        /\ (forall offset,
              (forall t, utc_offset (zone env) t = offset
                         /\ local_offset (zone env) t = offset) ->
              d_expiresAt d
              = (fun days => clock env + days * 86400000)
                  <$> defaultDiscountExpiry st)
        /\ (forall e, d_expiresAt d = Some e ->
              - 8640000000000000 <= e <= 8640000000000000)
        /\ cf_newDiscountCode c = Some (announce d))
  /\ (k mod N <> 0 ->
      discounts s' = discounts (redeem env body s)
      /\ cf_newDiscountCode c = None).
Proof.
  intros H st0 k N.
  apply PUT_Confirmed in H as (st & o & H).
  pose proof (Settled_counter _ _ _ _ _ _ _ H) as (_ & _ & _ & E4 & _).
  destruct H as [Est Ev _ _ _ _ _ _ _ Edisc Emint Erep].
  pose proof (settings_valid_inv _ Ev) as (V1 & _ & _ & V4).
  assert (EN : nthOrderDiscount st = N) by (rewrite Est; reflexivity).
  assert (Ek : totalOrders st = k) by (rewrite Est; reflexivity).
  assert (EX : defaultDiscountExpiry st = defaultDiscountExpiry st0)
    by (rewrite Est; reflexivity).
  rewrite EN in V1.
  split; [exact E4|]. split; [exact V1|]. split.
  { intros Hn. subst N st0. unfold getStoreSettings. now rewrite Hn. }
  unfold minted in *. rewrite EN, Ek in *.
  split; intros Hk.
  - apply (isNthOrder_mod k N V1) in Hk. rewrite Hk in *.
    exists (reward_code env st k).
    destruct (Emint _ (or_introl eq_refl)) as (_ & F2).
    apply discount_fresh_code in F2.
    rewrite (proj1 (redeem_codes env body s)) in F2.
    split; [exact Edisc|]. split; [exact F2|].
    split; [reflexivity|]. split; [reflexivity|]. split; [reflexivity|].
    split; [now rewrite Est|]. split; [reflexivity|].
    assert (Hexp : d_expiresAt (reward_code env st k)
                   = (fun days =>
                        let local := clock env
                                     + utc_offset (zone env) (clock env)
                                     + days * 86400000 in
                        local - local_offset (zone env) local)
                       <$> defaultDiscountExpiry st0).
    { simpl. rewrite EX.
      destruct (defaultDiscountExpiry st0) as [d|] eqn:Ed; [|easy].
      assert (1 <= d) by (apply V4; congruence). simpl.
      destruct (Z.eqb_spec d 0); [lia|reflexivity]. }
    split; [exact Hexp|]. split.
    { intros offset Hz. rewrite Hexp.
      destruct (defaultDiscountExpiry st0) as [d|]; [|reflexivity].
      simpl. destruct (Hz (clock env)) as [-> _].
      destruct (Hz (clock env + offset + d * 86400000)) as [_ ->].
      f_equal. lia. }
    split.
    { intros e He.
      destruct (Emint _ (or_introl eq_refl)) as (F1 & _).
      unfold discount_valid in F1. rewrite He in F1.
      apply andb_prop in F1 as [_ F1]. unfold valid_date in F1.
      apply Z.leb_le in F1. lia. }
    now rewrite Erep.
  - assert (isNthOrder k N = false) as Hf.
    { destruct (isNthOrder k N) eqn:E; [|easy].
      now apply (isNthOrder_mod k N V1) in E. }
    rewrite Hf in *. rewrite app_nil_r in Edisc.
    split; [assumption|]. now rewrite Erep.
Qed.

Lemma reward_minted_iff_nth_order_witness :
  exists c s',
    PUT first_call (paid alice "pay_1") generous_shop = (Confirmed c, s')
    /\ cf_orderNumber c = 1
    /\ exists d,
         discounts s' = [d]
         /\ d_isUsed d = false
         /\ d_discountPercent d = 10%Q
         /\ d_generatedForOrder d = 1
         /\ d_expiresAt d = Some (1000 + 30 * 86400000)
         /\ cf_newDiscountCode c = Some (announce d).
Proof.
  eexists _, _. split; [vm_compute; reflexivity|].
  assert (H : PUT first_call (paid alice "pay_1") generous_shop
              = (Confirmed
                   (confirmation
                      (mkOrder 31%positive alice 1 one_widget 100%Q None 0%Q
                               0%Q 100%Q (Some "pay_1"%string) pay_completed
                               processing (Some home))
                      (Some (mkNewCode "UNIBLOX-1B9D-6BCD" 10%Q
                                       (Some 2592001000)))),
                 snd (PUT first_call (paid alice "pay_1") generous_shop)))
    by (vm_compute; reflexivity).
  destruct (reward_minted_iff_nth_order _ _ _ _ _ H)
    as (E1 & _ & _ & Hmint & _).
  split; [exact E1|].
  destruct (Hmint eq_refl)
    as (d & D1 & _ & D2 & _ & _ & D3 & D4 & _ & D5 & _ & D6).
  exists d. split; [exact D1|]. split; [exact D2|]. split; [exact D3|].
  split; [exact D4|]. split; [|exact D6].
  apply (D5 0). intros t. split; reflexivity.
Defined.

(** A reward minted in Central Europe two weeks before the clocks go
    forward expires at the same local time thirty days later, which is
    one hour less than thirty days of 86,400,000 ms after it was
    minted. *)
Example expiry_across_summer_time :
  getExpiryDate Scenario.cet 1773576000000 30
  = 1773576000000 + 30 * 86400000 - 3600000.
Proof. reflexivity. Qed.

(** Ten settlements in a row on the default settings: orders 1 to 4
    mint nothing, order 5 mints a code, orders 6 to 9 nothing, order 10
    another code. *)
Lemma rewards_at_orders_five_and_ten :
  let '(replies, s') := serve ten_settlements busy_shop in
  map succeeded replies = repeat true 10
  /\ map o_orderNumber (orders s') = [1; 2; 3; 4; 5; 6; 7; 8; 9; 10]
  /\ map (fun d => (d_generatedForOrder d, d_isUsed d)) (discounts s')
     = [(5, false); (10, false)].
Proof. vm_compute. repeat split. Qed.

End Reward.

Section CounterClaim.

Import CheckoutRoute Scenario.

(** C9: no request other than the settlement changes [totalOrders];
    an accepted settlement raises it by exactly 1 and gives the new
    value to its order as the order number; the admin settings update
    leaves it as it is. *)
Theorem totalOrders_moves_only_in_settlement env r s :
  (is_confirm r = false ->
   order_counter (snd (handle env r s)) = order_counter s)
  /\ (forall body c s',
        r = Confirm body -> handle env r s = (Confirmed c, s') ->
        order_counter s' = order_counter s + 1
        /\ cf_orderNumber c = order_counter s'
        /\ exists o, orders s' = orders s ++ [o]
                     /\ o_orderNumber o = order_counter s')
  /\ (forall session body,
        r = SettingsPatch session body ->
        order_counter (snd (AdminSettingsRoute.PATCH session body s))
        = order_counter s).
Proof.
  split; [apply other_requests_keep_counter|]. split.
  - intros body c s' -> H. simpl in H.
    apply PUT_Confirmed in H as (st & o & H).
    pose proof (Settled_counter _ _ _ _ _ _ _ H) as (E1 & E2 & E3 & E4 & _).
    rewrite E2. split; [reflexivity|]. split; [exact E4|].
    exists o. split; [apply (settled_orders _ _ _ _ _ _ _ H)|exact E3].
  - intros session body ->.
    apply (other_requests_keep_counter env (SettingsPatch session body) s).
    reflexivity.
Qed.

Lemma totalOrders_moves_only_in_settlement_witness :
  (exists c s',
      handle first_call (Confirm (paid alice "pay_1")) shop = (Confirmed c, s')
      /\ order_counter shop = 0
      /\ order_counter s' = 1
      /\ cf_orderNumber c = 1)
  /\ order_counter
       (snd (handle first_call
               (SettingsPatch root
                  (AdminSettingsRoute.mkSettingsPatch (Some 3) None None))
               shop)) = order_counter shop.
Proof.
  split.
  - eexists _, _. split; [vm_compute; reflexivity|].
    split; [reflexivity|].
    destruct (totalOrders_moves_only_in_settlement first_call
                (Confirm (paid alice "pay_1")) shop) as (_ & H & _).
    edestruct (H (paid alice "pay_1")) as (E1 & E2 & _);
      [reflexivity|vm_compute; reflexivity|].
    split; [exact E1|exact E2].
  - apply (totalOrders_moves_only_in_settlement first_call
             (SettingsPatch root
                (AdminSettingsRoute.mkSettingsPatch (Some 3) None None))
             shop).
    reflexivity.
Defined.
End CounterClaim.

(** ** Discount codes on the cart *)

Section CartDiscount.

Import CheckoutRoute Scenario.

Lemma upper_ascii_idem c : upper_ascii (upper_ascii c) = upper_ascii c.
Proof. destruct c as [[] [] [] [] [] [] [] []]; reflexivity. Qed.

Lemma toUpperCase_idem s : toUpperCase (toUpperCase s) = toUpperCase s.
Proof.
  induction s as [|c s IH]; simpl; [reflexivity|].
  now rewrite upper_ascii_idem, IH.
Qed.

Lemma discount_by_code_upper code s :
  discount_by_code (toUpperCase code) s = discount_by_code code s.
Proof. unfold discount_by_code, code_setter. now rewrite toUpperCase_idem. Qed.

(** C8: a code applied to a non-empty cart, removed, and applied again
    while it is still available leaves the store exactly as the first
    application left it, with the same reply; applying writes to the
    cart only, the code's own record stays as it was. *)
Theorem apply_remove_reapply t1 t2 session code s r1 s1 :
  CartDiscountRoute.POST t1 session code s = (r1, s1) ->
  succeeded r1 = true ->
  (forall d, discount_by_code code s = Some d ->
             isExpired t2 (d_expiresAt d) = false) ->
  discounts s1 = discounts s
  /\ (exists u cart,
        session = Some u
        /\ carts (snd (CartDiscountRoute.DELETE session s1)) !! sess_user u
           = Some cart
        /\ c_appliedDiscount cart = None)
  /\ CartDiscountRoute.POST t2 session code
       (snd (CartDiscountRoute.DELETE session s1)) = (r1, s1).
Proof.
  unfold CartDiscountRoute.POST, CartDiscountRoute.DELETE.
  rewrite !discount_by_code_upper.
  destruct session as [u|]; [|intros [= <- <-]; discriminate].
  destruct (String.eqb code ""); [intros [= <- <-]; discriminate|].
  destruct (discount_by_code code s) as [d|] eqn:Ed;
    [|intros [= <- <-]; discriminate].
  destruct (d_isUsed d) eqn:Eu; [intros [= <- <-]; discriminate|].
  destruct (isExpired t1 (d_expiresAt d)); [intros [= <- <-]; discriminate|].
  destruct (carts s !! sess_user u) as [cart|] eqn:Ec;
    [|intros [= <- <-]; discriminate].
  destruct (Nat.eqb (length (c_items cart)) 0) eqn:El;
    [intros [= <- <-]; discriminate|].
  unfold cart_save.
  destruct (cart_valid _) eqn:Ev; [|intros [= <- <-]; discriminate].
  intros [= <- <-] _ Hexp. simpl.
  split; [reflexivity|]. split.
  - exists u, (mkCart (c_items cart) None).
    rewrite alter_insert_eq, lookup_insert_eq. easy.
  - unfold discount_by_code in *. simpl. rewrite Ed, Eu, (Hexp d eq_refl).
    rewrite alter_insert_eq, lookup_insert_eq. simpl. rewrite El.
    unfold cart_valid in *. simpl in *. rewrite Ev.
    unfold set_carts. simpl. now rewrite !insert_insert_eq.
Qed.

Lemma apply_remove_reapply_witness :
  let session := Some (mkSession alice customer) in
  exists r1 s1,
    CartDiscountRoute.POST 1000 session "uniblox-aaaa-bbbb" stocked_shop
    = (r1, s1)
    /\ r1 = DiscountApplied "UNIBLOX-AAAA-BBBB" 10%Q
    /\ discounts s1 = [coupon]
    /\ CartDiscountRoute.POST 2000 session "uniblox-aaaa-bbbb"
         (snd (CartDiscountRoute.DELETE session s1)) = (r1, s1).
Proof.
  intros session. eexists _, _.
  split; [vm_compute; reflexivity|]. split; [reflexivity|].
  assert (Hexp : forall d,
             discount_by_code "uniblox-aaaa-bbbb" stocked_shop = Some d ->
             isExpired 2000 (d_expiresAt d) = false).
  { intros d [= <-]. reflexivity. }
  destruct (apply_remove_reapply 1000 2000 session "uniblox-aaaa-bbbb"
              stocked_shop
              (DiscountApplied "UNIBLOX-AAAA-BBBB" 10%Q)
              (snd (CartDiscountRoute.POST 1000 session "uniblox-aaaa-bbbb"
                      stocked_shop)))
    as (A & _ & B); [vm_compute; reflexivity|reflexivity|exact Hexp|].
  split; [exact A|exact B].
Defined.

End CartDiscount.

Section StaleDiscount.

Import CheckoutRoute Scenario.

Lemma stale_live_discount now cart s :
  stale now cart s -> live_discount now cart s = None.
Proof.
  intros (id & d & E1 & E2 & H). unfold live_discount. rewrite E1, E2.
  destruct H as [-> | ->]; [reflexivity|]. now rewrite andb_false_r.
Qed.

(** C10: when the code applied to the cart has been used or has
    expired, the quote and the cart view answer as they do for the same
    cart without a code: the quote does not fail on the code, and when
    the cart is in order and the gateway opens the remote order it
    succeeds with percent 0, amount 0 and no code; the cart view
    succeeds with no discount and amount 0. *)
Theorem stale_discount_is_ignored env session addr s cart :
  carts s !! sess_user session = Some cart ->
  stale (clock env) cart s ->
  let uid := sess_user session in
  let s0 := cart_unset_discount uid s in
  fst (POST env (Some uid) addr s) = fst (POST env (Some uid) addr s0)
  /\ (forall q s', POST env (Some uid) addr s = (Quote q, s') ->
        q_discountPercent q = 0%Q /\ q_discountAmount q = 0%Q
        /\ q_discountCode q = None
        /\ q_total q = Pricing.computeTotal (q_subtotal q) 0)
  /\ (forall valid,
        checkoutSchema addr = true -> c_items cart <> [] ->
        validItems (products s) (c_items cart) = inr valid ->
        (forall amount, is_Some (razorpay env amount)) ->
        exists q, POST env (Some uid) addr s = (Quote q, s)
                  /\ q_items q = valid
                  /\ q_discountPercent q = 0%Q /\ q_discountAmount q = 0%Q
                  /\ q_discountCode q = None)
  /\ fst (CartRoute.GET (clock env) (Some session) s)
     = fst (CartRoute.GET (clock env) (Some session) s0)
  /\ (exists v, CartRoute.GET (clock env) (Some session) s = (CartView v, s)
                /\ cv_items v
                   = map CartRoute.line
                         (CartRoute.validItems (products s) (c_items cart))
                /\ cv_discount v = None /\ cv_discountAmount v = 0%Q
                /\ cv_total v = Pricing.computeTotal (cv_subtotal v) 0).
Proof.
  intros Hc Hs uid s0. subst uid.
  pose proof (stale_live_discount _ _ _ Hs) as Hl.
  assert (Hc0 : carts s0 !! sess_user session
                = Some (mkCart (c_items cart) None)).
  { subst s0. unfold cart_unset_discount. simpl.
    now rewrite lookup_alter_eq, Hc. }
  split; [|split; [|split; [|split]]].
  - unfold POST. rewrite Hc, Hc0, Hl. simpl.
    destruct (negb (checkoutSchema addr)); [reflexivity|].
    destruct (Nat.eqb (length (c_items cart)) 0); [reflexivity|].
    destruct (validItems (products s) (c_items cart)); [reflexivity|].
    destruct (razorpay env _); reflexivity.
  - intros q s'. unfold POST. rewrite Hc, Hl.
    repeat break_match; intros [= <- <-]; repeat split.
  - intros valid Hv Hne Hval Hgw. unfold POST.
    rewrite Hc, Hl, Hv, Hval. simpl.
    destruct (c_items cart) eqn:Ei; [contradiction|]. simpl.
    match goal with
    | |- context [razorpay env ?a] => destruct (Hgw a) as [remote Hr]
    end.
    rewrite Hr. eexists. split; [reflexivity|]. simpl. easy.
  - unfold CartRoute.GET. rewrite Hc, Hc0, Hl. reflexivity.
  - unfold CartRoute.GET. rewrite Hc, Hl. eexists.
    split; [reflexivity|]. simpl. easy.
Qed.

Lemma stale_discount_is_ignored_witness :
  let session := mkSession bob customer in
  let cart := mkCart [mkCartItem 1%positive 1 100] (Some 21%positive) in
  carts shop_with_spent_coupon !! bob = Some cart
  /\ stale 1000 cart shop_with_spent_coupon
  /\ (exists q,
        POST first_call (Some bob) home shop_with_spent_coupon
        = (Quote q, shop_with_spent_coupon)
        /\ q_items q = one_widget
        /\ q_discountPercent q = 0%Q /\ q_discountAmount q = 0%Q
        /\ q_discountCode q = None)
  /\ (exists v,
        CartRoute.GET 1000 (Some session) shop_with_spent_coupon
        = (CartView v, shop_with_spent_coupon)
        /\ cv_discount v = None /\ cv_discountAmount v = 0%Q).
Proof.
  intros session cart.
  assert (Hc : carts shop_with_spent_coupon !! sess_user session = Some cart)
    by reflexivity.
  assert (Hs : stale (clock first_call) cart shop_with_spent_coupon).
  { exists 21%positive, spent_coupon.
    split; [reflexivity|]. split; [reflexivity|]. left. reflexivity. }
  destruct (stale_discount_is_ignored first_call session home
              shop_with_spent_coupon cart Hc Hs) as (_ & _ & Hq & _ & Hv).
  split; [exact Hc|]. split; [exact Hs|]. split.
  - apply Hq; [reflexivity|discriminate|reflexivity|].
    intros amount. exists "order_A"%string. reflexivity.
  - destruct Hv as (v & V1 & _ & V2 & V3 & _).
    exists v. split; [exact V1|]. split; [exact V2|exact V3].
Defined.

End StaleDiscount.

(** ** The shape of a generated code *)

Section CodeFormat.









Lemma substring_nothing r : String.substring 0 0 r = EmptyString.
Proof. now destruct r. Qed.





End CodeFormat.

(** ** Bounds on the discount *)

Section PricingBounds.

Import Double.
Local Open Scope Q_scope.



Lemma pow2_m30 : pow2 (-30) == 1 # 1073741824.
Proof. reflexivity. Qed.

(** X12: the amount sent to the payment gateway is exact.  When the
    subtotal is, up to 2^-30, a whole number [c] of hundredths, at most
    2^40 of them, the discount amount is the double nearest to a whole
    number [k] of hundredths, at most [c], and the integer
    [Math.round(total * 100)] is exactly [c - k], although the total is
    not always the double nearest to [(c - k) / 100]. *)
Theorem quote_amount_is_exact (c : Z) (subtotal p : Q) :
  (0 <= c <= 2 ^ 40)%Z -> 0 <= subtotal -> 0 <= p <= 100 ->
  inject_Z c / 100 - pow2 (-30) <= subtotal <= inject_Z c / 100 + pow2 (-30) ->
  let discountAmount := calculateDiscount subtotal p in
  let total := computeTotal subtotal discountAmount in
  exists k : Z,
    (0 <= k <= c)%Z
    /\ discountAmount == round (inject_Z k / 100)
    /\ amountInPaise total = (c - k)%Z.
Proof.
  intros Hc Hs Hp Hnear discountAmount total. subst discountAmount.
  rewrite pow2_m30 in Hnear. destruct Hnear as [S1 S2].
  destruct (percent_of subtotal p Hs Hp) as [P0 P1].
  pose proof (hundredths_bounds subtotal p P0) as (K0 & K1 & K2).
  pose proof (total_near subtotal p Hs Hp) as [N1 N2]. fold total in N1, N2.
  assert (H0 : 0 <= inject_Z c) by (apply inject_Z_nonneg; lia).
  assert (H1 : inject_Z c <= 1099511627776).
  { change 1099511627776 with (inject_Z (2 ^ 40)). rewrite <- Zle_Qle. lia. }
  assert (Ec : inject_Z c / 100 == inject_Z c * (1 # 100)) by field.
  assert (Ek : inject_Z (hundredths subtotal p) / 100
               == inject_Z (hundredths subtotal p) * (1 # 100)) by field.
  pose proof tiny_pos as T0. pose proof tiny_small as T1.
  set (k := hundredths subtotal p) in *.
  assert (Hk : (k <= c)%Z).
  { assert (A : inject_Z k < inject_Z (c + 1)).
    { rewrite inject_Z_plus. change (inject_Z 1) with 1.
      clear N1 N2 Ek. clearbody k.
      revert Ec S1 S2. generalize (inject_Z c / 100). intros q Ec S1 S2.
      revert P0 P1 K1 K2. generalize (subtotal * p). intros P P0 P1 K1 K2.
      generalize dependent (inject_Z c). intros z. intros.
      generalize dependent (inject_Z k). intros y. intros. lra. }
    rewrite <- Zlt_Qlt in A. lia. }
  exists k. split; [lia|]. split; [now rewrite calculateDiscount_hundredths|].
  unfold amountInPaise, mul, Math_round.
  apply inject_Z_nonneg in K0.
  assert (A : inject_Z k <= inject_Z c) by (rewrite <- Zle_Qle; lia).
  assert (HB : Qabs (total * 100) <= 2199023255552).
  { apply Qabs_Qle_condition. clearbody total. clearbody k.
    revert Ek N1 N2. generalize (inject_Z k / 100). intros q' Ek N1 N2.
    revert Ec S1 S2. generalize (inject_Z c / 100). intros q Ec S1 S2.
    clear P0 P1 K1 K2.
    generalize dependent (inject_Z c). intros z. intros.
    generalize dependent (inject_Z k). intros y. intros. split; lra. }
  destruct (round_near _ _ HB) as [R1 R2].
  apply Qfloor_unique.
  - unfold Z.sub. rewrite inject_Z_plus, inject_Z_opp.
    revert R1 R2. generalize (round (total * 100)). intros r R1 R2.
    clearbody total. clearbody k. clear HB.
    revert Ek N1 N2. generalize (inject_Z k / 100). intros q' Ek N1 N2.
    revert Ec S1 S2. generalize (inject_Z c / 100). intros q Ec S1 S2.
    clear P0 P1 K1 K2.
    generalize dependent tiny. intros t T0 T1 R1 R2.
    generalize dependent (inject_Z c). intros z. intros.
    generalize dependent (inject_Z k). intros y. intros. lra.
  - rewrite inject_Z_plus. unfold Z.sub. rewrite inject_Z_plus, inject_Z_opp.
    change (inject_Z 1) with 1.
    revert R1 R2. generalize (round (total * 100)). intros r R1 R2.
    clearbody total. clearbody k. clear HB.
    revert Ek N1 N2. generalize (inject_Z k / 100). intros q' Ek N1 N2.
    revert Ec S1 S2. generalize (inject_Z c / 100). intros q Ec S1 S2.
    clear P0 P1 K1 K2.
    generalize dependent tiny. intros t T0 T1 R1 R2.
    generalize dependent (inject_Z c). intros z. intros.
    generalize dependent (inject_Z k). intros y. intros. lra.
Qed.

(** A subtotal of 0.29 at fifty percent: the discount is 0.14, the total
    0.15 less one unit in the last place, and the amount 15. *)
Lemma quote_amount_is_exact_witness :
  exists k : Z,
    (0 <= k <= 29)%Z
    /\ calculateDiscount (round (29 # 100)) 50 == round (inject_Z k / 100)
    /\ amountInPaise
         (computeTotal (round (29 # 100))
                       (calculateDiscount (round (29 # 100)) 50))
       = (29 - k)%Z
    /\ amountInPaise
         (computeTotal (round (29 # 100))
                       (calculateDiscount (round (29 # 100)) 50))
       = 15%Z
    /\ ~ computeTotal (round (29 # 100))
                      (calculateDiscount (round (29 # 100)) 50)
         == round (15 # 100).
Proof.
  assert (H0 : (0 <= 29 <= 2 ^ 40)%Z) by (split; [lia|apply Z.leb_le; reflexivity]).
  assert (H1 : 0 <= round (29 # 100))
    by (apply Qle_bool_iff; vm_compute; reflexivity).
  assert (H2 : 0 <= 50 <= 100) by (split; apply Qle_bool_iff; reflexivity).
  assert (H3 : inject_Z 29 / 100 - pow2 (-30) <= round (29 # 100)
               <= inject_Z 29 / 100 + pow2 (-30))
    by (split; apply Qle_bool_iff; vm_compute; reflexivity).
  destruct (quote_amount_is_exact 29 (round (29 # 100)) 50 H0 H1 H2 H3)
    as (k & Hk & Hd & Ha).
  exists k. split; [exact Hk|]. split; [exact Hd|]. split; [exact Ha|].
  split; [vm_compute; reflexivity|].
  intros H. vm_compute in H. discriminate H.
Defined.

End PricingBounds.

(** ** Lists of documents *)

Section Lists.

Context {A : Type}.

Lemma find_update_first (sel : A -> bool) f (l : list A) :
  (forall x, sel (f x) = sel x) ->
  find sel (update_first sel f l) = f <$> find sel l.
Proof.
  intros Hf. induction l as [|x l IH]; simpl; [reflexivity|].
  destruct (sel x) eqn:E; simpl; [now rewrite Hf, E|now rewrite E].
Qed.

Lemma update_first_none (sel : A -> bool) f (l : list A) :
  find sel l = None -> update_first sel f l = l.
Proof.
  induction l as [|x l IH]; simpl; [reflexivity|].
  destruct (sel x); [discriminate|]. intros H. now rewrite IH.
Qed.

Lemma update_first_twice (sel : A -> bool) f (l : list A) :
  (forall x, sel (f x) = sel x) -> (forall x, f (f x) = f x) ->
  update_first sel f (update_first sel f l) = update_first sel f l.
Proof.
  intros Hs Hf. induction l as [|x l IH]; simpl; [reflexivity|].
  destruct (sel x) eqn:E; simpl; [now rewrite Hs, E, Hf|now rewrite E, IH].
Qed.

Lemma find_app_none (sel : A -> bool) (l : list A) x :
  find sel l = None -> find sel (l ++ [x]) = if sel x then Some x else None.
Proof.
  induction l as [|y l IH]; simpl; [reflexivity|].
  destruct (sel y); [discriminate|]. exact IH.
Qed.

Lemma find_app_some (sel : A -> bool) (l k : list A) x :
  find sel l = Some x -> find sel (l ++ k) = Some x.
Proof.
  induction l as [|y l IH]; simpl; [discriminate|].
  destruct (sel y); [easy|]. exact IH.
Qed.

Lemma find_none_existsb (sel : A -> bool) (l : list A) :
  find sel l = None <-> existsb sel l = false.
Proof.
  induction l as [|x l IH]; simpl; [easy|].
  destruct (sel x); simpl; [easy|exact IH].
Qed.

Lemma filter_update_first (P : A -> Prop) `{forall x, Decision (P x)}
    (sel : A -> bool) f (l : list A) :
  (forall x, sel x = true -> ~ P x /\ ~ P (f x)) ->
  filter P (update_first sel f l) = filter P l.
Proof.
  intros Hs. induction l as [|x l IH]; simpl; [reflexivity|].
  destruct (sel x) eqn:E.
  - destruct (Hs x E) as [H1 H2].
    rewrite !filter_cons. now rewrite !decide_False by assumption.
  - rewrite !filter_cons. now rewrite IH.
Qed.

Lemma sum_fold_left (g : A -> Z) (l : list A) a :
  fold_left (fun sum x => sum + g x) l a
  = a + fold_right (fun x sum => g x + sum) 0 l.
Proof.
  revert a. induction l as [|x l IH]; intros a; simpl; [lia|].
  rewrite IH. lia.
Qed.


End Lists.

Lemma sum_update_first (sel : CartItem -> bool) q (l : list CartItem) x :
  find sel l = Some x ->
  fold_right (fun it sum => ci_quantity it + sum) 0
    (update_first sel
       (fun it => mkCartItem (ci_product it) q (ci_priceAtAdd it)) l)
  = fold_right (fun it sum => ci_quantity it + sum) 0 l - ci_quantity x + q.
Proof.
  induction l as [|y l IH]; simpl; [discriminate|].
  destruct (sel y); simpl.
  - intros [= ->]. lia.
  - intros H. rewrite (IH H). lia.
Qed.

Lemma find_product_none pid (l : list CartItem) :
  find (fun it => Pos.eqb (ci_product it) pid) l = None
  <-> pid ∉ map ci_product l.
Proof.
  induction l as [|y l IH]; simpl.
  - split; [intros _; apply not_elem_of_nil|easy].
  - rewrite not_elem_of_cons. destruct (Pos.eqb_spec (ci_product y) pid).
    + split; [discriminate|]. intros [H _]. congruence.
    + rewrite IH. split; [intros; split; congruence|tauto].
Qed.



Lemma cart_valid_filter (P : CartItem -> Prop) `{forall x, Decision (P x)}
    items d d' :
  cart_valid (mkCart items d) = true ->
  cart_valid (mkCart (filter P items) d') = true.
Proof.
  unfold cart_valid. simpl. rewrite !forallb_forall. intros Hv it Hin.
  apply Hv. apply list_elem_of_In in Hin. apply list_elem_of_In.
  now apply list_elem_of_filter in Hin as [_ ?].
Qed.

(** ** The cart view *)

Section CartView.

Import CartRoute.



(** X3: the cart view of a signed-in customer always succeeds, and asking
    again gives the same answer and changes nothing more: the first call
    may create the customer's empty cart, no other collection and no
    other cart is written. *)
Theorem cart_view_is_stable now u s :
  exists v s1,
    GET now (Some u) s = (CartView v, s1)
    /\ GET now (Some u) s1 = (CartView v, s1)
    /\ settings s1 = settings s /\ products s1 = products s
    /\ discounts s1 = discounts s /\ orders s1 = orders s
    /\ (forall w, w <> sess_user u -> carts s1 !! w = carts s !! w)
    /\ carts s1 !! sess_user u
       = Some (default (mkCart [] None) (carts s !! sess_user u)).
Proof.
  unfold GET. destruct (carts s !! sess_user u) as [cart|] eqn:Ec.
  - destruct (live_discount now cart s) as [d|] eqn:El;
      eexists _, s; (split; [reflexivity|]); rewrite Ec, El;
      repeat split; reflexivity.
  - eexists _, _. split; [reflexivity|]. simpl.
    rewrite lookup_insert_eq. simpl.
    unfold live_discount. simpl.
    repeat split; try reflexivity.
    intros w Hw. now rewrite lookup_insert_ne.
Qed.

Lemma validItems_cons ps it items :
  validItems ps (it :: items)
  = match active_product ps it with
    | Some p => (it, p) :: validItems ps items
    | None => validItems ps items
    end.
Proof. unfold validItems. simpl. now destruct (active_product ps it). Qed.

Lemma validItems_lines ps items :
  Forall (fun ip => ps !! ci_product (fst ip) = Some (snd ip)
                    /\ p_isActive (snd ip) = true)
         (validItems ps items)
  /\ map (fun ip => ci_product (fst ip)) (validItems ps items)
     `sublist_of` map ci_product items.
Proof.
  induction items as [|it items [IH1 IH2]].
  - split; [constructor|reflexivity].
  - rewrite validItems_cons. unfold active_product.
    destruct (ps !! ci_product it) as [p|] eqn:Ep;
      [destruct (p_isActive p) eqn:Ea|]; simpl.
    + split; [constructor; [now split|exact IH1]|].
      now apply sublist_skip.
    + split; [exact IH1|now apply sublist_cons].
    + split; [exact IH1|now apply sublist_cons].
Qed.

Lemma validItems_shown ps items :
  map fst (validItems ps items)
  = List.filter (fun it => match ps !! ci_product it with
                           | Some p => p_isActive p
                           | None => false
                           end) items.
Proof.
  induction items as [|it items IH]; [reflexivity|].
  rewrite validItems_cons. unfold active_product. simpl.
  destruct (ps !! ci_product it) as [p|]; [destruct (p_isActive p)|]; simpl;
    now rewrite IH.
Qed.

(** X4: what the cart view shows.  The lines are the items of the cart
    whose product is in the catalogue and active: all of them, in the
    order of the cart and with the quantities of the cart, and no other
    line.  Every line carries the current name, price, image and stock
    of its product, and the item count is the number of units on the
    lines shown.  A customer without a cart is shown no line. *)
Theorem cart_view_lines now u s v s' :
  GET now (Some u) s = (CartView v, s') ->
  let cart := default (mkCart [] None) (carts s !! sess_user u) in
  let shown it :=
    match products s !! ci_product it with
    | Some p => p_isActive p
    | None => false
    end in
  map (fun l => (cl_productId l, cl_quantity l)) (cv_items v)
  = map (fun it => (ci_product it, ci_quantity it))
        (List.filter shown (c_items cart))
  /\ Forall (fun l => exists p,
               products s !! cl_productId l = Some p
               /\ p_isActive p = true
               /\ cl_name l = p_name p /\ cl_price l = p_price p
               /\ cl_image l = p_image p /\ cl_stock l = p_stock p)
            (cv_items v)
  /\ cv_itemCount v
     = fold_right (fun l sum => cl_quantity l + sum) 0 (cv_items v)
  /\ (carts s !! sess_user u = None -> cv_items v = []).
Proof.
  unfold GET.
  destruct (carts s !! sess_user u) as [cart|] eqn:Ec.
  - set (valid := validItems (products s) (c_items cart)).
    pose proof (validItems_lines (products s) (c_items cart)) as [Hl _].
    pose proof (validItems_shown (products s) (c_items cart)) as Hs.
    fold valid in Hl, Hs.
    assert (Hlines :
      Forall (fun l => exists p,
                products s !! cl_productId l = Some p
                /\ p_isActive p = true
                /\ cl_name l = p_name p /\ cl_price l = p_price p
                /\ cl_image l = p_image p /\ cl_stock l = p_stock p)
             (map line valid)).
    { apply Forall_map. eapply Forall_impl; [exact Hl|].
      intros [it p] [H1 H2]. exists p. simpl in *. now repeat split. }
    assert (Hids : map (fun l => (cl_productId l, cl_quantity l))
                       (map line valid)
                   = map (fun it => (ci_product it, ci_quantity it))
                         (map fst valid)).
    { rewrite !map_map. apply map_ext. now intros [it p]. }
    assert (Hcount :
      fold_left (fun sum ip => sum + ci_quantity (fst ip)) valid 0
      = fold_right (fun l sum => cl_quantity l + sum) 0 (map line valid)).
    { rewrite (sum_fold_left (fun ip => ci_quantity (fst ip))).
      rewrite Z.add_0_l.
      clear. induction valid as [|[it p] l IH]; simpl; [reflexivity|].
      now rewrite IH. }
    destruct (live_discount now cart s) as [d|]; intros [= <- <-]; simpl;
      (split; [rewrite Hids, Hs; reflexivity|]);
      (split; [exact Hlines|]);
      (split; [exact Hcount|discriminate]).
  - intros [= <- <-]. simpl. split; [reflexivity|].
    split; [constructor|]. split; reflexivity.
Qed.

Lemma cart_view_lines_witness :
  exists v s',
    GET 1000 (Some (mkSession Scenario.alice customer)) Scenario.shop
    = (CartView v, s')
    /\ map (fun l => (cl_productId l, cl_quantity l)) (cv_items v)
       = [(1%positive, 1)]
    /\ cv_itemCount v = 1.
Proof.
  eexists _, _. split; [vm_compute; reflexivity|].
  pose proof (cart_view_lines 1000 (mkSession Scenario.alice customer)
                Scenario.shop _ _ eq_refl) as (H1 & _ & H2 & _).
  split; [exact H1|exact H2].
Defined.

End CartView.

(** ** The spelling of an ObjectId *)

Section Spelling.

Local Open Scope N_scope.

Lemma below_16 (P : N -> Prop) :
  P 0 -> P 1 -> P 2 -> P 3 -> P 4 -> P 5 -> P 6 -> P 7 -> P 8 -> P 9 ->
  P 10 -> P 11 -> P 12 -> P 13 -> P 14 -> P 15 ->
  forall v, v < 16 -> P v.
Proof.
  intros. destruct v as [|p]; [assumption|].
  do 4 (try destruct p as [p|p|]); try assumption; lia.
Qed.

Lemma hex_digit_lower v : v < 16 -> is_lower_hex (hex_digit v) = true.
Proof. revert v. apply below_16; reflexivity. Qed.

Lemma hex_value_digit v : v < 16 -> hex_value (hex_digit v) = v.
Proof. revert v. apply below_16; reflexivity. Qed.

Lemma hex_value_lt c : is_hex_digit c = true -> hex_value c < 16.
Proof.
  destruct c as [[] [] [] [] [] [] [] []]; try discriminate;
    intros _; reflexivity.
Qed.

Lemma hex_digit_value c :
  is_lower_hex c = true -> hex_digit (hex_value c) = c.
Proof.
  destruct c as [[] [] [] [] [] [] [] []]; try discriminate;
    intros _; reflexivity.
Qed.

Lemma lower_is_hex c : is_lower_hex c = true -> is_hex_digit c = true.
Proof. unfold is_lower_hex, is_hex_digit. intros ->. reflexivity. Qed.

Lemma to_hex_length k n : String.length (to_hex k n) = k.
Proof. revert n. induction k; intros n; simpl; [|rewrite IHk]; reflexivity. Qed.

Lemma pow16_pos k : 0 < 16 ^ k.
Proof. apply N.neq_0_lt_0, N.pow_nonzero. discriminate. Qed.

Lemma pow16_succ k : 16 ^ N.of_nat (S k) = 16 * 16 ^ N.of_nat k.
Proof. rewrite Nat2N.inj_succ. apply N.pow_succ_r'. Qed.

Lemma to_hex_lower k n :
  n < 16 ^ N.of_nat k -> string_forall is_lower_hex (to_hex k n) = true.
Proof.
  revert n. induction k as [|k IH]; intros n Hn; [reflexivity|].
  cbn [to_hex string_forall]. rewrite pow16_succ in Hn.
  pose proof (pow16_pos (N.of_nat k)).
  rewrite hex_digit_lower, IH; [reflexivity| |].
  - apply N.mod_lt. lia.
  - apply N.Div0.div_lt_upper_bound. lia.
Qed.

Lemma from_hex_to_hex k n : n < 16 ^ N.of_nat k -> from_hex (to_hex k n) = n.
Proof.
  revert n. induction k as [|k IH]; intros n Hn.
  - simpl in *. lia.
  - cbn [to_hex from_hex]. rewrite pow16_succ in Hn.
    pose proof (pow16_pos (N.of_nat k)).
    rewrite to_hex_length, hex_value_digit, IH.
    + rewrite (N.div_mod n (16 ^ N.of_nat k)) at 3 by lia. lia.
    + apply N.mod_lt. lia.
    + apply N.Div0.div_lt_upper_bound. lia.
Qed.

Lemma from_hex_lt s :
  string_forall is_hex_digit s = true ->
  from_hex s < 16 ^ N.of_nat (String.length s).
Proof.
  induction s as [|c r IH]; intros H; [reflexivity|].
  cbn [string_forall] in H. apply andb_prop in H as [Hc Hr].
  cbn [from_hex String.length]. rewrite pow16_succ.
  pose proof (hex_value_lt c Hc). specialize (IH Hr).
  nia.
Qed.

Lemma to_hex_from_hex s :
  string_forall is_lower_hex s = true ->
  to_hex (String.length s) (from_hex s) = s.
Proof.
  induction s as [|c r IH]; intros H; [reflexivity|].
  cbn [string_forall] in H. apply andb_prop in H as [Hc Hr].
  cbn [from_hex String.length to_hex].
  assert (Hh : string_forall is_hex_digit r = true).
  { clear -Hr. induction r as [|x r IH]; [reflexivity|].
    cbn [string_forall] in *. apply andb_prop in Hr as [Hx Hr].
    now rewrite (lower_is_hex _ Hx), IH. }
  pose proof (from_hex_lt r Hh) as Hlt.
  pose proof (pow16_pos (N.of_nat (String.length r))) as Hp.
  rewrite N.div_add_l by lia. rewrite (N.div_small (from_hex r)) by exact Hlt.
  rewrite N.add_0_r, hex_digit_value by exact Hc.
  rewrite N.add_comm, N.Div0.mod_add, N.mod_small by exact Hlt.
  now rewrite (IH Hr).
Qed.

Lemma castObjectId_Some (s : string) id :
  castObjectId s = Some id ->
  String.length s = 24%nat /\ string_forall is_hex_digit s = true
  /\ id = N.succ_pos (from_hex s).
Proof.
  unfold castObjectId.
  destruct (Nat.eqb_spec (String.length s) 24); simpl; [|discriminate].
  destruct (string_forall is_hex_digit s); [|discriminate].
  intros [= <-]. easy.
Qed.

Lemma toString_lower id : string_forall is_lower_hex (toString id) = true.
Proof.
  unfold toString. destruct (N.ltb_spec (Pos.pred_N id) (16 ^ 24)); [|reflexivity].
  now apply (to_hex_lower 24).
Qed.

(** [item.product.toString() === productId], for a string that was cast
    to [id]: the same id, spelled in lower case. *)
Lemma toString_eqb s id id' :
  castObjectId s = Some id ->
  String.eqb (toString id') s
  = string_forall is_lower_hex s && Pos.eqb id' id.
Proof.
  intros H. apply castObjectId_Some in H as (Hl & Hh & ->).
  pose proof (from_hex_lt s Hh) as Hlt. rewrite Hl in Hlt.
  destruct (String.eqb_spec (toString id') s) as [E|E].
  - symmetry. rewrite <- E at 1. rewrite toString_lower. simpl.
    apply Pos.eqb_eq. unfold toString in E.
    destruct (N.ltb_spec (Pos.pred_N id') (16 ^ 24)) as [Hn|Hn];
      [|subst s; discriminate Hl].
    rewrite <- E, (from_hex_to_hex 24) by exact Hn.
    pose proof (N.succ_pos_spec (Pos.pred_N id')) as Hs.
    rewrite N.succ_pos_pred in Hs. now injection Hs.
  - symmetry. apply andb_false_iff.
    destruct (string_forall is_lower_hex s) eqn:Hlow; [right|now left].
    apply Pos.eqb_neq. intros ->. apply E.
    unfold toString. rewrite N.pos_pred_succ.
    destruct (N.ltb_spec (from_hex s) (16 ^ 24)) as [_|Hn]; [|lia].
    rewrite <- Hl. now apply to_hex_from_hex.
Qed.

End Spelling.

(** ** Writing to the cart *)

Section CartWrites.

Lemma cart_save_Some u c s s' :
  cart_save u c s = Some s' ->
  cart_valid c = true /\ s' = set_carts (<[u := c]> (carts s)) s.
Proof. unfold cart_save. destruct (cart_valid c); intros [= <-]; easy. Qed.

Lemma find_ext {A} (sel sel' : A -> bool) (l : list A) :
  (forall x, sel x = sel' x) -> find sel l = find sel' l.
Proof.
  intros E. induction l as [|x l IH]; simpl; [reflexivity|].
  now rewrite E, IH.
Qed.

Lemma update_first_ext {A} (sel sel' : A -> bool) f (l : list A) :
  (forall x, sel x = sel' x) -> update_first sel f l = update_first sel' f l.
Proof.
  intros E. induction l as [|x l IH]; simpl; [reflexivity|].
  now rewrite E, IH.
Qed.

(** The two ways an addition is saved: the first line that compares
    equal to the request's id is counted up, or a line is appended. *)
Lemma cart_add_cases u productId quantity s itemCount s' :
  CartRoute.POST (Some u) productId quantity s = (ItemAdded itemCount, s') ->
  let old := default (mkCart [] None) (carts s !! sess_user u) in
  exists id product items,
    castObjectId productId = Some id
    /\ products s !! id = Some product
    /\ p_isActive product = true
    /\ 1 <= quantity <= p_stock product
    /\ cart_valid (mkCart items (c_appliedDiscount old)) = true
    /\ s' = set_carts (<[sess_user u := mkCart items (c_appliedDiscount old)]>
                         (carts s)) s
    /\ itemCount = fold_left (fun sum it => sum + ci_quantity it) items 0
    /\ let sel it :=
         string_forall is_lower_hex productId && Pos.eqb (ci_product it) id in
       match find sel (c_items old) with
       | Some existing =>
           ci_quantity existing + quantity <= p_stock product
           /\ items = update_first sel
                        (fun it => mkCartItem (ci_product it)
                                     (ci_quantity existing + quantity)
                                     (ci_priceAtAdd it))
                        (c_items old)
       | None => items = c_items old ++ [mkCartItem id quantity (p_price product)]
       end.
Proof.
  intros H old. unfold CartRoute.POST in H.
  destruct (String.eqb productId ""); [discriminate|].
  destruct (Z.ltb_spec quantity 1) as [|Hq]; [discriminate|].
  destruct (castObjectId productId) as [id|] eqn:Ec; [|discriminate].
  destruct (products s !! id) as [product|] eqn:Ep; [|discriminate].
  destruct (p_isActive product) eqn:Ea; simpl in H; [|discriminate].
  destruct (Z.ltb_spec (p_stock product) quantity) as [|Hst]; [discriminate|].
  fold old in H.
  set (same := fun it => String.eqb (toString (ci_product it)) productId) in H.
  set (sel := fun it => string_forall is_lower_hex productId
                        && Pos.eqb (ci_product it) id).
  assert (Hsel : forall it, same it = sel it)
    by (intros it; apply toString_eqb, Ec).
  rewrite (find_ext same sel _ Hsel) in H.
  exists id, product.
  destruct (find _ (c_items old)) as [existing|] eqn:Ef.
  - destruct (Z.ltb_spec (p_stock product) (ci_quantity existing + quantity))
      as [|Hst2]; [discriminate|].
    destruct (cart_save _ _ s) as [s1|] eqn:Es; [|discriminate].
    injection H as <- <-. apply cart_save_Some in Es as [Hv ->].
    rewrite (update_first_ext same sel _ _ Hsel) in Hv |- *.
    eexists. repeat (split; [first [eassumption|reflexivity|lia]|]).
    cbv zeta. fold sel. rewrite Ef. split; [exact Hst2|reflexivity].
  - destruct (cart_save _ _ s) as [s1|] eqn:Es; [|discriminate].
    injection H as <- <-. apply cart_save_Some in Es as [Hv ->].
    eexists. repeat (split; [first [eassumption|reflexivity|lia]|]).
    cbv zeta. fold sel. rewrite Ef. reflexivity.
Qed.

(** X5: what adding to the cart does when it succeeds.  The request's id
    is the spelling of a product that is in the catalogue and active,
    the quantity asked for is at least one and within the stock, and
    the customer's cart then holds that many units more; the lines of
    other products, the code applied to the cart, the other carts and
    the other collections are as before, and the count in the reply is
    the new number of units in the cart.  When the id is spelled in
    lower case the cart then has a line for the product whose quantity
    is the quantity it had before (none counts as zero) plus the
    quantity asked for, within the stock.  When the id is spelled with
    an upper-case digit no line compares equal to it, and a line of the
    product is appended, also when the cart has one already. *)
Theorem cart_add_effect u productId quantity s itemCount s' :
  CartRoute.POST (Some u) productId quantity s = (ItemAdded itemCount, s') ->
  let units items := fold_right (fun it sum => ci_quantity it + sum) 0 items in
  let old := default (mkCart [] None) (carts s !! sess_user u) in
  exists id product cart,
    castObjectId productId = Some id
    /\ products s !! id = Some product
    /\ p_isActive product = true
    /\ 1 <= quantity <= p_stock product
    /\ carts s' !! sess_user u = Some cart
    /\ filter (fun it => ci_product it ≠ id) (c_items cart)
       = filter (fun it => ci_product it ≠ id) (c_items old)
    /\ c_appliedDiscount cart = c_appliedDiscount old
    /\ itemCount = units (c_items cart)
    /\ units (c_items cart) = units (c_items old) + quantity
    /\ (string_forall is_lower_hex productId = true ->
        let same it := Pos.eqb (ci_product it) id in
        let before := default 0 (ci_quantity <$> find same (c_items old)) in
        exists item,
          find same (c_items cart) = Some item
          /\ ci_quantity item = before + quantity
          /\ ci_quantity item <= p_stock product)
    /\ (string_forall is_lower_hex productId = false ->
        c_items cart
        = c_items old ++ [mkCartItem id quantity (p_price product)])
    /\ (forall w, w <> sess_user u -> carts s' !! w = carts s !! w)
    /\ settings s' = settings s /\ products s' = products s
    /\ discounts s' = discounts s /\ orders s' = orders s.
Proof.
  intros H units old.
  destruct (cart_add_cases _ _ _ _ _ _ H)
    as (id & product & items & Ec & Ep & Ea & Hq & _ & -> & -> & Hcase).
  fold old in Hcase. simpl in Hcase.
  exists id, product, (mkCart items (c_appliedDiscount old)).
  simpl. rewrite lookup_insert_eq.
  split; [exact Ec|]. split; [exact Ep|]. split; [exact Ea|].
  split; [exact Hq|]. split; [reflexivity|].
  assert (Hrest :
    filter (fun it => ci_product it ≠ id) items
    = filter (fun it => ci_product it ≠ id) (c_items old)
    /\ units items = units (c_items old) + quantity
    /\ (string_forall is_lower_hex productId = true ->
        exists item,
          find (fun it => Pos.eqb (ci_product it) id) items = Some item
          /\ ci_quantity item
             = default 0 (ci_quantity
                            <$> find (fun it => Pos.eqb (ci_product it) id)
                                     (c_items old)) + quantity
          /\ ci_quantity item <= p_stock product)
    /\ (string_forall is_lower_hex productId = false ->
        items = c_items old ++ [mkCartItem id quantity (p_price product)])).
  { destruct (string_forall is_lower_hex productId) eqn:Hlow; simpl in Hcase.
    - destruct (find _ (c_items old)) as [existing|] eqn:Ef.
      + destruct Hcase as [Hst2 ->].
        split.
        { apply filter_update_first. intros x Hx. simpl.
          apply Pos.eqb_eq in Hx. split; intros Hn; now apply Hn. }
        split; [subst units; rewrite (sum_update_first _ _ _ _ Ef); lia|].
        split; [|discriminate]. intros _.
        rewrite find_update_first by reflexivity. rewrite Ef. simpl.
        eexists. split; [reflexivity|]. simpl. split; [reflexivity|exact Hst2].
      + subst items. split.
        { rewrite filter_app, filter_cons, decide_False
            by (intros Hn; now apply Hn).
          rewrite filter_nil. apply app_nil_r. }
        split.
        { subst units. simpl. rewrite fold_right_app. simpl.
          generalize (c_items old). intros l.
          induction l as [|x l IH]; simpl; lia. }
        split; [|discriminate]. intros _.
        rewrite (find_app_none _ _ _ Ef). simpl. rewrite Pos.eqb_refl.
        eexists. split; [reflexivity|]. simpl. lia.
    - assert (Ef : find (fun _ : CartItem => false) (c_items old) = None)
        by (generalize (c_items old); intros l; now induction l).
      rewrite Ef in Hcase. subst items. split.
      { rewrite filter_app, filter_cons, decide_False
          by (intros Hn; now apply Hn).
        rewrite filter_nil. apply app_nil_r. }
      split.
      { subst units. simpl. rewrite fold_right_app. simpl.
        generalize (c_items old). intros l.
        induction l as [|x l IH]; simpl; lia. }
      split; [discriminate|]. intros _. reflexivity. }
  destruct Hrest as (R1 & R2 & R3 & R4).
  split; [exact R1|]. split; [reflexivity|].
  split; [rewrite (sum_fold_left ci_quantity); apply Z.add_0_l|].
  split; [exact R2|]. split; [exact R3|]. split; [exact R4|].
  split; [intros w Hw; now rewrite lookup_insert_ne|].
  repeat split; reflexivity.
Qed.

Lemma cart_add_effect_witness :
  exists itemCount s' cart item,
    CartRoute.POST (Some (mkSession Scenario.alice customer))
                   Scenario.widget_id 2 Scenario.stocked_shop
    = (ItemAdded itemCount, s')
    /\ carts s' !! Scenario.alice = Some cart
    /\ find (fun it => Pos.eqb (ci_product it) 1%positive) (c_items cart)
       = Some item
    /\ ci_quantity item = 3 /\ itemCount = 3.
Proof.
  pose proof (cart_add_effect (mkSession Scenario.alice customer)
                Scenario.widget_id 2 Scenario.stocked_shop _ _ eq_refl)
    as (id & product & cart & Hid & _ & _ & _ & Hc & _ & _ & Hn & Hu & Hl & _).
  injection Hid as <-.
  destruct (Hl eq_refl) as (item & Hf & Hq & _).
  eexists _, _, cart, item. split; [reflexivity|].
  split; [exact Hc|]. split; [exact Hf|]. split; [exact Hq|].
  rewrite Hn, Hu. reflexivity.
Defined.

(** A client that spells the id of a product in upper case gets a
    second line of the product in its cart. *)
Example upper_case_id_adds_a_second_line :
  let gadget := mkProduct "Gadget" 100 "/gadget.png" 5 true in
  let s := mkStore (Some default_settings) {[ 171%positive := gadget ]}
                   {[ Scenario.alice := mkCart [mkCartItem 171%positive 1 100] None ]}
                   [] [] in
  toString 171%positive = "0000000000000000000000aa"
  /\ (c_items <$> carts (snd (CartRoute.POST
                                (Some (mkSession Scenario.alice customer))
                                "0000000000000000000000aa" 2 s))
                  !! Scenario.alice)
     = Some [mkCartItem 171%positive 3 100]
  /\ (c_items <$> carts (snd (CartRoute.POST
                                (Some (mkSession Scenario.alice customer))
                                "0000000000000000000000AA" 2 s))
                  !! Scenario.alice)
     = Some [mkCartItem 171%positive 1 100; mkCartItem 171%positive 2 100].
Proof. vm_compute. repeat split; reflexivity. Qed.

End CartWrites.

Section CartItems.

(** X6: what changing a quantity does when it succeeds.  The first line of
    the product gets the new quantity, which is at least one and within
    the stock; the products of the lines, in their order, the price
    recorded when each line was added, the lines of other products and
    the applied code are as before, and no other cart or collection is
    written.  Sending the same request again gives the same answer and
    changes nothing. *)
Theorem cart_item_update_effect u productId quantity s message s' :
  CartItemRoute.PATCH (Some u) productId quantity s = (Message message, s') ->
  let same it := Pos.eqb (ci_product it) productId in
  exists product old cart item,
    products s !! productId = Some product
    /\ carts s !! sess_user u = Some old
    /\ carts s' !! sess_user u = Some cart
    /\ find same (c_items cart) = Some item
    /\ ci_quantity item = quantity
    /\ 1 <= quantity <= p_stock product
    /\ map ci_product (c_items cart) = map ci_product (c_items old)
    /\ map ci_priceAtAdd (c_items cart) = map ci_priceAtAdd (c_items old)
    /\ filter (fun it => ci_product it ≠ productId) (c_items cart)
       = filter (fun it => ci_product it ≠ productId) (c_items old)
    /\ c_appliedDiscount cart = c_appliedDiscount old
    /\ (forall w, w <> sess_user u -> carts s' !! w = carts s !! w)
    /\ settings s' = settings s /\ products s' = products s
    /\ discounts s' = discounts s /\ orders s' = orders s
    /\ CartItemRoute.PATCH (Some u) productId quantity s'
       = (Message message, s').
Proof.
  intros H same. unfold CartItemRoute.PATCH in H.
  destruct (Z.ltb_spec quantity 1) as [|Hq]; [discriminate|].
  destruct (products s !! productId) as [product|] eqn:Ep; [|discriminate].
  destruct (Z.ltb_spec (p_stock product) quantity) as [|Hst]; [discriminate|].
  destruct (carts s !! sess_user u) as [old|] eqn:Ec; [|discriminate].
  fold same in H.
  destruct (find same (c_items old)) as [existing|] eqn:Ef; [|discriminate].
  destruct (cart_save _ _ s) as [s1|] eqn:Es; [|discriminate].
  injection H as <- <-. pose proof Es as Es'.
  apply cart_save_Some in Es as [Hv ->].
  eexists product, old, _, _. simpl. rewrite lookup_insert_eq.
  split; [reflexivity|]. split; [reflexivity|]. split; [reflexivity|].
  simpl. rewrite find_update_first by reflexivity. rewrite Ef. simpl.
  split; [reflexivity|]. split; [reflexivity|]. split; [lia|].
  split; [now apply map_update_first|].
  split; [now apply map_update_first|].
  split.
  { apply filter_update_first. intros x Hx. subst same. simpl in *.
    apply Pos.eqb_eq in Hx. split; intros Hn; now apply Hn. }
  split; [reflexivity|].
  split; [intros w Hw; now rewrite lookup_insert_ne|].
  do 4 (split; [reflexivity|]).
  unfold CartItemRoute.PATCH.
  destruct (Z.ltb_spec quantity 1); [lia|]. simpl. rewrite Ep.
  destruct (Z.ltb_spec (p_stock product) quantity); [lia|].
  simpl. rewrite ?lookup_insert_eq. simpl. fold same.
  rewrite find_update_first by reflexivity. rewrite Ef. simpl.
  rewrite update_first_twice by reflexivity.
  unfold cart_save. rewrite Hv. simpl. rewrite insert_insert_eq.
  reflexivity.
Qed.

Lemma cart_item_update_effect_witness :
  exists message s' cart item,
    CartItemRoute.PATCH (Some (mkSession Scenario.alice customer)) 1%positive 4
                        Scenario.stocked_shop = (Message message, s')
    /\ carts s' !! Scenario.alice = Some cart
    /\ find (fun it => Pos.eqb (ci_product it) 1%positive) (c_items cart)
       = Some item
    /\ ci_quantity item = 4
    /\ CartItemRoute.PATCH (Some (mkSession Scenario.alice customer))
                           1%positive 4 s' = (Message message, s').
Proof.
  pose proof (cart_item_update_effect (mkSession Scenario.alice customer)
                1%positive 4 Scenario.stocked_shop _ _ eq_refl)
    as (product & old & cart & item & _ & _ & Hc & Hf & Hq & H).
  eexists _, _, cart, item. split; [reflexivity|].
  split; [exact Hc|]. split; [exact Hf|]. split; [exact Hq|].
  apply H.
Defined.



End CartItems.

(** ** Spellings of a code *)

Section Setters.

Lemma is_space_upper c : is_space (upper_ascii c) = is_space c.
Proof. destruct c as [[] [] [] [] [] [] [] []]; reflexivity. Qed.

Lemma trim_start_upper s :
  trim_start (toUpperCase s) = toUpperCase (trim_start s).
Proof.
  induction s as [|c s IH]; simpl; [reflexivity|].
  rewrite is_space_upper. now destruct (is_space c).
Qed.

Lemma trim_end_upper s : trim_end (toUpperCase s) = toUpperCase (trim_end s).
Proof.
  induction s as [|c s IH]; simpl; [reflexivity|].
  rewrite IH, is_space_upper.
  destruct (trim_end s); simpl; [now destruct (is_space c)|reflexivity].
Qed.

Lemma trim_upper s : trim (toUpperCase s) = toUpperCase (trim s).
Proof. unfold trim. now rewrite trim_start_upper, trim_end_upper. Qed.

Lemma trim_end_idem s : trim_end (trim_end s) = trim_end s.
Proof.
  induction s as [|c s IH]; simpl; [reflexivity|].
  destruct (trim_end s) as [|c' r] eqn:E.
  - destruct (is_space c) eqn:Ec; simpl; [reflexivity|now rewrite Ec].
  - simpl in IH |- *. now rewrite IH.
Qed.

(** A string that does not begin with white space. *)
Lemma trim_start_end s :
  trim_start s = s -> trim_start (trim_end s) = trim_end s.
Proof.
  destruct s as [|c s]; simpl; [reflexivity|].
  destruct (is_space c) eqn:Ec.
  - intros H. exfalso.
    assert (L : forall t, (String.length (trim_start t)
                           <= String.length t)%nat).
    { clear. induction t as [|a t IH]; simpl; [lia|].
      destruct (is_space a); simpl; lia. }
    specialize (L s). rewrite H in L. simpl in L. lia.
  - intros _. destruct (trim_end s); simpl; now rewrite Ec.
Qed.

Lemma trim_start_idem s : trim_start (trim_start s) = trim_start s.
Proof.
  induction s as [|c s IH]; simpl; [reflexivity|].
  destruct (is_space c) eqn:Ec; [exact IH|]. simpl. now rewrite Ec.
Qed.

Lemma trim_idem s : trim (trim s) = trim s.
Proof.
  unfold trim. rewrite (trim_start_end (trim_start s)) by apply trim_start_idem.
  apply trim_end_idem.
Qed.

Lemma code_setter_idem code : code_setter (code_setter code) = code_setter code.
Proof.
  unfold code_setter. now rewrite trim_upper, trim_idem, <- trim_upper,
    toUpperCase_idem.
Qed.

Lemma code_setter_upper code : code_setter (toUpperCase code) = code_setter code.
Proof. unfold code_setter. now rewrite toUpperCase_idem. Qed.

Lemma discount_by_code_setter c1 c2 s :
  code_setter c1 = code_setter c2 ->
  discount_by_code c1 s = discount_by_code c2 s.
Proof. unfold discount_by_code. now intros ->. Qed.

End Setters.

Section Apply.

Import CartDiscountRoute.

Lemma isValid_true now d :
  isValid now d = true
  <-> d_isUsed d = false /\ isExpired now (d_expiresAt d) = false.
Proof.
  unfold isValid. destruct (d_isUsed d), (isExpired now (d_expiresAt d));
    intuition congruence.
Qed.

Lemma apply_succeeds_when now u code s shown percent s' :
  POST now (Some u) code s = (DiscountApplied shown percent, s')
  <-> exists d cart,
        code <> EmptyString
        /\ discount_by_code code s = Some d
        /\ d_isUsed d = false
        /\ isExpired now (d_expiresAt d) = false
        /\ carts s !! sess_user u = Some cart
        /\ c_items cart <> []
        /\ cart_valid cart = true
        /\ shown = d_code d /\ percent = d_discountPercent d
        /\ s' = set_carts (<[sess_user u := mkCart (c_items cart)
                                                   (Some (d_id d))]>
                             (carts s)) s.
Proof.
  unfold POST. rewrite !discount_by_code_upper.
  destruct (String.eqb_spec code "") as [->|Hc].
  { split; [discriminate|]. intros (d & cart & H & _). now exfalso. }
  destruct (discount_by_code code s) as [d|] eqn:Ed.
  2:{ split; [discriminate|]. intros (d & cart & _ & H & _). discriminate. }
  destruct (d_isUsed d) eqn:Eu.
  { split; [discriminate|].
    intros (d' & cart & _ & [= <-] & H & _). congruence. }
  destruct (isExpired now (d_expiresAt d)) eqn:Ee.
  { split; [discriminate|].
    intros (d' & cart & _ & [= <-] & _ & H & _). congruence. }
  destruct (carts s !! sess_user u) as [cart|] eqn:Ecart.
  2:{ split; [discriminate|].
      intros (d' & cart & _ & _ & _ & _ & H & _). discriminate. }
  assert (Hlen : Nat.eqb (length (c_items cart)) 0 = true
                 <-> c_items cart = []).
  { rewrite Nat.eqb_eq. apply length_zero_iff_nil. }
  destruct (Nat.eqb (length (c_items cart)) 0) eqn:En.
  { split; [discriminate|].
    intros (d' & cart' & _ & _ & _ & _ & [= <-] & H & _).
    exfalso. apply H, Hlen. reflexivity. }
  unfold cart_save.
  change (cart_valid (mkCart (c_items cart) (Some (d_id d))))
    with (cart_valid cart).
  destruct (cart_valid cart) eqn:Ev.
  - split.
    + intros [= <- <- <-]. exists d, cart.
      repeat split; try reflexivity; try assumption.
      intros H. apply Hlen in H. discriminate.
    + intros (d' & cart' & _ & [= <-] & _ & _ & [= <-] & _ & _ & -> & -> & ->).
      reflexivity.
  - split; [discriminate|].
    intros (d' & cart' & _ & _ & _ & _ & [= <-] & _ & Hv & _). congruence.
Qed.

(** The pricing routes count the code a cart refers to exactly when it
    is stored and valid. *)
Lemma live_discount_iff now cart s d :
  live_discount now cart s = Some d
  <-> exists id,
        c_appliedDiscount cart = Some id
        /\ discount_by_id id s = Some d
        /\ isValid now d = true.
Proof.
  unfold live_discount.
  destruct (c_appliedDiscount cart) as [id|].
  2:{ split; [discriminate|]. intros (id & H & _). discriminate. }
  destruct (discount_by_id id s) as [d0|] eqn:Ed.
  2:{ split; [discriminate|]. intros (id' & [= <-] & H & _). congruence. }
  pose proof (isValid_true now d0) as Hv.
  destruct (d_isUsed d0), (isExpired now (d_expiresAt d0)); simpl;
    (split;
     [ intros [= <-]; exists id; repeat split; try assumption; now apply Hv
     | intros (id' & [= <-] & Hd & H); rewrite Ed in Hd;
       injection Hd as <-; apply Hv in H; destruct H; congruence ]).
Qed.

(** X8: a code counts exactly when [isValid] says so.  For a code written
    in ASCII, applying it succeeds exactly when it is not the empty
    string, a stored code has its normalised spelling and is valid at
    the instant of the request, and the customer has a cart that is not
    empty and passes its schema; the cart then refers to the code, keeps
    its items, and nothing else is written, the code itself staying
    unused.  And the cart view shows a code, and the quote names one,
    exactly when the code the cart refers to is stored and valid at that
    instant; it is then that code, at its percentage. *)
Theorem discount_apply_succeeds_iff now u code s shown percent s' :
  is_ascii code = true ->
  (POST now (Some u) code s = (DiscountApplied shown percent, s')
   <-> exists d cart,
         code <> EmptyString
         /\ discount_by_code code s = Some d
         /\ isValid now d = true
         /\ carts s !! sess_user u = Some cart
         /\ c_items cart <> []
         /\ cart_valid cart = true
         /\ shown = d_code d /\ percent = d_discountPercent d
         /\ s' = set_carts (<[sess_user u := mkCart (c_items cart)
                                                    (Some (d_id d))]>
                              (carts s)) s)
  /\ (forall v s1 c p,
        CartRoute.GET now (Some u) s = (CartView v, s1) ->
        cv_discount v = Some (c, p)
        <-> exists cart id d,
              carts s !! sess_user u = Some cart
              /\ c_appliedDiscount cart = Some id
              /\ discount_by_id id s = Some d
              /\ isValid now d = true
              /\ c = d_code d /\ p = d_discountPercent d)
  /\ (forall env address q s1 c p,
        CheckoutRoute.POST env (Some (sess_user u)) address s
        = (Quote q, s1) ->
        (q_discountCode q = Some c /\ q_discountPercent q = p)
        <-> exists cart id d,
              carts s !! sess_user u = Some cart
              /\ c_appliedDiscount cart = Some id
              /\ discount_by_id id s = Some d
              /\ isValid (clock env) d = true
              /\ c = d_code d /\ p = d_discountPercent d).
Proof.
  intros _. split; [|split].
  - rewrite apply_succeeds_when. split.
    + intros (d & cart & H1 & H2 & H3 & H4 & H).
      exists d, cart. rewrite isValid_true. tauto.
    + intros (d & cart & H1 & H2 & H3 & H).
      exists d, cart. rewrite isValid_true in H3. tauto.
  - intros v s1 c p. unfold CartRoute.GET.
    destruct (carts s !! sess_user u) as [cart|] eqn:Ec.
    + destruct (live_discount now cart s) as [d|] eqn:El;
        intros [= <- <-]; simpl.
      * apply live_discount_iff in El as (id & E1 & E2 & E3). split.
        -- intros [= <- <-]. exists cart, id, d. now repeat split.
        -- intros (cart' & id' & d' & [= <-] & H1 & H2 & _ & -> & ->).
           rewrite E1 in H1. injection H1 as <-.
           rewrite E2 in H2. now injection H2 as <-.
      * split; [discriminate|].
        intros (cart' & id' & d' & [= <-] & H1 & H2 & H3 & _).
        assert (live_discount now cart s = Some d') as H
          by (apply live_discount_iff; now exists id').
        congruence.
    + intros [= <- <-]. simpl. split; [discriminate|].
      intros (cart' & _ & _ & H & _). discriminate.
  - intros env address q s1 c p. unfold CheckoutRoute.POST.
    destruct (CheckoutRoute.checkoutSchema address); simpl; [|discriminate].
    destruct (carts s !! sess_user u) as [cart|] eqn:Ec; [|discriminate].
    destruct (Nat.eqb (length (c_items cart)) 0); [discriminate|].
    destruct (CheckoutRoute.validItems (products s) (c_items cart))
      as [e|valid]; [discriminate|].
    destruct (live_discount (clock env) cart s) as [d|] eqn:El;
      destruct (razorpay env _) as [remote|]; try discriminate;
      intros [= <- <-]; simpl.
    + apply live_discount_iff in El as (id & E1 & E2 & E3). split.
      * intros [[= <-] <-]. exists cart, id, d. now repeat split.
      * intros (cart' & id' & d' & [= <-] & H1 & H2 & _ & -> & ->).
        rewrite E1 in H1. injection H1 as <-.
        rewrite E2 in H2. now injection H2 as <-.
    + split; [intros [H _]; discriminate|].
      intros (cart' & id' & d' & [= <-] & H1 & H2 & H3 & _).
      assert (live_discount (clock env) cart s = Some d') as H
        by (apply live_discount_iff; now exists id').
      congruence.
Qed.

Lemma discount_apply_succeeds_iff_witness :
  is_ascii "uniblox-aaaa-bbbb" = true
  /\ exists d cart,
       discount_by_code "uniblox-aaaa-bbbb" Scenario.shop = Some d
       /\ isValid 1000 d = true
       /\ carts Scenario.shop !! Scenario.alice = Some cart
       /\ snd (POST 1000 (Some (mkSession Scenario.alice customer))
                    "uniblox-aaaa-bbbb" Scenario.shop)
          = set_carts (<[Scenario.alice := mkCart (c_items cart)
                                                  (Some (d_id d))]>
                         (carts Scenario.shop)) Scenario.shop.
Proof.
  split; [reflexivity|].
  destruct (discount_apply_succeeds_iff 1000
              (mkSession Scenario.alice customer) "uniblox-aaaa-bbbb"
              Scenario.shop "UNIBLOX-AAAA-BBBB" 10
              (snd (POST 1000 (Some (mkSession Scenario.alice customer))
                         "uniblox-aaaa-bbbb" Scenario.shop))
              eq_refl) as [[H _] _].
  destruct (H eq_refl) as (d & cart & _ & H1 & H2 & H3 & _ & _ & _ & _ & H4).
  exists d, cart. split; [exact H1|]. split; [exact H2|].
  split; [exact H3|exact H4].
Defined.

(** X9: two spellings of a code that the schema's setters (upper case,
    trimmed) bring to the same string are answered alike; so the
    letters' case and white space around the code do not matter. *)
Theorem discount_apply_normalises now session c1 c2 s :
  code_setter c1 = code_setter c2 ->
  c1 <> EmptyString -> c2 <> EmptyString ->
  POST now session c1 s = POST now session c2 s.
Proof.
  intros Hc H1 H2. unfold POST. destruct session as [u|]; [|reflexivity].
  destruct (String.eqb_spec c1 ""); [contradiction|].
  destruct (String.eqb_spec c2 ""); [contradiction|].
  rewrite !discount_by_code_upper.
  now rewrite (discount_by_code_setter c1 c2 s Hc).
Qed.

Lemma discount_apply_normalises_witness :
  POST 1000 (Some (mkSession Scenario.alice customer))
       "  uniblox-aaaa-bbbb " Scenario.shop
  = POST 1000 (Some (mkSession Scenario.alice customer))
         "UNIBLOX-AAAA-BBBB" Scenario.shop.
Proof.
  apply (discount_apply_normalises 1000 _ "  uniblox-aaaa-bbbb "
           "UNIBLOX-AAAA-BBBB" Scenario.shop);
    [reflexivity|discriminate|discriminate].
Defined.

End Apply.

(** ** The quote *)

Section Quoting.

Import CheckoutRoute.

Lemma validItems_inr ps items valid :
  validItems ps items = inr valid <-> Forall2 (quoted ps) items valid.
Proof.
  revert valid. induction items as [|it items IH]; intros valid; simpl.
  - split; [intros [= <-]; constructor|]. intros H.
    apply Forall2_nil_inv_l in H. now subst.
  - split.
    + destruct (ps !! ci_product it) as [p|] eqn:Ep; [|discriminate].
      destruct (p_isActive p) eqn:Ea; simpl; [|discriminate].
      destruct (Z.ltb_spec (p_stock p) (ci_quantity it)); [discriminate|].
      destruct (validItems ps items) as [e|rest]; [discriminate|].
      intros [= <-]. constructor; [|now apply IH].
      exists p. now repeat split.
    + intros H. apply Forall2_cons_inv_l in H
        as (line & rest & (p & Hp & Ha & Hq & ->) & Hrest & ->).
      rewrite Hp, Ha. simpl.
      destruct (Z.ltb_spec (p_stock p) (ci_quantity it)); [lia|].
      apply IH in Hrest. now rewrite Hrest.
Qed.



End Quoting.

Section QuoteAndView.

Import CheckoutRoute.

Lemma quoted_view ps items valid :
  Forall2 (quoted ps) items valid ->
  exists pairs,
    CartRoute.validItems ps items = pairs
    /\ map (fun ip => mkOrderItem (ci_product (fst ip)) (p_name (snd ip))
                                  (ci_quantity (fst ip)) (p_price (snd ip))
                                  (p_image (snd ip))) pairs = valid.
Proof.
  induction 1 as [|it line items valid (p & Hp & Ha & Hq & ->) _ (pairs & <- & <-)].
  - now exists [].
  - eexists. split; [reflexivity|].
    rewrite validItems_cons. unfold CartRoute.active_product.
    now rewrite Hp, Ha.
Qed.

Lemma fold_left_map {A B C} (f : C -> B -> C) (g : A -> B) l c :
  fold_left f (map g l) c = fold_left (fun c x => f c (g x)) l c.
Proof. revert c. induction l as [|x l IH]; intros c; simpl; [easy|apply IH]. Qed.

(** X11: the quote and the cart view agree.  When a quote is given, the
    cart view of the same customer at the same instant shows the same
    products in the same order, the same subtotal, the same code and
    percentage, the same discount and the same total. *)
Theorem quote_matches_cart_view env uid role shippingAddress s q s' :
  POST env (Some uid) shippingAddress s = (Quote q, s') ->
  exists v,
    CartRoute.GET (clock env) (Some (mkSession uid role)) s = (CartView v, s)
    /\ map cl_productId (cv_items v) = map oi_product (q_items q)
    /\ map cl_quantity (cv_items v) = map oi_quantity (q_items q)
    /\ map cl_price (cv_items v) = map oi_price (q_items q)
    /\ cv_subtotal v = q_subtotal q
    /\ cv_discount v
       = (fun code => (code, q_discountPercent q)) <$> q_discountCode q
    /\ cv_discountAmount v = q_discountAmount q
    /\ cv_total v = q_total q.
Proof.
  unfold POST, CartRoute.GET. simpl.
  destruct (checkoutSchema shippingAddress); simpl; [|discriminate].
  destruct (carts s !! uid) as [cart|] eqn:Ec; [|discriminate].
  destruct (Nat.eqb (length (c_items cart)) 0); [discriminate|].
  destruct (validItems (products s) (c_items cart)) as [e|valid] eqn:Ev;
    [discriminate|].
  apply validItems_inr, quoted_view in Ev as (pairs & Hpairs & <-).
  rewrite Hpairs.
  rewrite fold_left_map. simpl.
  assert (H1 : forall l : list (CartItem * Product),
             map cl_productId (map CartRoute.line l)
             = map oi_product
                 (map (fun ip => mkOrderItem (ci_product (fst ip))
                                   (p_name (snd ip)) (ci_quantity (fst ip))
                                   (p_price (snd ip)) (p_image (snd ip))) l)).
  { intros l. rewrite !map_map. apply map_ext. now intros [it p]. }
  assert (H2 : forall l : list (CartItem * Product),
             map cl_quantity (map CartRoute.line l)
             = map oi_quantity
                 (map (fun ip => mkOrderItem (ci_product (fst ip))
                                   (p_name (snd ip)) (ci_quantity (fst ip))
                                   (p_price (snd ip)) (p_image (snd ip))) l)).
  { intros l. rewrite !map_map. apply map_ext. now intros [it p]. }
  assert (H3 : forall l : list (CartItem * Product),
             map cl_price (map CartRoute.line l)
             = map oi_price
                 (map (fun ip => mkOrderItem (ci_product (fst ip))
                                   (p_name (snd ip)) (ci_quantity (fst ip))
                                   (p_price (snd ip)) (p_image (snd ip))) l)).
  { intros l. rewrite !map_map. apply map_ext. now intros [it p]. }
  destruct (live_discount (clock env) cart s) as [d|];
    destruct (razorpay env _) as [remote|]; try discriminate;
    intros [= <- <-]; eexists; (split; [reflexivity|]); simpl;
    (split; [apply H1|]); (split; [apply H2|]); (split; [apply H3|]);
    repeat split; reflexivity.
Qed.

Lemma quote_matches_cart_view_witness :
  exists q s' v,
    POST Scenario.first_call (Some Scenario.alice) Scenario.home Scenario.shop
    = (Quote q, s')
    /\ CartRoute.GET 1000 (Some (mkSession Scenario.alice customer))
                     Scenario.shop = (CartView v, Scenario.shop)
    /\ cv_subtotal v = q_subtotal q
    /\ cv_total v = q_total q.
Proof.
  destruct (quote_matches_cart_view Scenario.first_call Scenario.alice customer
              Scenario.home Scenario.shop _ _ eq_refl)
    as (v & Hv & _ & _ & _ & Hs & _ & _ & Ht).
  eexists _, _, v. split; [reflexivity|].
  split; [exact Hv|]. split; [exact Hs|exact Ht].
Defined.

End QuoteAndView.

(** ** What a settlement leaves behind *)

Section SettlementEffects.

Import CheckoutRoute.

(** The stock loop changes nothing of a product but its stock. *)
Lemma decrement_stock_lookup items s id :
  products (decrement_stock items s) !! id
  = (fun p => mkProduct (p_name p) (p_price p) (p_image p)
                        (p_stock p - purchased id items) (p_isActive p))
      <$> products s !! id.
Proof.
  unfold decrement_stock. revert s.
  induction items as [|it items IH]; intros s; simpl.
  - destruct (products s !! id) as [[]|]; simpl; [|reflexivity].
    do 2 f_equal. lia.
  - rewrite IH. unfold product_inc_stock. simpl.
    destruct (Pos.eqb_spec (oi_product it) id) as [->|Hne].
    + rewrite lookup_alter_eq.
      destruct (products s !! id); simpl; [do 2 f_equal; lia|reflexivity].
    + rewrite lookup_alter_ne by assumption. reflexivity.
Qed.

Lemma order_of_body_user env n body o :
  order_of_body env n body = Some o -> b_userId body = Some (o_user o).
Proof.
  unfold order_of_body.
  destruct (b_userId body), (b_subtotal body), (b_total body);
    try discriminate.
  now intros [= <-].
Qed.

(** X13: besides the order, the counter and the codes, an accepted
    settlement empties the cart of the user named in the request and
    detaches its code, creates no cart for a user who has none, leaves
    every other cart alone, and changes nothing of a product but its
    stock: name, price, image and the active flag stay, and no product
    is added or removed. *)
Theorem settlement_clears_the_buyers_cart env body s c s' :
  PUT env body s = (Confirmed c, s') ->
  exists user,
    b_userId body = Some user
    /\ carts s' !! user = (fun _ => mkCart [] None) <$> carts s !! user
    /\ (forall w, w <> user -> carts s' !! w = carts s !! w)
    /\ forall id,
         products s' !! id
         = (fun p => mkProduct (p_name p) (p_price p) (p_image p)
                               (p_stock p - purchased id (b_items body))
                               (p_isActive p))
             <$> products s !! id.
Proof.
  intros H. apply PUT_Confirmed in H as (st & o & H).
  exists (o_user o).
  split; [exact (order_of_body_user _ _ _ _ (settled_order _ _ _ _ _ _ _ H))|].
  rewrite (settled_carts _ _ _ _ _ _ _ H).
  split; [apply lookup_alter_eq|].
  split; [intros w Hw; now apply lookup_alter_ne|].
  intros id. rewrite (settled_products _ _ _ _ _ _ _ H).
  apply decrement_stock_lookup.
Qed.

Lemma settlement_clears_the_buyers_cart_witness :
  exists c s',
    PUT Scenario.first_call (Scenario.paid Scenario.alice "pay_1")
        Scenario.shop = (Confirmed c, s')
    /\ carts s' !! Scenario.alice = Some (mkCart [] None)
    /\ carts s' !! Scenario.bob = Some Scenario.basket.
Proof.
  destruct (settlement_clears_the_buyers_cart Scenario.first_call
              (Scenario.paid Scenario.alice "pay_1") Scenario.shop _ _ eq_refl)
    as (user & Hu & Hc & Ho & _).
  injection Hu as <-.
  eexists _, _. split; [reflexivity|].
  split; [exact Hc|]. apply Ho. discriminate.
Defined.

Lemma bump_valid st : settings_valid st = true -> settings_valid (bump st) = true.
Proof.
  unfold settings_valid, bump. simpl. intros H.
  repeat (apply andb_prop in H as [H ?]).
  repeat (apply andb_true_intro; split); try assumption.
  apply Z.leb_le. apply Z.leb_le in H2. lia.
Qed.

Lemma set_settings_frame st s :
  settings (set_settings st s) = Some st
  /\ products (set_settings st s) = products s
  /\ carts (set_settings st s) = carts s
  /\ discounts (set_settings st s) = discounts s
  /\ orders (set_settings st s) = orders s.
Proof. easy. Qed.

(** X15: the counter counts settlements attempted, not orders made.  A
    settlement that carries payment details, in a store whose settings
    pass their schema, raises the counter by one whatever it answers;
    when its item list is empty it answers 500, inserts no order, and
    has consumed the order number all the same. *)
Theorem settlement_attempt_is_counted env body s :
  truthy (b_razorpayPaymentId body) = true ->
  truthy (b_razorpayOrderId body) = true ->
  settings_valid (fst (getStoreSettings s)) = true ->
  order_counter (snd (PUT env body s)) = order_counter s + 1
  /\ (b_items body = [] ->
      PUT env body s
      = (Fail 500 "Order confirmation failed",
         set_settings (bump (fst (getStoreSettings s))) s)).
Proof.
  intros Hp Ho Hv. unfold PUT. rewrite Hp, Ho. simpl.
  unfold order_counter at 2.
  destruct (getStoreSettings s) as [st0 s0] eqn:Eg. simpl in Hv |- *.
  assert (Es0 : set_settings (bump st0) s0 = set_settings (bump st0) s).
  { unfold getStoreSettings in Eg. destruct (settings s); now inversion Eg. }
  unfold settings_save. rewrite (bump_valid _ Hv), Es0.
  set (s1 := set_settings (bump st0) s).
  assert (C1 : order_counter s1 = totalOrders st0 + 1) by reflexivity.
  destruct (order_of_body env _ body) as [o|] eqn:Eo.
  2:{ split; [exact C1|reflexivity]. }
  unfold order_create.
  destruct (order_valid o) eqn:Evo; simpl.
  2:{ split; [exact C1|reflexivity]. }
  destruct (existsb _ _) eqn:Ex; simpl.
  { split; [exact C1|reflexivity]. }
  split.
  - set (s2 := set_orders _ _).
    pose proof (redeem_frame env body s2) as (R1 & _).
    pose proof (decrement_stock_frame (b_items body) (redeem env body s2))
      as (D1 & _).
    assert (C5 : order_counter
                   (cart_clear (o_user o)
                      (decrement_stock (b_items body) (redeem env body s2)))
                 = totalOrders st0 + 1).
    { rewrite <- C1. apply order_counter_settings. simpl.
      now rewrite D1, R1. }
    destruct (isNthOrder _ _); [|exact C5].
    destruct (discount_create _ _) as [s6|] eqn:Ec; [|exact C5].
    apply discount_create_settings in Ec. simpl. rewrite <- C5.
    apply order_counter_settings. exact Ec.
  - intros Hi. exfalso. unfold order_of_body in Eo.
    destruct (b_userId body), (b_subtotal body), (b_total body);
      try discriminate.
    injection Eo as <-. unfold order_valid in Evo. simpl in Evo.
    rewrite Hi in Evo. discriminate.
Qed.

Lemma settlement_attempt_is_counted_witness :
  let body := mkConfirmBody (Some "order_A"%string) (Some "pay_1"%string) []
                            (Some 0%Q) None None None (Some 0%Q)
                            (Some Scenario.home) (Some Scenario.alice) in
  fst (PUT Scenario.first_call body Scenario.shop)
  = Fail 500 "Order confirmation failed"
  /\ order_counter (snd (PUT Scenario.first_call body Scenario.shop))
     = order_counter Scenario.shop + 1
  /\ orders (snd (PUT Scenario.first_call body Scenario.shop)) = [].
Proof.
  intros body.
  destruct (settlement_attempt_is_counted Scenario.first_call body
              Scenario.shop eq_refl eq_refl eq_refl) as [H1 H2].
  split; [now rewrite (H2 eq_refl)|]. split; [exact H1|].
  now rewrite (H2 eq_refl).
Defined.

End SettlementEffects.

(** ** Invariants of the runs *)

Section Catalogue.

Import CheckoutRoute.

Lemma cart_save_products u c s s' :
  cart_save u c s = Some s' -> products s' = products s.
Proof. unfold cart_save. destruct (cart_valid c); intros [= <-]; easy. Qed.

Lemma discount_create_products d s s' :
  discount_create d s = Some s' -> products s' = products s.
Proof. unfold discount_create. destruct (_ && _); intros [= <-]; easy. Qed.

Lemma discount_save_products d s s' :
  discount_save d s = Some s' -> products s' = products s.
Proof. unfold discount_save. destruct (discount_valid d); intros [= <-]; easy. Qed.

Lemma settings_save_products st s s' :
  settings_save st s = Some s' -> products s' = products s.
Proof. unfold settings_save. destruct (settings_valid st); intros [= <-]; easy. Qed.

Lemma order_create_products o s s' :
  order_create o s = Some s' -> products s' = products s.
Proof. unfold order_create. destruct (_ && _); intros [= <-]; easy. Qed.

Lemma getStoreSettings_products s st s0 :
  getStoreSettings s = (st, s0) -> products s0 = products s.
Proof.
  unfold getStoreSettings. destruct (settings s); now intros [= <- <-].
Qed.

Ltac products_facts :=
  repeat match goal with
    | H : cart_save _ _ _ = Some _ |- _ => apply cart_save_products in H
    | H : discount_create _ _ = Some _ |- _ =>
        apply discount_create_products in H
    | H : discount_save _ _ = Some _ |- _ => apply discount_save_products in H
    | H : settings_save _ _ = Some _ |- _ => apply settings_save_products in H
    | H : order_create _ _ = Some _ |- _ => apply order_create_products in H
    | H : getStoreSettings _ = (_, _) |- _ =>
        apply getStoreSettings_products in H
    end.

Lemma other_requests_keep_products env r s :
  is_confirm r = false -> products (snd (handle env r s)) = products s.
Proof.
  destruct r; simpl is_confirm; try discriminate; intros _; unfold_routes;
    repeat break_match; simpl; products_facts; try reflexivity; congruence.
Qed.

Lemma PUT_products env body s :
  products (snd (PUT env body s)) = products s
  \/ products (snd (PUT env body s))
     = products (decrement_stock (b_items body) s).
Proof.
  unfold PUT.
  destruct (negb _ || negb _); [now left|].
  destruct (getStoreSettings s) as [st0 s0] eqn:Eg.
  destruct (settings_save (bump st0) s0) as [s1|] eqn:Es;
    [|left; products_facts; simpl; congruence].
  destruct (order_of_body env (totalOrders (bump st0)) body) as [o|];
    [|left; products_facts; simpl; congruence].
  destruct (order_create o s1) as [s2|] eqn:Eo;
    [|left; products_facts; simpl; congruence].
  right.
  assert (E : products (cart_clear (o_user o)
                          (decrement_stock (b_items body) (redeem env body s2)))
              = products (decrement_stock (b_items body) s)).
  { simpl. apply decrement_stock_products.
    pose proof (redeem_frame env body s2) as (_ & R & _).
    products_facts. congruence. }
  destruct (isNthOrder _ _); [|exact E].
  destruct (discount_create _ _) as [s6|] eqn:Ec; [|exact E].
  products_facts. simpl. congruence.
Qed.

Lemma same_listing_trans p1 p2 p3 :
  same_listing p1 p2 -> same_listing p2 p3 -> same_listing p1 p3.
Proof. unfold same_listing. intuition congruence. Qed.

Lemma handle_listing env r s id :
  option_Forall2 same_listing (products s !! id)
                 (products (snd (handle env r s)) !! id).
Proof.
  assert (R : forall o : option Product, option_Forall2 same_listing o o).
  { intros [p|]; constructor. now repeat split. }
  destruct (is_confirm r) eqn:E.
  - destruct r; try discriminate. simpl.
    destruct (PUT_products env body s) as [->| ->]; [apply R|].
    rewrite decrement_stock_lookup.
    destruct (products s !! id); constructor. now repeat split.
  - rewrite other_requests_keep_products by exact E. apply R.
Qed.

(** X17: no request adds, removes, renames, reprices or (de)activates a
    product: along every run each product keeps its name, price, image
    and active flag, and a run without a settlement leaves the whole
    catalogue, stock included, as it was. *)
Theorem catalogue_is_fixed trace s :
  (forall id,
      option_Forall2 same_listing (products s !! id)
                     (products (snd (serve trace s)) !! id))
  /\ (no_settlement trace = true ->
      products (snd (serve trace s)) = products s).
Proof.
  revert s. induction trace as [|[env r] trace IH]; intros s.
  - split; [|reflexivity]. intros id. simpl.
    destruct (products s !! id); constructor. now repeat split.
  - simpl. pose proof (handle_listing env r s) as H1.
    pose proof (other_requests_keep_products env r s) as H2.
    destruct (handle env r s) as [reply s1]. simpl in H1, H2.
    destruct (IH s1) as [I1 I2]. destruct (serve trace s1) as [replies s2].
    simpl in *. split.
    + intros id. specialize (H1 id). specialize (I1 id).
      destruct H1 as [p p1 Hp|]; [|exact I1].
      inversion I1 as [p1' p2 Hp2|]; subst. constructor.
      eapply same_listing_trans; eassumption.
    + intros Hn. apply andb_prop in Hn as [Hr Ht].
      rewrite (I2 Ht). apply H2. now destruct (is_confirm r).
Qed.

Lemma catalogue_is_fixed_witness :
  let trace :=
    [ (Scenario.first_call,
       CartAdd (Some (mkSession Scenario.alice customer)) Scenario.widget_id 2);
      (Scenario.first_call, Checkout (Some Scenario.alice) Scenario.home);
      (Scenario.second_call,
       SettingsPatch Scenario.root
         (AdminSettingsRoute.mkSettingsPatch (Some 3) None None)) ] in
  no_settlement trace = true
  /\ products (snd (serve trace Scenario.stocked_shop))
     = products Scenario.stocked_shop.
Proof.
  intros trace. split; [reflexivity|].
  apply (catalogue_is_fixed trace Scenario.stocked_shop). reflexivity.
Defined.

End Catalogue.

Section OrderLog.

Import CheckoutRoute.

Lemma handle_orders_prefix env r s :
  orders s `prefix_of` orders (snd (handle env r s)).
Proof.
  destruct (is_confirm r) eqn:E.
  - destruct r; try discriminate. simpl.
    destruct (PUT_orders env body s) as [->|(o & -> & _)];
      [reflexivity|now apply prefix_app_r].
  - now rewrite other_requests_keep_orders.
Qed.

(** X18: the order collection is an append-only log.  Along every run the
    orders stored before are still there, unchanged and in the same
    positions, and new ones come after them. *)
Theorem orders_are_append_only trace s :
  orders s `prefix_of` orders (snd (serve trace s)).
Proof.
  revert s. induction trace as [|[env r] trace IH]; intros s; [reflexivity|].
  simpl. pose proof (handle_orders_prefix env r s) as H1.
  destruct (handle env r s) as [reply s1]. simpl in H1.
  specialize (IH s1). destruct (serve trace s1) as [replies s2]. simpl in *.
  now transitivity (orders s1).
Qed.

End OrderLog.

Section OrderSequence.

Import CheckoutRoute.

(** A settlement, accepted or not, inserts at most one order, numbered
    with the counter it has just raised. *)
Lemma PUT_log env body s :
  let s' := snd (PUT env body s) in
  (orders s' = orders s
   /\ order_counter s <= order_counter s')
  \/ exists o, orders s' = orders s ++ [o]
               /\ o_orderNumber o = order_counter s + 1
               /\ order_counter s' = order_counter s + 1.
Proof.
  unfold PUT.
  destruct (negb _ || negb _); [left; simpl; split; [reflexivity|lia]|].
  destruct (getStoreSettings s) as [st0 s0] eqn:Eg.
  pose proof Eg as Eo0. apply getStoreSettings_orders in Eo0.
  pose proof Eg as Ec0. apply getStoreSettings_counter in Ec0 as [Ec Ec0].
  rewrite Ec. clear Ec.
  unfold settings_save.
  destruct (settings_valid (bump st0)); simpl.
  2:{ left. split; [exact Eo0|].
      rewrite (counter_of_settings _ _ Ec0). lia. }
  set (s1 := set_settings (bump st0) s0).
  assert (C1 : order_counter s1 = totalOrders st0 + 1) by reflexivity.
  destruct (order_of_body env _ body) as [o|] eqn:Eo.
  2:{ left. simpl. split; [exact Eo0|]. rewrite C1. lia. }
  unfold order_create.
  destruct (order_valid o); simpl.
  2:{ left. split; [exact Eo0|]. rewrite C1. lia. }
  destruct (existsb _ _); simpl.
  { left. split; [exact Eo0|]. rewrite C1. lia. }
  right. exists o.
  assert (En : o_orderNumber o = totalOrders st0 + 1).
  { unfold order_of_body in Eo.
    destruct (b_userId body), (b_subtotal body), (b_total body);
      try discriminate.
    now injection Eo as <-. }
  set (s2 := set_orders _ _).
  pose proof (redeem_frame env body s2) as (R1 & _ & _ & R4).
  pose proof (decrement_stock_frame (b_items body) (redeem env body s2))
    as (D1 & _ & _ & D4).
  set (s5 := cart_clear (o_user o)
               (decrement_stock (b_items body) (redeem env body s2))).
  assert (E5 : orders s5 = orders s ++ [o]
               /\ order_counter s5 = totalOrders st0 + 1).
  { split.
    - subst s5. simpl. rewrite D4, R4. subst s2. simpl. now rewrite Eo0.
    - rewrite <- C1. apply order_counter_settings. subst s5. simpl.
      now rewrite D1, R1. }
  destruct E5 as [E5 E6].
  destruct (isNthOrder _ _); [|simpl; now repeat split].
  destruct (discount_create _ _) as [s6|] eqn:Ed; [|simpl; now repeat split].
  pose proof Ed as Ed'. apply discount_create_orders in Ed.
  apply discount_create_settings in Ed'. simpl.
  split; [congruence|]. split; [exact En|].
  rewrite <- E6. now apply order_counter_settings.
Qed.

Lemma StronglySorted_snoc (l : list Z) x :
  StronglySorted Z.lt l -> Forall (fun y => y < x) l ->
  StronglySorted Z.lt (l ++ [x]).
Proof.
  induction 1 as [|y l Hs IH Hy]; intros Hx; simpl.
  - repeat constructor.
  - apply Forall_cons in Hx as [Hyx Hx]. constructor; [now apply IH|].
    apply Forall_app. split; [exact Hy|]. now constructor.
Qed.

Lemma handle_sequence env r s :
  orders_in_sequence s -> orders_in_sequence (snd (handle env r s)).
Proof.
  intros [Hs Hb]. unfold orders_in_sequence.
  destruct (is_confirm r) eqn:E.
  - destruct r; try discriminate. simpl.
    destruct (PUT_log env body s) as [[-> Hc]|(o & -> & Hn & ->)].
    + split; [exact Hs|]. eapply Forall_impl; [exact Hb|].
      intros o Ho. simpl in Ho. lia.
    + split.
      * rewrite map_app. apply StronglySorted_snoc; [exact Hs|].
        apply Forall_map. eapply Forall_impl; [exact Hb|].
        intros o' Ho'. simpl in *. lia.
      * apply Forall_app. split.
        -- eapply Forall_impl; [exact Hb|]. intros o' Ho'. simpl in *. lia.
        -- constructor; [lia|constructor].
  - rewrite other_requests_keep_orders, other_requests_keep_counter
      by exact E.
    now split.
Qed.

(** X19: order numbers follow the counter.  From a store whose order numbers
    rise in insertion order and do not exceed the counter, every run
    reaches a store of the same kind: each new order gets a number above
    all earlier ones, and the counter is never behind. *)
Theorem order_numbers_follow_the_counter trace s :
  orders_in_sequence s -> orders_in_sequence (snd (serve trace s)).
Proof.
  revert s. induction trace as [|[env r] trace IH]; intros s H; [exact H|].
  simpl. pose proof (handle_sequence env r s H) as H1.
  destruct (handle env r s) as [reply s1]. simpl in H1.
  specialize (IH s1 H1). destruct (serve trace s1). exact IH.
Qed.

Lemma order_numbers_follow_the_counter_witness :
  orders_in_sequence Scenario.busy_shop
  /\ orders_in_sequence (snd (serve Scenario.ten_settlements Scenario.busy_shop)).
Proof.
  assert (H : orders_in_sequence Scenario.busy_shop).
  { split; constructor. }
  split; [exact H|].
  exact (order_numbers_follow_the_counter Scenario.ten_settlements
           Scenario.busy_shop H).
Defined.

End OrderSequence.

Section SettingsKept.

Import CheckoutRoute.

Lemma settings_save_valid st s s' :
  settings_save st s = Some s' ->
  settings s' = Some st /\ settings_valid st = true.
Proof.
  unfold settings_save. destruct (settings_valid st); [|discriminate].
  now intros [= <-].
Qed.

Lemma getStoreSettings_in_order s :
  settings_in_order s ->
  settings_valid (fst (getStoreSettings s)) = true
  /\ settings_in_order (snd (getStoreSettings s)).
Proof.
  unfold settings_in_order, getStoreSettings. intros H.
  destruct (settings s) as [st|] eqn:E; simpl.
  - split; [now apply H|]. intros st'. rewrite E. apply H.
  - split; [reflexivity|]. now intros st' [= <-].
Qed.

Lemma settings_in_order_same s s' :
  settings s' = settings s -> settings_in_order s -> settings_in_order s'.
Proof. unfold settings_in_order. now intros ->. Qed.

Lemma settings_in_order_saved st s' :
  settings s' = Some st -> settings_valid st = true -> settings_in_order s'.
Proof. unfold settings_in_order. intros -> Hv st' [= <-]. exact Hv. Qed.

Lemma PUT_settings env body s :
  settings_in_order s -> settings_in_order (snd (PUT env body s)).
Proof.
  intros H. unfold PUT.
  destruct (negb _ || negb _); [exact H|].
  destruct (getStoreSettings_in_order s H) as [Hv H0].
  destruct (getStoreSettings s) as [st0 s0] eqn:Eg. simpl in Hv, H0.
  destruct (settings_save (bump st0) s0) as [s1|] eqn:Es; [|exact H0].
  apply settings_save_valid in Es as [Es Hb].
  assert (H1 : settings_in_order s1) by (eapply settings_in_order_saved; eauto).
  destruct (order_of_body env _ body) as [o|]; [|exact H1].
  destruct (order_create o s1) as [s2|] eqn:Eo; [|exact H1].
  assert (E2 : settings s2 = settings s1).
  { unfold order_create in Eo. destruct (_ && _); now inversion Eo. }
  pose proof (redeem_frame env body s2) as (R1 & _).
  pose proof (decrement_stock_frame (b_items body) (redeem env body s2))
    as (D1 & _).
  assert (H5 : settings_in_order
                 (cart_clear (o_user o)
                    (decrement_stock (b_items body) (redeem env body s2)))).
  { eapply settings_in_order_same; [|exact H1]. simpl. congruence. }
  destruct (isNthOrder _ _); [|exact H5].
  destruct (discount_create _ _) as [s6|] eqn:Ec; [|exact H5].
  apply discount_create_settings in Ec. simpl.
  eapply settings_in_order_same; [exact Ec|exact H5].
Qed.

Lemma handle_settings env r s :
  settings_in_order s -> settings_in_order (snd (handle env r s)).
Proof.
  intros H. destruct (getStoreSettings_in_order s H) as [Hv H0].
  destruct r; try (now apply PUT_settings); unfold_routes;
    repeat break_match; simpl;
    repeat match goal with
      | E : getStoreSettings s = (_, _) |- _ =>
          rewrite E in Hv, H0; simpl in Hv, H0; clear E
      | E : settings_save _ _ = Some _ |- _ =>
          apply settings_save_valid in E as [? ?]
      end;
    settings_facts;
    try exact H; try exact H0;
    try (eapply settings_in_order_saved; eassumption);
    try (eapply settings_in_order_same; [|exact H]; simpl; congruence);
    try (eapply settings_in_order_same; [|exact H0]; simpl; congruence).
Qed.

(** X20: the settings document stays within its schema.  From a store
    whose settings, if any, pass their schema, every run reaches a store
    whose settings pass it: the interval is at least one, the percentage
    between 1 and 100, the counter not negative, the default expiry at
    least one day when set. *)
Theorem settings_stay_valid trace s :
  settings_in_order s -> settings_in_order (snd (serve trace s)).
Proof.
  revert s. induction trace as [|[env r] trace IH]; intros s H; [exact H|].
  simpl. pose proof (handle_settings env r s H) as H1.
  destruct (handle env r s) as [reply s1]. simpl in H1.
  specialize (IH s1 H1). destruct (serve trace s1). exact IH.
Qed.

Lemma settings_stay_valid_witness :
  settings_in_order Scenario.busy_shop
  /\ settings_in_order (snd (serve Scenario.ten_settlements Scenario.busy_shop)).
Proof.
  assert (H : settings_in_order Scenario.busy_shop).
  { intros st [= <-]. reflexivity. }
  split; [exact H|].
  exact (settings_stay_valid Scenario.ten_settlements Scenario.busy_shop H).
Defined.

End SettingsKept.

Section CartsKept.

Import CheckoutRoute.

Lemma carts_kept_same strict s s' :
  carts s' = carts s -> carts_kept strict s -> carts_kept strict s'.
Proof. unfold carts_kept. now intros ->. Qed.

Lemma carts_kept_insert strict u c s s' :
  carts s' = <[u := c]> (carts s) ->
  cart_valid c = true ->
  (strict = true -> NoDup (map ci_product (c_items c))) ->
  carts_kept strict s -> carts_kept strict s'.
Proof.
  unfold carts_kept. intros -> Hv Hn H user cart.
  destruct (decide (user = u)) as [->|Hne].
  - rewrite lookup_insert_eq. now intros [= <-].
  - rewrite lookup_insert_ne by congruence. apply H.
Qed.

Lemma carts_kept_alter strict u f s s' :
  carts s' = alter f u (carts s) ->
  (forall c, cart_valid c = true
             /\ (strict = true -> NoDup (map ci_product (c_items c))) ->
             cart_valid (f c) = true
             /\ (strict = true -> NoDup (map ci_product (c_items (f c))))) ->
  carts_kept strict s -> carts_kept strict s'.
Proof.
  unfold carts_kept. intros -> Hf H user cart.
  destruct (decide (user = u)) as [->|Hne].
  - rewrite lookup_alter_eq. destruct (carts s !! u) as [c|] eqn:E;
      [|discriminate].
    intros [= <-]. apply Hf. now apply (H u).
  - rewrite lookup_alter_ne by congruence. apply H.
Qed.

Lemma NoDup_snoc_product pid q price (l : list CartItem) :
  find (fun it => Pos.eqb (ci_product it) pid) l = None ->
  NoDup (map ci_product l) ->
  NoDup (map ci_product (l ++ [mkCartItem pid q price])).
Proof.
  intros Hf Hn. rewrite map_app. simpl. apply NoDup_app.
  split; [exact Hn|]. split; [|apply NoDup_singleton].
  intros x Hx Hx'. apply list_elem_of_singleton in Hx'. subst x.
  now apply find_product_none in Hf.
Qed.

Lemma NoDup_filter_product (P : CartItem -> Prop) `{forall x, Decision (P x)}
    (l : list CartItem) :
  NoDup (map ci_product l) -> NoDup (map ci_product (filter P l)).
Proof.
  intros Hn. eapply sublist_NoDup; [exact Hn|].
  change (ci_product <$> filter P l `sublist_of` ci_product <$> l).
  apply fmap_sublist, sublist_filter.
Qed.

Lemma cart_save_carts u c s s' :
  cart_save u c s = Some s' ->
  carts s' = <[u := c]> (carts s) /\ cart_valid c = true.
Proof. unfold cart_save. destruct (cart_valid c); [|discriminate]. now intros [= <-]. Qed.

Lemma discount_create_carts d s s' :
  discount_create d s = Some s' -> carts s' = carts s.
Proof. unfold discount_create. destruct (_ && _); intros [= <-]; easy. Qed.

Lemma discount_save_carts d s s' :
  discount_save d s = Some s' -> carts s' = carts s.
Proof. unfold discount_save. destruct (discount_valid d); intros [= <-]; easy. Qed.

Lemma settings_save_carts st s s' :
  settings_save st s = Some s' -> carts s' = carts s.
Proof. unfold settings_save. destruct (settings_valid st); intros [= <-]; easy. Qed.

Lemma order_create_carts o s s' :
  order_create o s = Some s' -> carts s' = carts s.
Proof. unfold order_create. destruct (_ && _); intros [= <-]; easy. Qed.

Lemma getStoreSettings_carts s st s0 :
  getStoreSettings s = (st, s0) -> carts s0 = carts s.
Proof.
  unfold getStoreSettings. destruct (settings s); now intros [= <- <-].
Qed.

Ltac carts_facts :=
  repeat match goal with
    | H : discount_create _ _ = Some _ |- _ => apply discount_create_carts in H
    | H : discount_save _ _ = Some _ |- _ => apply discount_save_carts in H
    | H : settings_save _ _ = Some _ |- _ => apply settings_save_carts in H
    | H : order_create _ _ = Some _ |- _ => apply order_create_carts in H
    | H : getStoreSettings _ = (_, _) |- _ => apply getStoreSettings_carts in H
    end.

Lemma PUT_carts env body s :
  carts (snd (PUT env body s)) = carts s
  \/ exists user,
       carts (snd (PUT env body s))
       = alter (fun _ => mkCart [] None) user (carts s).
Proof.
  unfold PUT.
  destruct (negb _ || negb _); [now left|].
  destruct (getStoreSettings s) as [st0 s0] eqn:Eg.
  destruct (settings_save (bump st0) s0) as [s1|] eqn:Es;
    [|left; carts_facts; simpl; congruence].
  destruct (order_of_body env (totalOrders (bump st0)) body) as [o|];
    [|left; carts_facts; simpl; congruence].
  destruct (order_create o s1) as [s2|] eqn:Eo;
    [|left; carts_facts; simpl; congruence].
  right. exists (o_user o).
  assert (E : carts (cart_clear (o_user o)
                       (decrement_stock (b_items body) (redeem env body s2)))
              = alter (fun _ => mkCart [] None) (o_user o) (carts s)).
  { simpl.
    pose proof (redeem_frame env body s2) as (_ & _ & R & _).
    pose proof (decrement_stock_frame (b_items body) (redeem env body s2))
      as (_ & D & _).
    carts_facts. congruence. }
  destruct (isNthOrder _ _); [|exact E].
  destruct (discount_create _ _) as [s6|] eqn:Ec; [|exact E].
  carts_facts. simpl. congruence.
Qed.

Lemma empty_cart_kept strict (c : Cart) :
  cart_valid c = true
  /\ (strict = true -> NoDup (map ci_product (c_items c))) ->
  cart_valid (mkCart [] None) = true
  /\ (strict = true -> NoDup (map ci_product (c_items (mkCart [] None)))).
Proof. intros _. split; [reflexivity|intros _; constructor]. Qed.

Lemma handle_carts strict env r s :
  (strict = true -> lower_case_add r = true) ->
  carts_kept strict s -> carts_kept strict (snd (handle env r s)).
Proof.
  intros Hlow H. destruct r; simpl.
  - (* CartGet *)
    unfold CartRoute.GET. destruct session as [u|]; [|exact H].
    destruct (carts s !! sess_user u) eqn:E.
    + destruct (live_discount _ _ _); exact H.
    + simpl. eapply carts_kept_insert;
        [reflexivity|reflexivity|intros _; constructor|exact H].
  - (* CartAdd *)
    unfold CartRoute.POST. destruct session as [u|]; [|exact H].
    destruct (String.eqb productId ""); [exact H|].
    destruct (quantity <? 1); [exact H|].
    destruct (castObjectId productId) as [id|] eqn:Ec; [|exact H].
    destruct (products s !! id) as [p|]; [|exact H].
    destruct (negb (p_isActive p)); [exact H|].
    destruct (p_stock p <? quantity); [exact H|].
    assert (Hn : strict = true ->
                 NoDup (map ci_product
                          (c_items (default (mkCart [] None)
                                            (carts s !! sess_user u))))).
    { intros St. destruct (carts s !! sess_user u) as [c|] eqn:E; simpl;
        [now apply (H (sess_user u))|constructor]. }
    destruct (find _ _) as [existing|] eqn:Ef.
    + destruct (p_stock p <? _); [exact H|].
      destruct (cart_save _ _ s) as [s1|] eqn:Es; [|exact H].
      apply cart_save_carts in Es as [Es Hv]. simpl.
      eapply carts_kept_insert; [exact Es|exact Hv| |exact H].
      intros St. simpl. rewrite map_update_first by reflexivity. now apply Hn.
    + destruct (cart_save _ _ s) as [s1|] eqn:Es; [|exact H].
      apply cart_save_carts in Es as [Es Hv]. simpl.
      eapply carts_kept_insert; [exact Es|exact Hv| |exact H].
      intros St. simpl. apply NoDup_snoc_product; [|now apply Hn].
      rewrite <- Ef. apply find_ext. intros it.
      rewrite (toString_eqb productId id _ Ec).
      simpl in Hlow. now rewrite (Hlow St).
  - (* CartClear *)
    unfold CartRoute.DELETE. destruct session as [u|]; [|exact H].
    simpl. eapply carts_kept_alter; [reflexivity| |exact H].
    apply empty_cart_kept.
  - (* CartItemUpdate *)
    unfold CartItemRoute.PATCH. destruct session as [u|]; [|exact H].
    destruct (quantity <? 1); [exact H|].
    destruct (products s !! productId) as [p|]; [|exact H].
    destruct (p_stock p <? quantity); [exact H|].
    destruct (carts s !! sess_user u) as [c|] eqn:E; [|exact H].
    destruct (find _ _); [|exact H].
    destruct (cart_save _ _ s) as [s1|] eqn:Es; [|exact H].
    apply cart_save_carts in Es as [Es Hv]. simpl.
    eapply carts_kept_insert; [exact Es|exact Hv| |exact H].
    intros St. simpl. rewrite map_update_first by reflexivity.
    now apply (H (sess_user u)).
  - (* CartItemRemove *)
    unfold CartItemRoute.DELETE. destruct session as [u|]; [|exact H].
    destruct (carts s !! sess_user u) as [c|] eqn:E; [|exact H].
    destruct (cart_save _ _ s) as [s1|] eqn:Es; [|exact H].
    apply cart_save_carts in Es as [Es Hv]. simpl.
    eapply carts_kept_insert; [exact Es|exact Hv| |exact H].
    intros St. simpl. apply NoDup_filter_product. now apply (H (sess_user u)).
  - (* DiscountApply *)
    unfold CartDiscountRoute.POST. destruct session as [u|]; [|exact H].
    destruct (String.eqb code ""); [exact H|].
    destruct (discount_by_code _ s) as [d|]; [|exact H].
    destruct (d_isUsed d); [exact H|].
    destruct (isExpired _ _); [exact H|].
    destruct (carts s !! sess_user u) as [c|] eqn:E; [|exact H].
    destruct (Nat.eqb _ _); [exact H|].
    destruct (cart_save _ _ s) as [s1|] eqn:Es; [|exact H].
    apply cart_save_carts in Es as [Es Hv]. simpl.
    eapply carts_kept_insert; [exact Es|exact Hv| |exact H].
    intros St. simpl. now apply (H (sess_user u)).
  - (* DiscountRemove *)
    unfold CartDiscountRoute.DELETE. destruct session as [u|]; [|exact H].
    simpl. eapply carts_kept_alter; [reflexivity| |exact H].
    intros c Hc. exact Hc.
  - (* Checkout *)
    unfold CheckoutRoute.POST. repeat break_match; exact H.
  - (* Confirm *)
    destruct (PUT_carts env body s) as [E|[user E]].
    + eapply carts_kept_same; [exact E|exact H].
    + eapply carts_kept_alter; [exact E| |exact H].
      apply empty_cart_kept.
  - unfold_routes. repeat break_match; simpl; carts_facts;
      try exact H; (apply (carts_kept_same strict s); [|exact H]); simpl;
      congruence.
  - unfold_routes. repeat break_match; simpl; carts_facts;
      try exact H; (apply (carts_kept_same strict s); [|exact H]); simpl;
      congruence.
  - unfold_routes. repeat break_match; simpl; carts_facts;
      try exact H; (apply (carts_kept_same strict s); [|exact H]); simpl;
      congruence.
  - unfold_routes. repeat break_match; simpl; carts_facts;
      try exact H; (apply (carts_kept_same strict s); [|exact H]); simpl;
      congruence.
  - unfold_routes. repeat break_match; simpl; carts_facts;
      try exact H; (apply (carts_kept_same strict s); [|exact H]); simpl;
      congruence.
  - unfold_routes. repeat break_match; simpl; carts_facts;
      try exact H; (apply (carts_kept_same strict s); [|exact H]); simpl;
      congruence.
Qed.

Lemma serve_carts strict trace s :
  (strict = true ->
   forallb (fun call => lower_case_add (snd call)) trace = true) ->
  carts_kept strict s -> carts_kept strict (snd (serve trace s)).
Proof.
  revert s. induction trace as [|[env r] trace IH]; intros s Hlow H; [exact H|].
  simpl in *.
  assert (H1 : carts_kept strict (snd (handle env r s))).
  { apply handle_carts; [|exact H].
    intros St. now destruct (andb_prop _ _ (Hlow St)). }
  destruct (handle env r s) as [reply s1]. simpl in H1.
  assert (H2 : carts_kept strict (snd (serve trace s1))).
  { apply IH; [|exact H1].
    intros St. now destruct (andb_prop _ _ (Hlow St)). }
  destruct (serve trace s1). exact H2.
Qed.

(** X21: carts stay well formed.  From a store in which every cart passes
    its schema every run reaches a store of the same kind: no request
    stores a line with a quantity below one.  From a store in which
    every cart has, besides, at most one line per product, a run whose
    additions spell the ids of the products in lower case reaches a
    store of the same kind: no such request gives a cart a second line
    for a product it already holds. *)
Theorem carts_stay_well_formed trace s :
  (carts_valid s -> carts_valid (snd (serve trace s)))
  /\ (forallb (fun call => lower_case_add (snd call)) trace = true ->
      carts_in_order s -> carts_in_order (snd (serve trace s))).
Proof.
  split.
  - intros H user cart Hc.
    apply (serve_carts false trace s) in Hc; [now destruct Hc|discriminate|].
    intros w c Hw. split; [now apply (H w)|discriminate].
  - intros Hlow H user cart Hc.
    apply (serve_carts true trace s) in Hc; [|intros _; exact Hlow|].
    + destruct Hc as [Hv Hn]. split; [exact Hv|now apply Hn].
    + intros w c Hw. destruct (H w c Hw) as [Hv Hn].
      split; [exact Hv|intros _; exact Hn].
Qed.

Lemma carts_stay_well_formed_witness :
  let trace :=
    [ (Scenario.first_call,
       CartAdd (Some (mkSession Scenario.alice customer)) Scenario.widget_id 2);
      (Scenario.first_call,
       CartItemUpdate (Some (mkSession Scenario.bob customer)) 1%positive 3);
      (Scenario.second_call, Confirm (Scenario.paid Scenario.alice "pay_1")) ] in
  carts_in_order Scenario.stocked_shop
  /\ carts_valid (snd (serve trace Scenario.stocked_shop))
  /\ carts_in_order (snd (serve trace Scenario.stocked_shop)).
Proof.
  intros trace.
  assert (H : carts_in_order Scenario.stocked_shop).
  { intros user cart Hc. simpl in Hc.
    apply lookup_insert_Some in Hc as [[_ <-]|[_ Hc]].
    - split; [reflexivity|apply NoDup_singleton].
    - apply lookup_singleton_Some in Hc as [_ <-].
      split; [reflexivity|apply NoDup_singleton]. }
  split; [exact H|].
  destruct (carts_stay_well_formed trace Scenario.stocked_shop) as [H1 H2].
  split; [|exact (H2 eq_refl H)].
  apply H1. intros user cart Hc. now destruct (H user cart Hc).
Defined.

(** An addition that spells the id in upper case takes a cart out of
    the stores with one line per product. *)
Example upper_case_add_is_not_kept :
  let gadget := mkProduct "Gadget" 100 "/gadget.png" 5 true in
  let s := mkStore (Some default_settings) {[ 171%positive := gadget ]}
                   {[ Scenario.alice := mkCart [mkCartItem 171%positive 1 100] None ]}
                   [] [] in
  let r := CartAdd (Some (mkSession Scenario.alice customer))
                   "0000000000000000000000AA" 2 in
  carts_in_order s
  /\ ~ carts_in_order (snd (handle Scenario.first_call r s)).
Proof.
  intros gadget s r. split.
  - intros user cart Hc. subst s. simpl in Hc.
    apply lookup_singleton_Some in Hc as [_ <-].
    split; [reflexivity|apply NoDup_singleton].
  - intros H.
    destruct (H Scenario.alice
                (mkCart [mkCartItem 171%positive 1 100;
                         mkCartItem 171%positive 2 100] None))
      as [_ Hn]; [vm_compute; reflexivity|].
    simpl in Hn. apply NoDup_cons in Hn as [Hn _]. apply Hn. now left.
Qed.

End CartsKept.

Section DiscountsKept.

Import CheckoutRoute.

Lemma map_update_first_found {A B} (g : A -> B) sel f (l : list A) x :
  find sel l = Some x -> g (f x) = g x ->
  map g (update_first sel f l) = map g l.
Proof.
  induction l as [|y l IH]; simpl; [discriminate|].
  destruct (sel y); simpl.
  - intros [= ->] Hg. now rewrite Hg.
  - intros Hf Hg. now rewrite IH.
Qed.

Lemma Forall_update_first {A} (P : A -> Prop) sel f (l : list A) :
  (forall x, sel x = true -> P x -> P (f x)) ->
  Forall P l -> Forall P (update_first sel f l).
Proof.
  intros Hf. induction 1 as [|y l Hy Hl IH]; simpl; [constructor|].
  destruct (sel y) eqn:E; constructor; auto.
Qed.

Lemma remove_first_sublist {A} sel (l : list A) :
  remove_first sel l `sublist_of` l.
Proof.
  induction l as [|y l IH]; simpl; [reflexivity|].
  destruct (sel y); [now apply sublist_cons|now apply sublist_skip].
Qed.

Lemma find_some_sel {A} sel (l : list A) x :
  find sel l = Some x -> sel x = true /\ x ∈ l.
Proof.
  induction l as [|y l IH]; simpl; [discriminate|].
  destruct (sel y) eqn:E.
  - intros [= ->]. split; [exact E|left].
  - intros H. destruct (IH H). split; [assumption|now right].
Qed.

Lemma discount_fresh_id (d : DiscountCode) l :
  existsb (fun e => String.eqb (d_code e) (d_code d)
                    || Pos.eqb (d_id e) (d_id d)) l = false ->
  ~ In (d_id d) (map d_id l).
Proof.
  induction l as [|e l IH]; simpl; [tauto|].
  intros H. apply orb_false_elim in H as [H1 H2].
  apply orb_false_elim in H1 as [_ H1]. apply Pos.eqb_neq in H1.
  intros [E|E]; [congruence|]. now apply IH.
Qed.

Lemma discounts_in_order_same s s' :
  discounts s' = discounts s -> discounts_in_order s -> discounts_in_order s'.
Proof. unfold discounts_in_order. now intros ->. Qed.

Lemma discounts_in_order_create d s s' :
  discount_create d s = Some s' ->
  code_setter (d_code d) = d_code d ->
  discounts_in_order s -> discounts_in_order s'.
Proof.
  unfold discount_create. intros H Hc (Hv & Hi & Hn).
  destruct (discount_valid d) eqn:Ed; simpl in H; [|discriminate].
  destruct (existsb _ _) eqn:Ex; simpl in H; [discriminate|].
  injection H as <-. unfold discounts_in_order. simpl.
  pose proof (discount_fresh_code _ _ Ex) as Hcode.
  pose proof (discount_fresh_id _ _ Ex) as Hid.
  split; [apply Forall_app; split; [exact Hv|now repeat constructor]|].
  rewrite !map_app. simpl.
  split; apply NoDup_app; (split; [assumption|]);
    (split; [|apply NoDup_singleton]); intros x Hx Hx';
    apply list_elem_of_singleton in Hx'; subst x;
    apply list_elem_of_In in Hx; contradiction.
Qed.

Lemma discounts_in_order_redeem env body s :
  discounts_in_order s -> discounts_in_order (redeem env body s).
Proof.
  intros (Hv & Hi & Hn). unfold discounts_in_order.
  destruct (redeem_codes env body s) as [-> ->].
  split; [|now split].
  unfold redeem. destruct (b_discountCode body); [|exact Hv].
  destruct (truthy _); [|exact Hv]. simpl.
  apply Forall_update_first; [|exact Hv]. now intros x _ Hx.
Qed.

Lemma discounts_in_order_save d d' s s' :
  discount_by_id (d_id d) s = Some d ->
  d_id d' = d_id d -> d_code d' = d_code d ->
  discount_save d' s = Some s' ->
  discounts_in_order s -> discounts_in_order s'.
Proof.
  unfold discount_save, discount_by_id. intros Hf Hid Hcode H (Hv & Hi & Hn).
  destruct (discount_valid d') eqn:Ed; [|discriminate].
  injection H as <-. unfold discounts_in_order. simpl. rewrite Hid.
  rewrite (map_update_first_found d_id _ _ _ d Hf Hid).
  rewrite (map_update_first_found d_code _ _ _ d Hf Hcode).
  split; [|now split].
  apply Forall_update_first; [|exact Hv].
  intros x Hx _. split; [exact Ed|].
  apply find_some_sel in Hf as [_ Hin].
  rewrite Forall_forall in Hv. destruct (Hv d Hin) as [_ Hc]. congruence.
Qed.

Lemma discounts_in_order_remove sel s :
  discounts_in_order s ->
  discounts_in_order (set_discounts (remove_first sel (discounts s)) s).
Proof.
  intros (Hv & Hi & Hn). unfold discounts_in_order. simpl.
  pose proof (remove_first_sublist sel (discounts s)) as Hs.
  split; [|split].
  - rewrite Forall_forall in Hv |- *. intros x Hx. apply Hv.
    eapply elem_of_sublist; eassumption.
  - eapply sublist_NoDup; [exact Hi|].
    change (d_id <$> remove_first sel (discounts s)
            `sublist_of` d_id <$> discounts s).
    now apply fmap_sublist.
  - eapply sublist_NoDup; [exact Hn|].
    change (d_code <$> remove_first sel (discounts s)
            `sublist_of` d_code <$> discounts s).
    now apply fmap_sublist.
Qed.

Lemma cart_save_discounts u c s s' :
  cart_save u c s = Some s' -> discounts s' = discounts s.
Proof. unfold cart_save. destruct (cart_valid c); intros [= <-]; easy. Qed.

Lemma settings_save_discounts st s s' :
  settings_save st s = Some s' -> discounts s' = discounts s.
Proof. unfold settings_save. destruct (settings_valid st); intros [= <-]; easy. Qed.

Lemma order_create_discounts o s s' :
  order_create o s = Some s' -> discounts s' = discounts s.
Proof. unfold order_create. destruct (_ && _); intros [= <-]; easy. Qed.

Lemma getStoreSettings_discounts s st s0 :
  getStoreSettings s = (st, s0) -> discounts s0 = discounts s.
Proof.
  unfold getStoreSettings. destruct (settings s); now intros [= <- <-].
Qed.

Ltac discounts_facts :=
  repeat match goal with
    | H : cart_save _ _ _ = Some _ |- _ => apply cart_save_discounts in H
    | H : settings_save _ _ = Some _ |- _ => apply settings_save_discounts in H
    | H : order_create _ _ = Some _ |- _ => apply order_create_discounts in H
    | H : getStoreSettings _ = (_, _) |- _ =>
        apply getStoreSettings_discounts in H
    end.

Lemma PUT_discounts env body s :
  discounts_in_order s -> discounts_in_order (snd (PUT env body s)).
Proof.
  intros H. unfold PUT.
  destruct (negb _ || negb _); [exact H|].
  destruct (getStoreSettings s) as [st0 s0] eqn:Eg.
  destruct (settings_save (bump st0) s0) as [s1|] eqn:Es;
    [|discounts_facts; eapply discounts_in_order_same; eassumption].
  assert (H1 : discounts_in_order s1).
  { discounts_facts. eapply discounts_in_order_same; [|exact H]. congruence. }
  destruct (order_of_body env (totalOrders (bump st0)) body) as [o|];
    [|exact H1].
  destruct (order_create o s1) as [s2|] eqn:Eo; [|exact H1].
  assert (H2 : discounts_in_order s2).
  { discounts_facts. eapply discounts_in_order_same; [|exact H1]. congruence. }
  assert (H5 : discounts_in_order
                 (cart_clear (o_user o)
                    (decrement_stock (b_items body) (redeem env body s2)))).
  { apply (discounts_in_order_same (redeem env body s2)).
    - simpl.
      now destruct (decrement_stock_frame (b_items body) (redeem env body s2))
        as (_ & _ & -> & _).
    - now apply discounts_in_order_redeem. }
  destruct (isNthOrder _ _); [|exact H5].
  destruct (discount_create _ _) as [s6|] eqn:Ec; [|exact H5].
  simpl. eapply discounts_in_order_create; [exact Ec| |exact H5].
  apply code_setter_idem.
Qed.

Lemma handle_discounts env r s :
  discounts_in_order s -> discounts_in_order (snd (handle env r s)).
Proof.
  intros H. destruct r; try (now apply PUT_discounts); simpl.
  1-10,14:
    unfold_routes; repeat break_match; simpl; discounts_facts;
    try exact H; (apply (discounts_in_order_same s); [|exact H]); simpl;
    congruence.
  - (* DiscountGenerate *)
    unfold AdminDiscountsRoute.POST.
    destruct (negb (is_admin session)); [exact H|].
    destruct (negb _); [exact H|].
    destruct (getStoreSettings s) as [st0 s0] eqn:Eg.
    assert (H0 : discounts_in_order s0).
    { discounts_facts. eapply discounts_in_order_same; eassumption. }
    destruct (discount_create _ s0) as [s1|] eqn:Ec; [|exact H0].
    simpl. eapply discounts_in_order_create; [exact Ec| |exact H0].
    apply code_setter_idem.
  - (* DiscountPatch *)
    unfold AdminDiscountsRoute.PATCH.
    destruct (negb (is_admin session)); [exact H|].
    destruct discountId as [id|]; [|exact H].
    destruct (discount_by_id id s) as [d|] eqn:Ed; [|exact H].
    destruct (discount_save _ s) as [s1|] eqn:Es; [|exact H].
    simpl. assert (Hid : d_id d = id).
    { unfold discount_by_id in Ed. apply find_some_sel in Ed as [Hs _].
      now apply Pos.eqb_eq in Hs. }
    subst id.
    eapply (discounts_in_order_save d); [exact Ed| | |exact Es|exact H];
      reflexivity.
  - (* DiscountDelete *)
    unfold AdminDiscountsRoute.DELETE.
    destruct (negb (is_admin session)); [exact H|].
    destruct discountId as [id|]; [|exact H].
    destruct (discount_by_id id s) as [d|] eqn:Ed; [|exact H].
    simpl. now apply discounts_in_order_remove.
Qed.

(** X22: the discount codes stay well formed.  From a store whose codes
    pass their schema, are stored upper-cased and trimmed, and share no
    [_id] and no code, every run reaches a store of the same kind:
    minting, generating, redeeming, re-dating and deleting codes never
    produce two codes with one spelling. *)
Theorem discount_codes_stay_distinct trace s :
  discounts_in_order s -> discounts_in_order (snd (serve trace s)).
Proof.
  revert s. induction trace as [|[env r] trace IH]; intros s H; [exact H|].
  simpl. pose proof (handle_discounts env r s H) as H1.
  destruct (handle env r s) as [reply s1]. simpl in H1.
  specialize (IH s1 H1). destruct (serve trace s1). exact IH.
Qed.

Lemma discount_codes_stay_distinct_witness :
  discounts_in_order Scenario.shop
  /\ discounts_in_order (snd (serve Scenario.one_coupon_twice Scenario.shop)).
Proof.
  assert (H : discounts_in_order Scenario.shop).
  { split; [|split]; simpl.
    - constructor; [split; reflexivity|constructor].
    - apply NoDup_singleton.
    - apply NoDup_singleton. }
  split; [exact H|].
  exact (discount_codes_stay_distinct Scenario.one_coupon_twice
           Scenario.shop H).
Defined.

Lemma find_unique {A B} `{EqDecision B} (g : A -> B) (sel : A -> bool)
    (l : list A) x :
  NoDup (map g l) -> x ∈ l -> sel x = true ->
  (forall y, sel y = true -> g y = g x) ->
  find sel l = Some x.
Proof.
  intros Hn Hx Hs Hg. induction l as [|y l IH]; simpl.
  - now apply elem_of_nil in Hx.
  - simpl in Hn. apply NoDup_cons in Hn as [Hy Hn].
    destruct (sel y) eqn:E.
    + apply elem_of_cons in Hx as [->|Hx]; [reflexivity|].
      exfalso. apply Hy. rewrite (Hg y E).
      change (g x ∈ g <$> l). now apply list_elem_of_fmap_2.
    + apply elem_of_cons in Hx as [->|Hx]; [congruence|]. now apply IH.
Qed.

(** X23: in such a store every code is found again.  Looking a stored code
    up by its spelling, in any letter case and with white space around
    it, or by its [_id], gives that very document. *)
Theorem stored_code_is_found s d spelling :
  discounts_in_order s -> d ∈ discounts s ->
  code_setter spelling = d_code d ->
  discount_by_code spelling s = Some d
  /\ discount_by_id (d_id d) s = Some d.
Proof.
  intros (Hv & Hi & Hn) Hd Hc. split.
  - unfold discount_by_code. rewrite Hc.
    apply (find_unique d_code); [exact Hn|exact Hd|apply String.eqb_refl|].
    intros y Hy. now apply String.eqb_eq in Hy.
  - unfold discount_by_id.
    apply (find_unique d_id); [exact Hi|exact Hd|apply Pos.eqb_refl|].
    intros y Hy. now apply Pos.eqb_eq in Hy.
Qed.

Lemma stored_code_is_found_witness :
  discounts_in_order Scenario.shop
  /\ discount_by_code " uniblox-aaaa-bbbb" Scenario.shop = Some Scenario.coupon
  /\ discount_by_id 21%positive Scenario.shop = Some Scenario.coupon.
Proof.
  assert (H : discounts_in_order Scenario.shop).
  { split; [|split]; simpl.
    - constructor; [split; reflexivity|constructor].
    - apply NoDup_singleton.
    - apply NoDup_singleton. }
  split; [exact H|].
  apply (stored_code_is_found Scenario.shop Scenario.coupon
           " uniblox-aaaa-bbbb" H); [left|reflexivity].
Defined.

(** A code that is stored as used stays so while no code is deleted. *)
Lemma spent_same code s s' :
  discounts s' = discounts s -> spent code s -> spent code s'.
Proof. unfold spent, discount_by_code. now intros ->. Qed.

Lemma spent_update_first code selu f s :
  (forall x, find selu (discounts s) = Some x ->
             d_code (f x) = d_code x
             /\ (d_isUsed x = true -> d_isUsed (f x) = true)) ->
  spent code s ->
  spent code (set_discounts (update_first selu f (discounts s)) s).
Proof.
  unfold spent, discount_by_code. simpl.
  generalize (discounts s). intros l.
  induction l as [|x l IH]; intros Hf (d & Hd & Hu); simpl in *;
    [discriminate|].
  destruct (selu x) eqn:Ex; simpl.
  - destruct (Hf x eq_refl) as [Hc Hk]. rewrite Hc.
    destruct (String.eqb (d_code x) (code_setter code)).
    + injection Hd as <-. eexists. split; [reflexivity|now apply Hk].
    + now exists d.
  - destruct (String.eqb (d_code x) (code_setter code)).
    + now exists d.
    + apply IH; [exact Hf|now exists d].
Qed.

Lemma spent_create code d s s' :
  discount_create d s = Some s' -> spent code s -> spent code s'.
Proof.
  unfold discount_create. destruct (_ && _); [|discriminate].
  intros [= <-] (d0 & Hd & Hu). exists d0. split; [|exact Hu].
  unfold discount_by_code in *. simpl. now apply find_app_some.
Qed.

Lemma spent_redeem code env body s : spent code s -> spent code (redeem env body s).
Proof.
  intros H. unfold redeem. destruct (b_discountCode body); [|exact H].
  destruct (truthy _); [|exact H].
  apply spent_update_first; [|exact H]. now intros x _.
Qed.

Lemma PUT_spent code env body s : spent code s -> spent code (snd (PUT env body s)).
Proof.
  intros H. unfold PUT.
  destruct (negb _ || negb _); [exact H|].
  destruct (getStoreSettings s) as [st0 s0] eqn:Eg.
  destruct (settings_save (bump st0) s0) as [s1|] eqn:Es;
    [|discounts_facts; eapply spent_same; eassumption].
  assert (H1 : spent code s1).
  { discounts_facts. eapply spent_same; [|exact H]. congruence. }
  destruct (order_of_body env (totalOrders (bump st0)) body) as [o|];
    [|exact H1].
  destruct (order_create o s1) as [s2|] eqn:Eo; [|exact H1].
  assert (H2 : spent code s2).
  { discounts_facts. eapply spent_same; [|exact H1]. congruence. }
  assert (H5 : spent code
                 (cart_clear (o_user o)
                    (decrement_stock (b_items body) (redeem env body s2)))).
  { apply (spent_same code (redeem env body s2)).
    - simpl.
      now destruct (decrement_stock_frame (b_items body) (redeem env body s2))
        as (_ & _ & -> & _).
    - now apply spent_redeem. }
  destruct (isNthOrder _ _); [|exact H5].
  destruct (discount_create _ _) as [s6|] eqn:Ec; [|exact H5].
  simpl. eapply spent_create; [exact Ec|exact H5].
Qed.

Lemma handle_spent code env r s :
  match r with DiscountDelete _ _ => false | _ => true end = true ->
  spent code s -> spent code (snd (handle env r s)).
Proof.
  intros Hr H. destruct r; try (now apply PUT_spent); simpl.
  1-10,14:
    unfold_routes; repeat break_match; simpl; discounts_facts;
    try exact H; (apply (spent_same code s); [|exact H]); simpl;
    congruence.
  - (* DiscountGenerate *)
    unfold AdminDiscountsRoute.POST.
    destruct (negb (is_admin session)); [exact H|].
    destruct (negb _); [exact H|].
    destruct (getStoreSettings s) as [st0 s0] eqn:Eg.
    assert (H0 : spent code s0).
    { discounts_facts. eapply spent_same; eassumption. }
    destruct (discount_create _ s0) as [s1|] eqn:Ec; [|exact H0].
    simpl. eapply spent_create; [exact Ec|exact H0].
  - (* DiscountPatch *)
    unfold AdminDiscountsRoute.PATCH.
    destruct (negb (is_admin session)); [exact H|].
    destruct discountId as [id|]; [|exact H].
    destruct (discount_by_id id s) as [d|] eqn:Ed; [|exact H].
    destruct (discount_save _ s) as [s1|] eqn:Es; [|exact H].
    simpl. unfold discount_save in Es.
    destruct (discount_valid _); [|discriminate]. injection Es as <-.
    apply spent_update_first; [|exact H].
    simpl. intros x Hx.
    assert (Hid : d_id d = id).
    { unfold discount_by_id in Ed. apply find_some_sel in Ed as [Hs _].
      now apply Pos.eqb_eq in Hs. }
    subst id. unfold discount_by_id in Ed. rewrite Ed in Hx.
    injection Hx as <-. now split.
  - (* DiscountDelete *)
    discriminate Hr.
Qed.

Lemma serve_spent code trace s :
  no_code_deleted trace = true ->
  spent code s -> spent code (snd (serve trace s)).
Proof.
  revert s. induction trace as [|[env r] trace IH]; intros s Hn H; [exact H|].
  simpl in *. apply andb_prop in Hn as [Hr Hn].
  pose proof (handle_spent code env r s Hr H) as H1.
  destruct (handle env r s) as [reply s1]. simpl in H1.
  specialize (IH s1 Hn H1). destruct (serve trace s1). exact IH.
Qed.

(** X14: a code redeemed by an accepted settlement is afterwards stored as
    used, by the user and at the instant of the settlement; and after
    any later requests, as long as none of them is the deletion of a
    code by the admin, every attempt to apply the code to a cart is
    refused with status 400 and leaves the store as it is. *)
Theorem redeemed_code_is_refused env body s c s' code d trace :
  PUT env body s = (Confirmed c, s') ->
  b_discountCode body = Some code ->
  code <> EmptyString ->
  discount_by_code code s = Some d ->
  no_code_deleted trace = true ->
  let later := snd (serve trace s') in
  discount_by_code code s'
  = Some (mark_used (b_userId body) (clock env) d)
  /\ forall now u,
       CartDiscountRoute.POST now (Some u) code later
       = (Fail 400 "This discount code has already been used", later).
Proof.
  intros H Hcode Hne Hd Hn later. apply PUT_Confirmed in H as (st & o & H).
  assert (Hf : discount_by_code code s'
               = Some (mark_used (b_userId body) (clock env) d)).
  { unfold discount_by_code.
    rewrite (settled_discounts _ _ _ _ _ _ _ H).
    apply find_app_some. unfold redeem. rewrite Hcode. simpl.
    destruct (String.eqb_spec code ""); [contradiction|]. simpl.
    rewrite find_update_first by reflexivity.
    unfold discount_by_code in Hd. now rewrite Hd. }
  split; [exact Hf|].
  assert (Hs : spent code later).
  { apply serve_spent; [exact Hn|]. eexists. split; [exact Hf|reflexivity]. }
  destruct Hs as (d' & Hd' & Hu).
  intros now u. unfold CartDiscountRoute.POST.
  destruct (String.eqb_spec code ""); [contradiction|].
  rewrite !discount_by_code_upper, Hd', Hu. reflexivity.
Qed.

Lemma redeemed_code_is_refused_witness :
  let trace :=
    [ (Scenario.second_call,
       DiscountGenerate Scenario.root
         (AdminDiscountsRoute.mkGenerateBody (Some 20%Q) None));
      (Scenario.second_call,
       DiscountPatch Scenario.root (Some 21%positive) (Some (Some 7)));
      (Scenario.second_call, Confirm (Scenario.paid Scenario.bob "pay_2")) ] in
  exists c s',
    PUT Scenario.first_call (Scenario.discounted Scenario.alice "pay_1")
        Scenario.stocked_shop = (Confirmed c, s')
    /\ discount_by_code "UNIBLOX-AAAA-BBBB" Scenario.stocked_shop
       = Some Scenario.coupon
    /\ CartDiscountRoute.POST 3000 (Some (mkSession Scenario.bob customer))
                              "UNIBLOX-AAAA-BBBB" (snd (serve trace s'))
       = (Fail 400 "This discount code has already been used",
          snd (serve trace s')).
Proof.
  intros trace.
  assert (H1 : exists c,
             PUT Scenario.first_call (Scenario.discounted Scenario.alice "pay_1")
                 Scenario.stocked_shop
             = (Confirmed c,
                snd (PUT Scenario.first_call
                         (Scenario.discounted Scenario.alice "pay_1")
                         Scenario.stocked_shop)))
    by (eexists; vm_compute; reflexivity).
  destruct H1 as [c H1].
  assert (H2 : "UNIBLOX-AAAA-BBBB" <> EmptyString) by discriminate.
  eexists c, _. split; [exact H1|]. split; [reflexivity|].
  exact (proj2 (redeemed_code_is_refused Scenario.first_call
                  (Scenario.discounted Scenario.alice "pay_1")
                  Scenario.stocked_shop c _ "UNIBLOX-AAAA-BBBB"
                  Scenario.coupon trace H1 eq_refl H2 eq_refl eq_refl)
               3000 (mkSession Scenario.bob customer)).
Defined.

End DiscountsKept.

(** ** Refused and failed requests *)

Section Gate.

(** X24: a caller who is turned away has written nothing.  A cart request
    without a session is answered 401 and an admin request without the
    admin role 403, and in both cases the store is left exactly as it
    was: not even the settings document is created. *)
Theorem turned_away_writes_nothing env r s reply :
  turned_away r = Some reply -> handle env r s = (reply, s).
Proof.
  destruct r; simpl; try discriminate;
    try (destruct session as [u|]; [discriminate|]; now intros [= <-]);
    unfold_routes; unfold AdminSettingsRoute.forbidden,
      AdminDiscountsRoute.forbidden;
    destruct (is_admin session); try discriminate; now intros [= <-].
Qed.

Lemma turned_away_writes_nothing_witness :
  handle Scenario.first_call
         (SettingsPatch (Some (mkSession Scenario.alice customer))
            (AdminSettingsRoute.mkSettingsPatch (Some 1) None None))
         Scenario.shop
  = (Fail 403 "Admin access required", Scenario.shop).
Proof.
  apply (turned_away_writes_nothing Scenario.first_call
           (SettingsPatch (Some (mkSession Scenario.alice customer))
              (AdminSettingsRoute.mkSettingsPatch (Some 1) None None))
           Scenario.shop).
  reflexivity.
Defined.

Lemma getStoreSettings_cases s :
  snd (getStoreSettings s) = s
  \/ (settings s = None
      /\ snd (getStoreSettings s) = set_settings default_settings s).
Proof. unfold getStoreSettings. destruct (settings s); simpl; auto. Qed.

(** X25: a request that fails leaves the store as it was, the settlement
    apart.  Whatever request other than the settlement is answered with
    an error has written nothing to the products, carts, codes and
    orders, and nothing to the settings either, except that an admin
    request may have created the settings document with its defaults
    on its first read. *)
Theorem failed_request_writes_nothing env r s :
  is_confirm r = false ->
  succeeded (fst (handle env r s)) = false ->
  snd (handle env r s) = s
  \/ (settings s = None
      /\ snd (handle env r s) = set_settings default_settings s).
Proof.
  destruct r; simpl is_confirm; try discriminate; intros _; unfold_routes;
    repeat break_match; simpl; try discriminate; intros _;
    try (now left);
    match goal with
    | E : getStoreSettings s = (_, ?s0) |- _ =>
        let H := fresh in
        pose proof (getStoreSettings_cases s) as H; rewrite E in H;
        exact H
    end.
Qed.

Lemma failed_request_writes_nothing_witness :
  let r := CartAdd (Some (mkSession Scenario.alice customer)) Scenario.widget_id 2 in
  succeeded (fst (handle Scenario.first_call r Scenario.shop)) = false
  /\ snd (handle Scenario.first_call r Scenario.shop) = Scenario.shop.
Proof.
  intros r. split; [reflexivity|].
  destruct (failed_request_writes_nothing Scenario.first_call r Scenario.shop
              eq_refl eq_refl) as [H|[H _]]; [exact H|discriminate H].
Defined.

End Gate.

Section AdminSettings.

Import AdminSettingsRoute.

(** X26: what an accepted settings update stores.  Each field the request
    names takes the new value and passes the schema, each field it
    leaves out keeps the stored value (the defaults when nothing was
    stored), the counter of orders is untouched, and reading the
    settings afterwards returns exactly the document that was
    announced; the other collections are left alone. *)
Theorem settings_update_round_trip session body s nth percent expiry s' :
  PATCH session body s = (SettingsUpdated nth percent expiry, s') ->
  let old := fst (getStoreSettings s) in
  nth = default (nthOrderDiscount old) (sp_nthOrderDiscount body)
  /\ percent = default (discountPercent old) (sp_discountPercent body)
  /\ expiry = default (defaultDiscountExpiry old)
                      (sp_defaultDiscountExpiry body)
  /\ settings_valid (mkStoreSettings nth percent (totalOrders old) expiry)
     = true
  /\ GET session s'
     = (SettingsRead (mkStoreSettings nth percent (totalOrders old) expiry), s')
  /\ products s' = products s /\ carts s' = carts s
  /\ discounts s' = discounts s /\ orders s' = orders s.
Proof.
  intros H old. unfold PATCH in H.
  destruct (is_admin session) eqn:Ea; simpl in H; [|discriminate].
  destruct (updateSettingsSchema body); simpl in H; [|discriminate].
  subst old. destruct (getStoreSettings s) as [st0 s0] eqn:Eg.
  pose proof (getStoreSettings_frame s) as (F1 & F2 & F3 & F4).
  rewrite Eg in F1, F2, F3, F4. simpl in *.
  unfold settings_save in H.
  destruct (settings_valid _) eqn:Ev; [|discriminate].
  injection H as <- <- <- <-. simpl.
  do 3 (split; [reflexivity|]). split; [exact Ev|].
  split; [|now repeat split].
  unfold GET. rewrite Ea. reflexivity.
Qed.

Lemma settings_update_round_trip_witness :
  exists s',
    PATCH Scenario.root (mkSettingsPatch (Some 3) None (Some (Some 7)))
          Scenario.shop = (SettingsUpdated 3 10 (Some 7), s')
    /\ GET Scenario.root s'
       = (SettingsRead (mkStoreSettings 3 10 0 (Some 7)), s').
Proof.
  eexists. split; [reflexivity|].
  exact (proj1 (proj2 (proj2 (proj2 (proj2
    (settings_update_round_trip Scenario.root
       (mkSettingsPatch (Some 3) None (Some (Some 7))) Scenario.shop
       3 10 (Some 7) _ eq_refl)))))).
Defined.

End AdminSettings.

(** ** New codes *)

Section NewCodes.

Lemma discount_create_Some d s s' :
  discount_create d s = Some s' ->
  discount_valid d = true
  /\ find (fun e => String.eqb (d_code e) (d_code d)) (discounts s) = None
  /\ s' = set_discounts (discounts s ++ [d]) s.
Proof.
  unfold discount_create.
  destruct (discount_valid d); simpl; [|discriminate].
  destruct (existsb _ _) eqn:Ex; simpl; [discriminate|].
  intros [= <-]. split; [reflexivity|]. split; [|reflexivity].
  apply find_none_existsb.
  induction (discounts s) as [|e l IH]; simpl in *; [reflexivity|].
  apply orb_false_elim in Ex as [E1 E2].
  apply orb_false_elim in E1 as [E1 _]. now rewrite E1, IH.
Qed.

(** A code that has just been inserted is found under its own spelling
    and can be applied to a cart that is not empty. *)
Lemma fresh_code_applies d s s' now u cart :
  discount_create d s = Some s' ->
  code_setter (d_code d) = d_code d ->
  d_isUsed d = false ->
  isExpired now (d_expiresAt d) = false ->
  carts s' !! sess_user u = Some cart ->
  c_items cart <> [] ->
  cart_valid cart = true ->
  CartDiscountRoute.POST now (Some u) (d_code d) s'
  = (DiscountApplied (d_code d) (d_discountPercent d),
     set_carts (<[sess_user u := mkCart (c_items cart) (Some (d_id d))]>
                  (carts s')) s').
Proof.
  intros Hc Hn Hu He Hcart Hne Hv.
  apply discount_create_Some in Hc as (Hd & Hf & ->).
  unfold CartDiscountRoute.POST.
  assert (Hcode : String.eqb (d_code d) "" = false).
  { unfold discount_valid, nonempty in Hd.
    destruct (String.eqb (d_code d) ""); [discriminate|reflexivity]. }
  rewrite Hcode, !discount_by_code_upper.
  unfold discount_by_code. simpl discounts. rewrite Hn.
  rewrite (find_app_none _ _ _ Hf), String.eqb_refl, Hu, He.
  simpl in Hcart |- *. rewrite Hcart.
  destruct (c_items cart) as [|it items] eqn:Ei; [contradiction|].
  simpl length. simpl Nat.eqb. cbv iota.
  unfold cart_save.
  change (cart_valid (mkCart (it :: items) (Some (d_id d))))
    with (cart_valid (mkCart (it :: items) (c_appliedDiscount cart))).
  rewrite <- Ei.
  replace (mkCart (c_items cart) (c_appliedDiscount cart)) with cart
    by now destruct cart.
  now rewrite Hv.
Qed.

(** X27: a code the admin generates is stored unused, tied to no order,
    with the percentage asked for or else the one of the settings,
    always between 1 and 100; the code announced is the code stored, and
    a customer whose cart is not empty can apply it as announced until
    it expires. *)
Theorem generated_code_can_be_applied env session body s new s' now u cart :
  AdminDiscountsRoute.POST env session body s = (DiscountGenerated new, s') ->
  isExpired now (nc_expiresAt new) = false ->
  carts s !! sess_user u = Some cart ->
  c_items cart <> [] ->
  cart_valid cart = true ->
  exists d,
    discounts s' = discounts s ++ [d]
    /\ d_code d = nc_code new
    /\ d_discountPercent d = nc_discountPercent new
    /\ d_expiresAt d = nc_expiresAt new
    /\ d_isUsed d = false /\ d_usedBy d = None
    /\ d_generatedForOrder d = 0
    /\ discount_valid d = true
    /\ nc_discountPercent new
       = (match AdminDiscountsRoute.gb_discountPercent body with
          | Some p => if Qeq_bool p 0
                      then discountPercent (fst (getStoreSettings s)) else p
          | None => discountPercent (fst (getStoreSettings s))
          end)
    /\ fst (CartDiscountRoute.POST now (Some u) (nc_code new) s')
       = DiscountApplied (nc_code new) (nc_discountPercent new).
Proof.
  intros H He Hcart Hne Hv. unfold AdminDiscountsRoute.POST in H.
  destruct (is_admin session); simpl in H; [|discriminate].
  destruct (AdminDiscountsRoute.generateDiscountSchema body); simpl in H;
    [|discriminate].
  destruct (getStoreSettings s) as [st0 s0] eqn:Eg.
  pose proof (getStoreSettings_frame s) as (_ & F2 & F3 & _).
  rewrite Eg in F2, F3. simpl in F2, F3.
  destruct (discount_create _ s0) as [s1|] eqn:Ec; [|discriminate].
  injection H as <- <-. simpl in He.
  match type of Ec with discount_create ?d0 _ = _ => set (d := d0) in * end.
  pose proof (discount_create_Some _ _ _ Ec) as (Hd & _ & Es1).
  exists d. split; [rewrite Es1; simpl; now rewrite F3|].
  do 6 (split; [reflexivity|]). split; [exact Hd|].
  split; [reflexivity|].
  change (nc_code _) with (d_code d).
  change (nc_discountPercent _) with (d_discountPercent d).
  erewrite (fresh_code_applies d s0 s1 now u cart Ec); try assumption.
  - reflexivity.
  - apply code_setter_idem.
  - reflexivity.
  - rewrite Es1. simpl. now rewrite F2.
Qed.

Lemma generated_code_can_be_applied_witness :
  exists new s',
    AdminDiscountsRoute.POST Scenario.first_call Scenario.root
      (AdminDiscountsRoute.mkGenerateBody (Some 25%Q) (Some (Some 7)))
      Scenario.shop = (DiscountGenerated new, s')
    /\ nc_code new = "UNIBLOX-1B9D-6BCD"%string
    /\ fst (CartDiscountRoute.POST 2000 (Some (mkSession Scenario.alice customer))
              (nc_code new) s')
       = DiscountApplied "UNIBLOX-1B9D-6BCD" 25.
Proof.
  eexists _, _. split; [vm_compute; reflexivity|]. split; [reflexivity|].
  destruct (generated_code_can_be_applied Scenario.first_call Scenario.root
              (AdminDiscountsRoute.mkGenerateBody (Some 25%Q) (Some (Some 7)))
              Scenario.shop _ _ 2000 (mkSession Scenario.alice customer)
              Scenario.basket eq_refl eq_refl eq_refl)
    as (d & _ & _ & _ & _ & _ & _ & _ & _ & _ & H);
    [discriminate|reflexivity|exact H].
Defined.

Import CheckoutRoute.

(** X16: the reward code a settlement announces is the code it stored, and
    any customer whose cart is not empty can apply it as announced until
    it expires. *)
Theorem announced_reward_can_be_applied env body s c s' new now u cart :
  PUT env body s = (Confirmed c, s') ->
  cf_newDiscountCode c = Some new ->
  isExpired now (nc_expiresAt new) = false ->
  carts s' !! sess_user u = Some cart ->
  c_items cart <> [] ->
  cart_valid cart = true ->
  discount_by_code (nc_code new) s'
  = Some (reward_code env (bump (fst (getStoreSettings s))) (cf_orderNumber c))
  /\ CartDiscountRoute.POST now (Some u) (nc_code new) s'
     = (DiscountApplied (nc_code new) (nc_discountPercent new),
        set_carts (<[sess_user u :=
                       mkCart (c_items cart)
                              (Some (discount_oid env))]> (carts s')) s').
Proof.
  intros H Hnew He Hcart Hne Hv. unfold PUT in H.
  destruct (negb _ || negb _); [discriminate|].
  destruct (getStoreSettings s) as [st0 s0] eqn:Eg. simpl fst.
  destruct (settings_save (bump st0) s0) as [s1|]; [|discriminate].
  destruct (order_of_body env _ body) as [o|] eqn:Eo; [|discriminate].
  destruct (order_create o s1) as [s2|]; [|discriminate].
  assert (En : o_orderNumber o = totalOrders (bump st0)).
  { unfold order_of_body in Eo.
    destruct (b_userId body), (b_subtotal body), (b_total body);
      try discriminate.
    now injection Eo as <-. }
  destruct (isNthOrder _ _).
  2:{ injection H as <- <-. discriminate. }
  destruct (discount_create _ _) as [s6|] eqn:Ec; [|discriminate].
  match type of Ec with discount_create ?d0 _ = _ => set (d := d0) in * end.
  injection H as <- <-. simpl in Hnew. injection Hnew as <-.
  change (nc_code (announce d)) with (d_code d) in *.
  change (nc_expiresAt (announce d)) with (d_expiresAt d) in *.
  change (nc_discountPercent (announce d)) with (d_discountPercent d) in *.
  change (cf_orderNumber _) with (o_orderNumber o). rewrite En. fold d.
  assert (Hn : code_setter (d_code d) = d_code d) by apply code_setter_idem.
  pose proof (fresh_code_applies d _ _ now u cart Ec Hn eq_refl He Hcart
                Hne Hv) as Ha.
  split; [|exact Ha].
  apply discount_create_Some in Ec as (Hd & Hf & ->).
  unfold discount_by_code. simpl discounts. rewrite Hn.
  now rewrite (find_app_none _ _ _ Hf), String.eqb_refl.
Qed.

Lemma announced_reward_can_be_applied_witness :
  exists c s' new,
    PUT Scenario.first_call (Scenario.paid Scenario.bob "pay_1")
        Scenario.generous_shop = (Confirmed c, s')
    /\ cf_newDiscountCode c = Some new
    /\ fst (CartDiscountRoute.POST 2000
              (Some (mkSession Scenario.alice customer)) (nc_code new) s')
       = DiscountApplied "UNIBLOX-1B9D-6BCD" 10.
Proof.
  eexists _, _, _. split; [vm_compute; reflexivity|]. split; [reflexivity|].
  destruct (announced_reward_can_be_applied Scenario.first_call
              (Scenario.paid Scenario.bob "pay_1") Scenario.generous_shop
              _ _ _ 2000 (mkSession Scenario.alice customer) Scenario.basket
              eq_refl eq_refl eq_refl eq_refl) as [_ H];
    [discriminate|reflexivity|exact (f_equal fst H)].
Defined.

End NewCodes.

(** ** The admin and the codes *)

Section AdminCodes.

Import AdminDiscountsRoute.




Lemma remove_first_absent {A B} `{EqDecision B} (g : A -> B)
    (sel : A -> bool) (l : list A) x :
  NoDup (map g l) -> find sel l = Some x ->
  (forall y, sel y = true -> g y = g x) ->
  g x ∉ map g (remove_first sel l).
Proof.
  induction l as [|y l IH]; simpl; [discriminate|].
  intros Hn Hf Hg. apply NoDup_cons in Hn as [Hy Hn].
  destruct (sel y) eqn:E.
  - injection Hf as ->. exact Hy.
  - simpl. apply not_elem_of_cons. split; [|now apply IH].
    intros Heq. apply Hy. rewrite <- Heq.
    apply find_some_sel in Hf as [_ Hin].
    change (g x ∈ g <$> l). now apply list_elem_of_fmap_2.
Qed.

Lemma NoDup_map_inj {A B} (g : A -> B) (l : list A) x y :
  NoDup (map g l) -> x ∈ l -> y ∈ l -> g x = g y -> x = y.
Proof.
  induction l as [|z l IH]; simpl; intros Hn Hx Hy Hg.
  - now apply elem_of_nil in Hx.
  - apply NoDup_cons in Hn as [Hz Hn].
    apply elem_of_cons in Hx as [->|Hx]; apply elem_of_cons in Hy as [->|Hy];
      [reflexivity| | |now apply IH]; exfalso; apply Hz.
    + rewrite Hg. change (g y ∈ g <$> l). now apply list_elem_of_fmap_2.
    + rewrite <- Hg. change (g x ∈ g <$> l). now apply list_elem_of_fmap_2.
Qed.

Lemma find_none_absent {A B} (g : A -> B) (sel : A -> bool) (l : list A) b :
  (forall y, sel y = true -> g y = b) -> b ∉ map g l -> find sel l = None.
Proof.
  intros Hg. induction l as [|y l IH]; simpl; [reflexivity|].
  rewrite not_elem_of_cons. intros [H1 H2].
  destruct (sel y) eqn:E; [|now apply IH].
  exfalso. apply H1. symmetry. now apply Hg.
Qed.

(** X29: a deleted code is gone for every reader.  In a store whose codes
    are well formed, after the admin has deleted a code no document has
    its [_id] or its spelling; applying the code is answered 404, and a
    cart that still refers to it gets no discount; the other codes are
    all kept, and nothing else is written. *)
Theorem deleted_code_is_gone session id s message s' :
  discounts_in_order s ->
  DELETE session (Some id) s = (Message message, s') ->
  exists d,
    discount_by_id id s = Some d
    /\ discount_by_id id s' = None
    /\ discount_by_code (d_code d) s' = None
    /\ (forall now cart,
          c_appliedDiscount cart = Some id -> live_discount now cart s' = None)
    /\ (forall now u,
          fst (CartDiscountRoute.POST now (Some u) (d_code d) s')
          = Fail 404 "Invalid discount code")
    /\ (forall e, e ∈ discounts s -> d_id e <> id -> e ∈ discounts s')
    /\ settings s' = settings s /\ products s' = products s
    /\ carts s' = carts s /\ orders s' = orders s.
Proof.
  intros (Hv & Hi & Hn) H. unfold DELETE in H.
  destruct (is_admin session); simpl in H; [|discriminate].
  destruct (discount_by_id id s) as [d|] eqn:Ed; [|discriminate].
  injection H as <- <-. exists d. split; [reflexivity|].
  unfold discount_by_id in Ed. pose proof Ed as Ed'.
  apply find_some_sel in Ed' as [Hsel Hin].
  apply Pos.eqb_eq in Hsel. subst id.
  set (sel := fun d0 => Pos.eqb (d_id d0) (d_id d)) in *.
  assert (Hsame : forall y, sel y = true -> d_id y = d_id d).
  { intros y Hy. now apply Pos.eqb_eq in Hy. }
  assert (Hcode : code_setter (d_code d) = d_code d).
  { rewrite Forall_forall in Hv. now apply Hv. }
  pose proof (remove_first_absent d_id sel _ d Hi Ed Hsame) as Habs.
  assert (Hgone : discount_by_id (d_id d)
                    (set_discounts (remove_first sel (discounts s)) s) = None).
  { unfold discount_by_id. simpl.
    now apply (find_none_absent d_id _ _ (d_id d)). }
  assert (Hcgone : discount_by_code (d_code d)
                     (set_discounts (remove_first sel (discounts s)) s) = None).
  { unfold discount_by_code. simpl. rewrite Hcode.
    apply (find_none_absent d_code _ _ (d_code d)).
    - intros y Hy. now apply String.eqb_eq in Hy.
    - intros Hc. apply list_elem_of_fmap in Hc as (e & He & Hein).
      assert (Hes : e ∈ discounts s).
      { eapply elem_of_sublist; [exact Hein|apply remove_first_sublist]. }
      assert (e = d) by (eapply (NoDup_map_inj d_code); eauto).
      subst e. apply Habs.
      change (d_id d ∈ d_id <$> remove_first sel (discounts s)).
      now apply list_elem_of_fmap_2. }
  split; [exact Hgone|]. split; [exact Hcgone|].
  split.
  { intros now cart Hc. unfold live_discount. now rewrite Hc, Hgone. }
  split.
  { intros now u. unfold CartDiscountRoute.POST.
    assert (Hne : String.eqb (d_code d) "" = false).
    { rewrite Forall_forall in Hv. destruct (Hv d Hin) as [Hd _].
      unfold discount_valid, nonempty in Hd.
      destruct (String.eqb (d_code d) ""); [discriminate|reflexivity]. }
    now rewrite Hne, !discount_by_code_upper, Hcgone. }
  split; [|now repeat split].
  intros e He Hne. simpl. subst sel. clear - He Hne.
  induction (discounts s) as [|y l IH]; simpl; [exact He|].
  destruct (Pos.eqb_spec (d_id y) (d_id d)) as [Heq|Hneq].
  - apply elem_of_cons in He as [->|He]; [contradiction|exact He].
  - apply elem_of_cons in He as [->|He]; [left|right; now apply IH].
Qed.

Lemma deleted_code_is_gone_witness :
  exists message s',
    discounts_in_order Scenario.shop
    /\ AdminDiscountsRoute.DELETE Scenario.root (Some 21%positive)
         Scenario.shop = (Message message, s')
    /\ discount_by_id 21%positive s' = None.
Proof.
  assert (H : discounts_in_order Scenario.shop).
  { split; [|split]; simpl.
    - constructor; [split; reflexivity|constructor].
    - apply NoDup_singleton.
    - apply NoDup_singleton. }
  destruct (deleted_code_is_gone Scenario.root 21%positive Scenario.shop _ _
              H eq_refl) as (d & _ & Hg & _).
  eexists _, _. split; [exact H|]. split; [reflexivity|exact Hg].
Defined.

End AdminCodes.

(** ** Statistics *)

Section Statistics.

Import CheckoutRoute.





End Statistics.
